(** * GameForge build orchestrator: a shallow embedding of [ProjectsService]

    The development follows the TypeScript sources of the backend:
    - [ProjectsService] (cancelBuild, update, createFromAi, getDownloadUrl,
      rebuild, runBuild and the helpers nested in runBuild),
    - [TemplatesService.uploadTemplate] (archive validation),
    - the project root discovery shared by both services.

    Conventions.  JavaScript strings are modelled as [string] (a sequence of
    bytes, ASCII case mapping and ASCII white space).  A field that may be
    [undefined] is an [option].  The Mongo collection of projects is a
    [gmap] from document id to document, and the registry of live child
    processes is a [gmap] from project id to process handle. *)

From Stdlib Require Import ZArith QArith Qround Bool Lia Ascii String Sorted.
From Stdlib.Strings Require Byte.
From stdpp Require Import base option list gmap strings pretty.

Set Warnings "-register-all,-clear-no-such-hyp".

Local Open Scope string_scope.
Local Open Scope nat_scope.
Local Open Scope list_scope.

(** ** JavaScript string helpers *)

Module Js.

(** White space recognised by [String.prototype.trim] and by [\s], in the
    ASCII range: TAB, LF, VT, FF, CR and SPACE. *)
Definition is_space (a : ascii) : bool :=
  let n := nat_of_ascii a in
  ((9 <=? n) && (n <=? 13)) || (n =? 32).

Definition lower (a : ascii) : ascii :=
  let n := nat_of_ascii a in
  if (65 <=? n) && (n <=? 90) then ascii_of_nat (n + 32) else a.

Definition upper (a : ascii) : ascii :=
  let n := nat_of_ascii a in
  if (97 <=? n) && (n <=? 122) then ascii_of_nat (n - 32) else a.

Definition chars (s : string) : list ascii := list_ascii_of_string s.
Definition str (l : list ascii) : string := string_of_list_ascii l.

Fixpoint trimStartL (l : list ascii) : list ascii :=
  match l with
  | a :: r => if is_space a then trimStartL r else l
  | [] => []
  end.

Definition trimEndL (l : list ascii) : list ascii :=
  rev (trimStartL (rev l)).

Definition trimL (l : list ascii) : list ascii := trimEndL (trimStartL l).

Definition trim (s : string) : string := str (trimL (chars s)).

Definition toLowerCase (s : string) : string := str (map lower (chars s)).
Definition toUpperCase (s : string) : string := str (map upper (chars s)).

(** [l.slice(Math.max(0, l.length - n))]: the last [n] elements. *)
Definition last_n {A} (n : nat) (l : list A) : list A :=
  drop (length l - n) l.

(** [a || b] on values that are a string or [undefined]: the empty string
    is falsy. *)
Definition truthy (o : option string) : bool :=
  match o with
  | Some s => negb (String.eqb s "")
  | None => false
  end.

Definition or_else (a b : option string) : option string :=
  if truthy a then a else b.

Definition hex_digit (n : nat) : ascii :=
  if n <? 10 then ascii_of_nat (48 + n) else ascii_of_nat (55 + n).

(** Characters [encodeURIComponent] leaves alone:
    [A-Z a-z 0-9 - _ . ! ~ * ' ( )]. *)
Definition uri_unreserved (a : ascii) : bool :=
  let n := nat_of_ascii a in
  ((65 <=? n) && (n <=? 90)) || ((97 <=? n) && (n <=? 122)) ||
  ((48 <=? n) && (n <=? 57)) ||
  (n =? 45) || (n =? 95) || (n =? 46) || (n =? 33) || (n =? 126) ||
  (n =? 42) || (n =? 39) || (n =? 40) || (n =? 41).

Definition encode_byte (a : ascii) : list ascii :=
  if uri_unreserved a then [a]
  else let n := nat_of_ascii a in
       ["%"%char; hex_digit (n / 16); hex_digit (n mod 16)].

Definition encodeURIComponent (s : string) : string :=
  str (flat_map encode_byte (chars s)).

(** [s.replace(/\/$/, '')]: drop one trailing slash. *)
Definition strip_trailing_slash (s : string) : string :=
  match rev (chars s) with
  | "/"%char :: r => str (rev r)
  | _ => s
  end.

End Js.

(** ** Configuration bags

    The request bodies and the AI answers are untyped objects; a field is
    any JavaScript value.  Array elements keep what the code looks at: whether
    the element is [null]/[undefined], and otherwise its [String(x)]. *)

Inductive JsNum := Finite (q : Q) | NaN | PosInfinity | NegInfinity.

Inductive Elem :=
| ENullish
| EStr (s : string)
| EOther (toString : string).

Inductive JsVal :=
| JUndefined
| JNull
| JBool (b : bool)
| JNum (x : JsNum)
| JStr (s : string)
| JArr (xs : list Elem)
| JObj.

Record Bag := {
  timeScale : JsVal;
  difficulty : JsVal;
  theme : JsVal;
  notes : JsVal;
  speed : JsVal;
  genre : JsVal;
  assetsType : JsVal;
  mechanics : JsVal;
  primaryColor : JsVal;
  secondaryColor : JsVal;
  accentColor : JsVal;
  playerColor : JsVal;
  fogEnabled : JsVal;
  fogDensity : JsVal;
  cameraZoom : JsVal;
  gravityY : JsVal;
  jumpForce : JsVal;
}.

(** The empty object [{}]. *)
Definition emptyBag : Bag :=
  {| timeScale := JUndefined; difficulty := JUndefined; theme := JUndefined;
     notes := JUndefined; speed := JUndefined; genre := JUndefined;
     assetsType := JUndefined; mechanics := JUndefined;
     primaryColor := JUndefined; secondaryColor := JUndefined;
     accentColor := JUndefined; playerColor := JUndefined;
     fogEnabled := JUndefined; fogDensity := JUndefined;
     cameraZoom := JUndefined; gravityY := JUndefined; jumpForce := JUndefined |}.

(** ** The project document *)

Inductive Status := queued | running | ready | failed.

#[global] Instance Status_eq_dec : EqDecision Status.
Proof. solve_decision. Defined.

(** [buildTimings].  Time stamps and durations are readings of the clock;
    the model keeps which parts of the object are present: [startedAt] is
    always written with the object, [finishedAt] once the run is over, and
    [steps] lists the steps whose duration has been recorded. *)
Record BuildTimings := {
  finishedAt : bool;
  steps : list string;
}.

Record Project := {
  _id : string;
  ownerId : string;
  templateId : string;
  name : string;
  description : string;
  assetsCollectionId : option string;
  status : Status;
  error : option string;
  buildTarget : option string;
  aiUnityConfig : option Bag;
  resultStorageKey : option string;
  webglZipStorageKey : option string;
  webglIndexStorageKey : option string;
  androidApkStorageKey : option string;
  buildTimings : option BuildTimings;
  previewImageUrl : option string;
  screenshotUrls : list string;
  previewVideoUrl : option string;
}.

(** Assignments to one field of the document. *)
Definition set_name (v : string) (p : Project) : Project :=
  {| _id := _id p; ownerId := ownerId p; templateId := templateId p;
     name := v; description := description p;
     assetsCollectionId := assetsCollectionId p; status := status p;
     error := error p; buildTarget := buildTarget p;
     aiUnityConfig := aiUnityConfig p;
     resultStorageKey := resultStorageKey p;
     webglZipStorageKey := webglZipStorageKey p;
     webglIndexStorageKey := webglIndexStorageKey p;
     androidApkStorageKey := androidApkStorageKey p;
     buildTimings := buildTimings p; previewImageUrl := previewImageUrl p;
     screenshotUrls := screenshotUrls p;
     previewVideoUrl := previewVideoUrl p |}.

Definition set_description (v : string) (p : Project) : Project :=
  {| _id := _id p; ownerId := ownerId p; templateId := templateId p;
     name := name p; description := v;
     assetsCollectionId := assetsCollectionId p; status := status p;
     error := error p; buildTarget := buildTarget p;
     aiUnityConfig := aiUnityConfig p;
     resultStorageKey := resultStorageKey p;
     webglZipStorageKey := webglZipStorageKey p;
     webglIndexStorageKey := webglIndexStorageKey p;
     androidApkStorageKey := androidApkStorageKey p;
     buildTimings := buildTimings p; previewImageUrl := previewImageUrl p;
     screenshotUrls := screenshotUrls p;
     previewVideoUrl := previewVideoUrl p |}.

Definition set_status (v : Status) (p : Project) : Project :=
  {| _id := _id p; ownerId := ownerId p; templateId := templateId p;
     name := name p; description := description p;
     assetsCollectionId := assetsCollectionId p; status := v;
     error := error p; buildTarget := buildTarget p;
     aiUnityConfig := aiUnityConfig p;
     resultStorageKey := resultStorageKey p;
     webglZipStorageKey := webglZipStorageKey p;
     webglIndexStorageKey := webglIndexStorageKey p;
     androidApkStorageKey := androidApkStorageKey p;
     buildTimings := buildTimings p; previewImageUrl := previewImageUrl p;
     screenshotUrls := screenshotUrls p;
     previewVideoUrl := previewVideoUrl p |}.

Definition set_error (v : option string) (p : Project) : Project :=
  {| _id := _id p; ownerId := ownerId p; templateId := templateId p;
     name := name p; description := description p;
     assetsCollectionId := assetsCollectionId p; status := status p;
     error := v; buildTarget := buildTarget p;
     aiUnityConfig := aiUnityConfig p;
     resultStorageKey := resultStorageKey p;
     webglZipStorageKey := webglZipStorageKey p;
     webglIndexStorageKey := webglIndexStorageKey p;
     androidApkStorageKey := androidApkStorageKey p;
     buildTimings := buildTimings p; previewImageUrl := previewImageUrl p;
     screenshotUrls := screenshotUrls p;
     previewVideoUrl := previewVideoUrl p |}.

Definition set_buildTarget (v : option string) (p : Project) : Project :=
  {| _id := _id p; ownerId := ownerId p; templateId := templateId p;
     name := name p; description := description p;
     assetsCollectionId := assetsCollectionId p; status := status p;
     error := error p; buildTarget := v; aiUnityConfig := aiUnityConfig p;
     resultStorageKey := resultStorageKey p;
     webglZipStorageKey := webglZipStorageKey p;
     webglIndexStorageKey := webglIndexStorageKey p;
     androidApkStorageKey := androidApkStorageKey p;
     buildTimings := buildTimings p; previewImageUrl := previewImageUrl p;
     screenshotUrls := screenshotUrls p;
     previewVideoUrl := previewVideoUrl p |}.

Definition set_aiUnityConfig (v : option Bag) (p : Project) : Project :=
  {| _id := _id p; ownerId := ownerId p; templateId := templateId p;
     name := name p; description := description p;
     assetsCollectionId := assetsCollectionId p; status := status p;
     error := error p; buildTarget := buildTarget p; aiUnityConfig := v;
     resultStorageKey := resultStorageKey p;
     webglZipStorageKey := webglZipStorageKey p;
     webglIndexStorageKey := webglIndexStorageKey p;
     androidApkStorageKey := androidApkStorageKey p;
     buildTimings := buildTimings p; previewImageUrl := previewImageUrl p;
     screenshotUrls := screenshotUrls p;
     previewVideoUrl := previewVideoUrl p |}.

Definition set_resultStorageKey (v : option string) (p : Project) : Project :=
  {| _id := _id p; ownerId := ownerId p; templateId := templateId p;
     name := name p; description := description p;
     assetsCollectionId := assetsCollectionId p; status := status p;
     error := error p; buildTarget := buildTarget p;
     aiUnityConfig := aiUnityConfig p; resultStorageKey := v;
     webglZipStorageKey := webglZipStorageKey p;
     webglIndexStorageKey := webglIndexStorageKey p;
     androidApkStorageKey := androidApkStorageKey p;
     buildTimings := buildTimings p; previewImageUrl := previewImageUrl p;
     screenshotUrls := screenshotUrls p;
     previewVideoUrl := previewVideoUrl p |}.

Definition set_webglZipStorageKey (v : option string) (p : Project) : Project :=
  {| _id := _id p; ownerId := ownerId p; templateId := templateId p;
     name := name p; description := description p;
     assetsCollectionId := assetsCollectionId p; status := status p;
     error := error p; buildTarget := buildTarget p;
     aiUnityConfig := aiUnityConfig p;
     resultStorageKey := resultStorageKey p; webglZipStorageKey := v;
     webglIndexStorageKey := webglIndexStorageKey p;
     androidApkStorageKey := androidApkStorageKey p;
     buildTimings := buildTimings p; previewImageUrl := previewImageUrl p;
     screenshotUrls := screenshotUrls p;
     previewVideoUrl := previewVideoUrl p |}.

Definition set_webglIndexStorageKey (v : option string) (p : Project) : Project :=
  {| _id := _id p; ownerId := ownerId p; templateId := templateId p;
     name := name p; description := description p;
     assetsCollectionId := assetsCollectionId p; status := status p;
     error := error p; buildTarget := buildTarget p;
     aiUnityConfig := aiUnityConfig p;
     resultStorageKey := resultStorageKey p;
     webglZipStorageKey := webglZipStorageKey p; webglIndexStorageKey := v;
     androidApkStorageKey := androidApkStorageKey p;
     buildTimings := buildTimings p; previewImageUrl := previewImageUrl p;
     screenshotUrls := screenshotUrls p;
     previewVideoUrl := previewVideoUrl p |}.

Definition set_androidApkStorageKey (v : option string) (p : Project) : Project :=
  {| _id := _id p; ownerId := ownerId p; templateId := templateId p;
     name := name p; description := description p;
     assetsCollectionId := assetsCollectionId p; status := status p;
     error := error p; buildTarget := buildTarget p;
     aiUnityConfig := aiUnityConfig p;
     resultStorageKey := resultStorageKey p;
     webglZipStorageKey := webglZipStorageKey p;
     webglIndexStorageKey := webglIndexStorageKey p;
     androidApkStorageKey := v; buildTimings := buildTimings p;
     previewImageUrl := previewImageUrl p;
     screenshotUrls := screenshotUrls p;
     previewVideoUrl := previewVideoUrl p |}.

Definition set_buildTimings (v : option BuildTimings) (p : Project) : Project :=
  {| _id := _id p; ownerId := ownerId p; templateId := templateId p;
     name := name p; description := description p;
     assetsCollectionId := assetsCollectionId p; status := status p;
     error := error p; buildTarget := buildTarget p;
     aiUnityConfig := aiUnityConfig p;
     resultStorageKey := resultStorageKey p;
     webglZipStorageKey := webglZipStorageKey p;
     webglIndexStorageKey := webglIndexStorageKey p;
     androidApkStorageKey := androidApkStorageKey p; buildTimings := v;
     previewImageUrl := previewImageUrl p;
     screenshotUrls := screenshotUrls p;
     previewVideoUrl := previewVideoUrl p |}.

Definition set_previewImageUrl (v : option string) (p : Project) : Project :=
  {| _id := _id p; ownerId := ownerId p; templateId := templateId p;
     name := name p; description := description p;
     assetsCollectionId := assetsCollectionId p; status := status p;
     error := error p; buildTarget := buildTarget p;
     aiUnityConfig := aiUnityConfig p;
     resultStorageKey := resultStorageKey p;
     webglZipStorageKey := webglZipStorageKey p;
     webglIndexStorageKey := webglIndexStorageKey p;
     androidApkStorageKey := androidApkStorageKey p;
     buildTimings := buildTimings p; previewImageUrl := v;
     screenshotUrls := screenshotUrls p;
     previewVideoUrl := previewVideoUrl p |}.

Definition set_screenshotUrls (v : list string) (p : Project) : Project :=
  {| _id := _id p; ownerId := ownerId p; templateId := templateId p;
     name := name p; description := description p;
     assetsCollectionId := assetsCollectionId p; status := status p;
     error := error p; buildTarget := buildTarget p;
     aiUnityConfig := aiUnityConfig p;
     resultStorageKey := resultStorageKey p;
     webglZipStorageKey := webglZipStorageKey p;
     webglIndexStorageKey := webglIndexStorageKey p;
     androidApkStorageKey := androidApkStorageKey p;
     buildTimings := buildTimings p; previewImageUrl := previewImageUrl p;
     screenshotUrls := v; previewVideoUrl := previewVideoUrl p |}.

Definition set_previewVideoUrl (v : option string) (p : Project) : Project :=
  {| _id := _id p; ownerId := ownerId p; templateId := templateId p;
     name := name p; description := description p;
     assetsCollectionId := assetsCollectionId p; status := status p;
     error := error p; buildTarget := buildTarget p;
     aiUnityConfig := aiUnityConfig p;
     resultStorageKey := resultStorageKey p;
     webglZipStorageKey := webglZipStorageKey p;
     webglIndexStorageKey := webglIndexStorageKey p;
     androidApkStorageKey := androidApkStorageKey p;
     buildTimings := buildTimings p; previewImageUrl := previewImageUrl p;
     screenshotUrls := screenshotUrls p; previewVideoUrl := v |}.

(** [(project.buildTarget || 'webgl').toString().trim().toLowerCase()] and
    the test [target === 'android_apk' || target === 'android']. *)
Definition normTarget (t : option string) : string :=
  Js.toLowerCase (Js.trim (default "webgl" (Js.or_else t (Some "webgl")))).

Definition isAndroidApk (p : Project) : bool :=
  let target := normTarget (buildTarget p) in
  String.eqb target "android_apk" || String.eqb target "android".

(** ** The service: collection, process registry, observable effects *)

Inductive HttpException :=
| NotFoundException (msg : string)
| ForbiddenException
| BadRequestException (msg : string).

Inductive Result (A : Type) :=
| Ok (a : A)
| Throw (e : HttpException).
Arguments Ok {A} a.
Arguments Throw {A} e.

Definition ChildProcess := nat.

Record Service := {
  projectModel : gmap string Project;
  activeBuildProcesses : gmap string ChildProcess;
  (** processes that received SIGKILL, most recent first *)
  killed : list ChildProcess;
  (** [runBuild] tasks started and not awaited, most recent first *)
  spawned : list string;
}.

Definition save (p : Project) (s : Service) : Service :=
  {| projectModel := <[ _id p := p ]> (projectModel s);
     activeBuildProcesses := activeBuildProcesses s;
     killed := killed s; spawned := spawned s |}.

Definition kill (c : ChildProcess) (s : Service) : Service :=
  {| projectModel := projectModel s;
     activeBuildProcesses := activeBuildProcesses s;
     killed := c :: killed s; spawned := spawned s |}.

Definition spawn_runBuild (id : string) (s : Service) : Service :=
  {| projectModel := projectModel s;
     activeBuildProcesses := activeBuildProcesses s;
     killed := killed s; spawned := id :: spawned s |}.

(** *** cancelBuild *)

Definition cancellable (st : Status) : bool :=
  match st with queued | running => true | _ => false end.

Definition cancelBuild (owner id : string) (s : Service)
  : Result (string * Status) * Service :=
  match projectModel s !! id with
  | None => (Throw (NotFoundException "Project not found"), s)
  | Some project =>
    if negb (String.eqb (ownerId project) owner) then (Throw ForbiddenException, s)
    else if negb (cancellable (status project)) then
      (Ok (_id project, status project), s)
    else
      let project1 :=
        set_buildTimings
          (Some {| finishedAt := true;
                   steps := from_option steps [] (buildTimings project) |})
          (set_error (Some "Cancelled by user") (set_status failed project)) in
      let s1 := save project1 s in
      let s2 := match activeBuildProcesses s1 !! _id project with
                | Some child => kill child s1
                | None => s1
                end in
      (Ok (_id project1, status project1), s2)
  end.

(** *** getDownloadUrl *)

(** [baseUrl.replace(/\/$/, '') + '/api/projects/files/' +
    encodeURIComponent(key)] *)
Definition fileUrl (baseUrl key : string) : string :=
  Js.strip_trailing_slash baseUrl +:+ "/api/projects/files/"
    +:+ Js.encodeURIComponent key.

Definition getDownloadUrl (owner id baseUrl : string) (target : option string)
    (s : Service) : Result string :=
  match projectModel s !! id with
  | None => Throw (NotFoundException "Project not found")
  | Some p =>
    if negb (String.eqb (ownerId p) owner) then Throw ForbiddenException
    else if negb (bool_decide (status p = ready)) then
      Throw (BadRequestException "Project not ready")
    else
      let t := Js.toLowerCase (Js.trim (default "" target)) in
      let desired :=
        if String.eqb t "android_apk" || String.eqb t "android"
        then Js.or_else (androidApkStorageKey p) (resultStorageKey p)
        else if String.eqb t "webgl"
        then Js.or_else (webglZipStorageKey p) (resultStorageKey p)
        else resultStorageKey p in
      if negb (Js.truthy desired) then
        Throw (BadRequestException "Artifact not available")
      else
        Ok (fileUrl baseUrl (default "" desired))
  end.

(** *** rebuild *)

Definition rebuild (owner id : string) (s : Service) : Result string * Service :=
  match projectModel s !! id with
  | None => (Throw (NotFoundException "Project not found"), s)
  | Some project =>
    if negb (String.eqb (ownerId project) owner) then (Throw ForbiddenException, s)
    else
      let p1 := set_error None (set_status queued project) in
      let p2 :=
        if isAndroidApk p1 then
          set_androidApkStorageKey None (set_resultStorageKey None p1)
        else
          set_webglZipStorageKey None
            (set_webglIndexStorageKey None (set_resultStorageKey None p1)) in
      let p3 := set_buildTimings None p2 in
      (Ok (_id p3), spawn_runBuild (_id p3) (save p3 s))
  end.

(** What [rebuild] stores, for a project found under its id and rebuilt by
    its owner. *)
Definition rebuilt (p : Project) : Project :=
  let p1 := set_error None (set_status queued p) in
  set_buildTimings None
    (if isAndroidApk p1 then
       set_androidApkStorageKey None (set_resultStorageKey None p1)
     else
       set_webglZipStorageKey None
         (set_webglIndexStorageKey None (set_resultStorageKey None p1))).

(** ** Extracted file trees and project root discovery *)

Inductive Node :=
| File
| Dir (entries : list (string * Node)).

(** A path below the extraction directory, as its list of components:
    [path.join(dir, name)] is [dir ++ [name]]. *)
Definition Path := list string.

Definition is_dir (n : Node) : bool :=
  match n with Dir _ => true | File => false end.

Fixpoint lookup_entry (name : string) (es : list (string * Node)) : option Node :=
  match es with
  | [] => None
  | (n, x) :: r => if String.eqb n name then Some x else lookup_entry name r
  end.

Fixpoint walk (n : Node) (p : Path) : option Node :=
  match p with
  | [] => Some n
  | c :: r =>
    match n with
    | Dir es => match lookup_entry c es with
                | Some m => walk m r
                | None => None
                end
    | File => None
    end
  end.

(** [fs.existsSync]: true for a file as well as for a directory. *)
Definition existsSync (root : Node) (p : Path) : bool :=
  match walk root p with Some _ => true | None => false end.

(** [fs.promises.readdir(dir, { withFileTypes: true })]: the entries with
    their [isDirectory()] flag, or [None] when the call throws. *)
Definition readdir (root : Node) (p : Path) : option (list (string * bool)) :=
  match walk root p with
  | Some (Dir es) => Some (map (fun e => (fst e, is_dir (snd e))) es)
  | _ => None
  end.

Module RootDiscovery.

Definition maxDepth : nat := 3.

(** The test [fs.existsSync(a) && fs.existsSync(p) && fs.existsSync(s)]. *)
Definition has_unity_layout (root : Node) (dir : Path) : bool :=
  existsSync root (dir ++ ["Assets"]) &&
  existsSync root (dir ++ ["Packages"]) &&
  existsSync root (dir ++ ["ProjectSettings"]).

(** The entries pushed for one directory listing. *)
Definition pushes (dir : Path) (depth : nat) (children : list (string * bool))
  : list (Path * nat) :=
  flat_map (fun d =>
    if negb (snd d) then []
    else if String.eqb (fst d) "__MACOSX" then []
    else [(dir ++ [fst d], depth + 1)]) children.

(** The [while (queue.length > 0)] loop.  [Some dir] is the value of
    [unityRoot] when the loop ends ([[]] is [extractedRoot]); [None]
    means the iteration budget [fuel] ran out. *)
Fixpoint bfs (fuel : nat) (root : Node) (queue : list (Path * nat))
    (visited : gset Path) : option Path :=
  match queue with
  | [] => Some []
  | cur :: rest =>
    match fuel with
    | 0 => None
    | S fuel' =>
      if bool_decide (fst cur ∈ visited) then bfs fuel' root rest visited
      else
        let visited' := {[fst cur]} ∪ visited in
        if has_unity_layout root (fst cur) then Some (fst cur)
        else if maxDepth <=? snd cur then bfs fuel' root rest visited'
        else
          match readdir root (fst cur) with
          | None => bfs fuel' root rest visited'
          | Some children =>
            bfs fuel' root (rest ++ pushes (fst cur) (snd cur) children) visited'
          end
    end
  end.

Definition find_unity_root (fuel : nat) (root : Node) : option Path :=
  if has_unity_layout root [] then Some []
  else bfs fuel root [([], 0)] ∅.

(** *** The order the specification describes

    Level [d] lists the directories at depth [d] below the extraction
    directory, left to right, junk directories and what is below them
    left out; the candidates are the levels 0 to 3, shallowest first. *)
Definition subdirs (root : Node) (dir : Path) : list Path :=
  match readdir root dir with
  | None => []
  | Some children =>
    flat_map (fun d =>
      if snd d && negb (String.eqb (fst d) "__MACOSX")
      then [dir ++ [fst d]] else []) children
  end.

Fixpoint level (root : Node) (d : nat) : list Path :=
  match d with
  | 0 => [[]]
  | S d' => flat_map (subdirs root) (level root d')
  end.

Definition candidates (root : Node) : list Path :=
  level root 0 ++ level root 1 ++ level root 2 ++ level root 3.

(** "Contains the three markers", tested by existence as the code does. *)
Definition spec_root (root : Node) : Path :=
  default [] (List.find (has_unity_layout root) (candidates root)).

(** "Contains the three marker subdirectories", as the sentence reads. *)
Definition is_directory (root : Node) (p : Path) : bool :=
  match walk root p with Some (Dir _) => true | _ => false end.

Definition has_marker_subdirectories (root : Node) (dir : Path) : bool :=
  is_directory root (dir ++ ["Assets"]) &&
  is_directory root (dir ++ ["Packages"]) &&
  is_directory root (dir ++ ["ProjectSettings"]).

Definition spec_root_subdirectories (root : Node) : Path :=
  default [] (List.find (has_marker_subdirectories root) (candidates root)).

(** Sibling names are pairwise distinct, as in any directory. *)
Fixpoint wf (n : Node) : Prop :=
  match n with
  | File => True
  | Dir es =>
    NoDup (map fst es) /\
    (fix all (l : list (string * Node)) : Prop :=
       match l with
       | [] => True
       | e :: r => wf (snd e) /\ all r
       end) es
  end.

(** The names of the subdirectories a listing contributes. *)
Definition child_names (children : list (string * bool)) : list string :=
  flat_map (fun d =>
    if snd d && negb (String.eqb (fst d) "__MACOSX") then [fst d] else [])
    children.

(** What one iteration of the loop appends to the queue for an entry
    that is neither visited nor a match. *)
Definition kids (root : Node) (cur : Path * nat) : list (Path * nat) :=
  if maxDepth <=? snd cur then []
  else match readdir root (fst cur) with
       | None => []
       | Some children => pushes (fst cur) (snd cur) children
       end.

(** The queue entries for level [d]. *)
Definition queue_at (root : Node) (d : nat) : list (Path * nat) :=
  map (fun p => (p, d)) (level root d).

(** [n] successive generations of queue entries, starting from [q]. *)
Fixpoint generations (root : Node) (n : nat) (q : list (Path * nat))
  : list (Path * nat) :=
  match n with
  | 0 => []
  | S n' => q ++ generations root n' (flat_map (kids root) q)
  end.

(** The queue after [n] generations. *)
Fixpoint generation (root : Node) (n : nat) (q : list (Path * nat))
  : list (Path * nat) :=
  match n with
  | 0 => q
  | S n' => generation root n' (flat_map (kids root) q)
  end.

End RootDiscovery.

(** ** Configuration updates: [update] and [createFromAi] *)

Definition is_number (v : JsVal) : bool :=
  match v with JNum _ => true | _ => false end.
Definition is_string (v : JsVal) : bool :=
  match v with JStr _ => true | _ => false end.
Definition is_boolean (v : JsVal) : bool :=
  match v with JBool _ => true | _ => false end.
Definition is_array (v : JsVal) : bool :=
  match v with JArr _ => true | _ => false end.

Definition is_hex_digit (a : ascii) : bool :=
  let n := nat_of_ascii a in
  ((48 <=? n) && (n <=? 57)) || ((65 <=? n) && (n <=? 70)) ||
  ((97 <=? n) && (n <=? 102)).

(** The test [/^#[0-9a-fA-F]{6}$/]. *)
Definition is_hash_hex6 (s : string) : bool :=
  match Js.chars s with
  | "#"%char :: ds => (length ds =? 6) && forallb is_hex_digit ds
  | _ => false
  end.

Definition startsWithHash (s : string) : bool :=
  match s with String "#" _ => true | _ => false end.

(** A valid [#RRGGBB] in upper case: [#] and six of [0-9A-F]. *)
Definition is_upper_hex_digit (a : ascii) : bool :=
  let n := nat_of_ascii a in
  ((48 <=? n) && (n <=? 57)) || ((65 <=? n) && (n <=? 70)).

Definition is_normalized_color (s : string) : bool :=
  match Js.chars s with
  | "#"%char :: ds => (length ds =? 6) && forallb is_upper_hex_digit ds
  | _ => false
  end.

(** [normHex], local to [update]. *)
Definition normHex (v : JsVal) : option string :=
  match v with
  | JStr v =>
    let s := Js.trim v in
    if String.eqb s "" then None
    else
      let s := if negb (startsWithHash s) && (String.length s =? 6)
               then "#" +:+ s else s in
      if negb (is_hash_hex6 s) then None
      else Some (Js.toUpperCase s)
  | _ => None
  end.

Definition trimmed (v : JsVal) : JsVal :=
  match v with JStr s => JStr (Js.trim s) | _ => v end.

(** [(m == null ? '' : String(m)).trim()] *)
Definition elem_string (m : Elem) : string :=
  match m with
  | ENullish => ""
  | EStr s => Js.trim s
  | EOther s => Js.trim s
  end.

Definition norm_mechanics (xs : list Elem) : JsVal :=
  JArr (map EStr
         (take 12 (List.filter (fun m => 0 <? String.length m)
                               (map elem_string xs)))).

Record UpdateDto := {
  dto_buildTarget : JsVal;
  dto_name : JsVal;
  dto_description : JsVal;
  dto_cfg : Bag;
}.

Definition hasAiUpdate (d : Bag) : bool :=
  is_number (timeScale d) || is_number (difficulty d) || is_string (theme d) ||
  is_string (notes d) || is_number (speed d) || is_string (genre d) ||
  is_string (assetsType d) || is_array (mechanics d) ||
  is_string (primaryColor d) || is_string (secondaryColor d) ||
  is_string (accentColor d) || is_boolean (fogEnabled d) ||
  is_number (fogDensity d) || is_number (cameraZoom d) ||
  is_number (gravityY d) || is_number (jumpForce d).

Definition assign_if (test : JsVal -> bool) (new old : JsVal) : JsVal :=
  if test new then new else old.

Definition assign_hex (new old : JsVal) : JsVal :=
  match normHex new with Some c => JStr c | None => old end.

(** The block guarded by [hasAiUpdate]: [cur] after the assignments. *)
Definition mergeAiUpdate (cur d : Bag) : Bag :=
  {| timeScale := assign_if is_number (timeScale d) (timeScale cur);
     difficulty := assign_if is_number (difficulty d) (difficulty cur);
     theme := assign_if is_string (trimmed (theme d)) (theme cur);
     notes := assign_if is_string (trimmed (notes d)) (notes cur);
     speed := assign_if is_number (speed d) (speed cur);
     genre := assign_if is_string (trimmed (genre d)) (genre cur);
     assetsType := assign_if is_string (trimmed (assetsType d)) (assetsType cur);
     mechanics := match mechanics d with
                  | JArr xs => norm_mechanics xs
                  | _ => mechanics cur
                  end;
     primaryColor := assign_hex (primaryColor d) (primaryColor cur);
     secondaryColor := assign_hex (secondaryColor d) (secondaryColor cur);
     accentColor := assign_hex (accentColor d) (accentColor cur);
     playerColor := assign_hex (playerColor d) (playerColor cur);
     fogEnabled := assign_if is_boolean (fogEnabled d) (fogEnabled cur);
     fogDensity := assign_if is_number (fogDensity d) (fogDensity cur);
     cameraZoom := assign_if is_number (cameraZoom d) (cameraZoom cur);
     gravityY := assign_if is_number (gravityY d) (gravityY cur);
     jumpForce := assign_if is_number (jumpForce d) (jumpForce cur) |}.

Definition update_buildTarget (v : JsVal) (p : Project) : Project :=
  match v with
  | JStr s =>
    let bt := Js.toLowerCase (Js.trim s) in
    if String.eqb bt "webgl" || String.eqb bt "android_apk" || String.eqb bt "android"
    then set_buildTarget
           (Some (if String.eqb bt "android" then "android_apk" else bt)) p
    else p
  | _ => p
  end.

Definition update (owner id : string) (dto : UpdateDto) (s : Service)
  : Result Project * Service :=
  match projectModel s !! id with
  | None => (Throw (NotFoundException "Project not found"), s)
  | Some project =>
    if negb (String.eqb (ownerId project) owner) then (Throw ForbiddenException, s)
    else
      let p1 := update_buildTarget (dto_buildTarget dto) project in
      let named :=
        match dto_name dto with
        | JStr n =>
          let v := Js.trim n in
          if String.eqb v "" then Throw (BadRequestException "Name is required")
          else Ok (set_name v p1)
        | _ => Ok p1
        end in
      match named with
      | Throw e => (Throw e, s)
      | Ok p2 =>
        let p3 := match dto_description dto with
                  | JStr d => set_description (Js.trim d) p2
                  | _ => p2
                  end in
        let p4 :=
          if hasAiUpdate (dto_cfg dto) then
            set_aiUnityConfig
              (Some (mergeAiUpdate (default emptyBag (aiUnityConfig p3)) (dto_cfg dto)))
              p3
          else p3 in
        (Ok p4, save p4 s)
      end
  end.

(** Answers of the AI service as [createFromAi] distinguishes them: data,
    a quota error (status 429 with "quota" in the message), another error. *)
Inductive AiAnswer (A : Type) :=
| Answer (a : A)
| QuotaExceeded
| Failure (e : HttpException).
Arguments Answer {A} a.
Arguments QuotaExceeded {A}.
Arguments Failure {A} e.

Record AiParams := {
  ai_ownerId : string;
  ai_prompt : string;
  ai_templateId : option string;
  ai_buildTarget : option string;
  (** [None] when [initialConfig] is missing or not an object *)
  ai_initialConfig : option Bag;
}.

(** What the collaborators of [createFromAi] answer during one call. *)
Record AiWorld := {
  draft_name : AiAnswer (JsVal * JsVal);
  mostDownloadedPublicTemplate : option string;
  unityConfig : AiAnswer Bag;
  createdId : string;
}.

Definition pick (test : JsVal -> bool) (init unity fallback : JsVal) : JsVal :=
  if test init then init else if test unity then unity else fallback.

Definition mergedCfg (init unityCfg : Bag) : Bag :=
  let num (f : Bag -> JsVal) (q : Q) :=
      pick is_number (f init) (f unityCfg) (JNum (Finite q)) in
  let txt (f : Bag -> JsVal) (d : string) :=
      pick is_string (f init) (f unityCfg) (JStr d) in
  let opt (test : JsVal -> bool) (f : Bag -> JsVal) :=
      pick test (f init) (f unityCfg) JUndefined in
  {| timeScale := num timeScale 1%Q;
     difficulty := num difficulty (1 # 2)%Q;
     theme := txt theme "default";
     notes := txt notes "";
     speed := num speed 5%Q;
     genre := txt genre "platformer";
     assetsType := txt assetsType "lowpoly";
     mechanics := opt is_array mechanics;
     primaryColor := txt primaryColor "#22C55E";
     secondaryColor := txt secondaryColor "#3B82F6";
     accentColor := txt accentColor "#F59E0B";
     playerColor := opt is_string playerColor;
     fogEnabled := opt is_boolean fogEnabled;
     fogDensity := opt is_number fogDensity;
     cameraZoom := opt is_number cameraZoom;
     gravityY := opt is_number gravityY;
     jumpForce := opt is_number jumpForce |}.

Definition createFromAi (w : AiWorld) (params : AiParams) (s : Service)
  : Result string * Service :=
  let prompt := Js.trim (ai_prompt params) in
  if String.eqb prompt "" then (Throw (BadRequestException "Prompt is required"), s)
  else
    match draft_name w with
    | Failure e => (Throw e, s)
    | answer =>
      let aiData := match answer with
                    | Answer d => d
                    | _ => (JUndefined, JUndefined)
                    end in
      let name := match fst aiData with
                  | JStr n => if 0 <? String.length (Js.trim n)
                              then Js.trim n else "AI Game"
                  | _ => "AI Game"
                  end in
      let description := match snd aiData with
                         | JStr d => Js.trim d
                         | _ => prompt
                         end in
      let given := Js.trim (default "" (ai_templateId params)) in
      let chosen := if String.eqb given ""
                    then mostDownloadedPublicTemplate w else Some given in
      match chosen with
      | None => (Throw (NotFoundException "No public templates available"), s)
      | Some templateId =>
        match unityConfig w with
        | Failure e => (Throw e, s)
        | cfgAnswer =>
          let unityCfg := match cfgAnswer with
                          | Answer c => c
                          | _ => emptyBag
                          end in
          let init := default emptyBag (ai_initialConfig params) in
          let created :=
            {| _id := createdId w; ownerId := ai_ownerId params;
               templateId := templateId; name := name;
               description := description; assetsCollectionId := None;
               status := queued; error := None;
               buildTarget :=
                 Js.or_else (Some (Js.trim (default "" (ai_buildTarget params))))
                            (Some "webgl");
               aiUnityConfig := Some (mergedCfg init unityCfg);
               resultStorageKey := None; webglZipStorageKey := None;
               webglIndexStorageKey := None; androidApkStorageKey := None;
               buildTimings := None; previewImageUrl := None;
               screenshotUrls := []; previewVideoUrl := None |} in
          (Ok (_id created), spawn_runBuild (_id created) (save created s))
        end
      end
    end.

(** The configuration file generated by [runBuild] (step [inject_ai_patch])
    serialises the stored fields as they are. *)
Definition patchFileConfig (p : Project) : option Bag := aiUnityConfig p.

(** The configuration a build of project [id] writes to its patch file. *)
Definition configForBuild (s : Service) (id : string) : option Bag :=
  match projectModel s !! id with
  | Some p => patchFileConfig p
  | None => None
  end.


(** ** Regular expressions of the error classifier

    The patterns of [extractUnityErrorSummary] use literals, the classes
    [\s], [\d] and [.], the quantifiers [*], [+] and [{4,5}] on one class,
    and [\b]; all carry the [i] flag. *)

Module Regex.

Inductive cls := Space | Digit | AnyChar.

Inductive atom :=
| Lit (s : string)
| WordB
| Many (c : cls) (lo : nat) (hi : option nat).

Definition Star (c : cls) : atom := Many c 0 None.
Definition Plus (c : cls) : atom := Many c 1 None.

Definition in_cls (c : cls) (a : ascii) : bool :=
  let n := nat_of_ascii a in
  match c with
  | Space => Js.is_space a
  | Digit => (48 <=? n) && (n <=? 57)
  | AnyChar => negb (n =? 10) && negb (n =? 13)
  end.

Definition is_word (a : ascii) : bool :=
  let n := nat_of_ascii a in
  ((65 <=? n) && (n <=? 90)) || ((97 <=? n) && (n <=? 122)) ||
  ((48 <=? n) && (n <=? 57)) || (n =? 95).

Definition word_opt (o : option ascii) : bool :=
  match o with Some a => is_word a | None => false end.

(** Consume the literal [l] at the head of [s], ignoring case. *)
Fixpoint lit (l : list ascii) (prev : option ascii) (s : list ascii)
  : option (option ascii * list ascii) :=
  match l with
  | [] => Some (prev, s)
  | c :: l' =>
    match s with
    | a :: s' => if Ascii.eqb (Js.lower a) (Js.lower c)
                 then lit l' (Some a) s' else None
    | [] => None
    end
  end.

(** Does the pattern match at the head of [s]; [prev] is the character
    just before, for [\b]. *)
Fixpoint match_here (p : list atom) (prev : option ascii) (s : list ascii)
  : bool :=
  match p with
  | [] => true
  | Lit l :: p' =>
    match lit (Js.chars l) prev s with
    | Some (prev', s') => match_here p' prev' s'
    | None => false
    end
  | WordB :: p' =>
    xorb (word_opt prev) (word_opt (head s)) && match_here p' prev s
  | Many c lo hi :: p' =>
    (fix many (k : nat) (prev : option ascii) (s : list ascii) : bool :=
       ((lo <=? k) && match_here p' prev s) ||
       match s with
       | a :: r =>
         in_cls c a &&
         match hi with Some h => k <? h | None => true end &&
         many (S k) (Some a) r
       | [] => false
       end) 0 prev s
  end.

Fixpoint search (p : list atom) (prev : option ascii) (s : list ascii) : bool :=
  match_here p prev s ||
  match s with
  | a :: r => search p (Some a) r
  | [] => false
  end.

(** [/p/i.test(s)] *)
Definition test (p : list atom) (s : string) : bool :=
  search p None (Js.chars s).

End Regex.

(** ** The process runner: [extractUnityErrorSummary] and [runUnity] *)

Module Runner.
Import Regex.

Definition nl : string := String (ascii_of_nat 10) EmptyString.

(** [s.split(/\r?\n/)] *)
Fixpoint split_lines_from (s : list ascii) (cur : list ascii) : list string :=
  match s with
  | [] => [Js.str (rev cur)]
  | a :: r =>
    if Ascii.eqb a (ascii_of_nat 10) then
      Js.str (rev cur) :: split_lines_from r []
    else if Ascii.eqb a (ascii_of_nat 13) then
      match r with
      | b :: r' =>
        if Ascii.eqb b (ascii_of_nat 10)
        then Js.str (rev cur) :: split_lines_from r' []
        else split_lines_from r (a :: cur)
      | [] => split_lines_from r (a :: cur)
      end
    else split_lines_from r (a :: cur)
  end.

Definition split_lines (s : string) : list string :=
  split_lines_from (Js.chars s) [].

Definition patterns : list (list atom) :=
  [ [WordB; Lit "error"; Plus Space; Lit "CS"; Many Digit 4 (Some 5); WordB];
    [WordB; Lit "exception"; WordB];
    [Lit "debugger-agent:"; Star Space; Lit "unable to listen on"];
    [Lit "android"; Plus Space; Lit "sdk"];
    [Lit "android"; Plus Space; Lit "ndk"];
    [Lit "java"; Plus Space; Lit "home"];
    [Lit "jre"; Plus Space; Lit "not"; Plus Space; Lit "found"];
    [Lit "unable to find"; Star AnyChar; Lit "java"];
    [Lit "gradle"; WordB];
    [Lit "failed to run command"; Star AnyChar; Lit "gradle"];
    [Lit "build tools"; Star AnyChar; Lit "not found"];
    [Lit "sdk"; Star AnyChar; Lit "not"; Star AnyChar; Lit "found"];
    [Lit "ndk"; Star AnyChar; Lit "not"; Star AnyChar; Lit "found"];
    [Lit "license"; Star AnyChar; Lit "not accepted"];
    [Lit "keystore"];
    [Lit "scripts have compiler errors"];
    [Lit "compilation failed"];
    [Lit "aborting batchmode"];
    [WordB; Lit "Build failed"; WordB];
    [WordB; Lit "Fatal"; WordB] ].

(** The predicate of [tailLines.filter]. *)
Definition interesting (l : string) : bool :=
  let t := Js.trim l in
  if String.eqb t "" then false
  else existsb (fun p => Regex.test p t) patterns.

(** [s.length > n ? s.slice(s.length - n) : s] *)
Definition clip (n : nat) (s : string) : string :=
  if n <? String.length s then Js.str (Js.last_n n (Js.chars s)) else s.

Definition extractUnityErrorSummary (out : string) : string :=
  let lines := split_lines out in
  let tailLines := Js.last_n 400 lines in
  let matched := List.filter interesting tailLines in
  let chosen := match matched with [] => tailLines | _ => matched end in
  let summary := String.concat nl (Js.last_n 60 chosen) in
  Js.trim (clip (6 * 1000) summary).

(** What the external tool does once spawned.  [runs_ms = None] is a
    process that never exits by itself; [stdout] and [stderr] are what
    the pipes delivered before the [close] event. *)
Record Tool := {
  spawn_error : option string;
  runs_ms : option Z;
  exit_code : Z;
  stdout : string;
  stderr : string;
}.

(** [Number(process.env.UNITY_BUILD_TIMEOUT_MS || '') || 20 * 60 * 1000];
    the variable is given as the number it parses to, if any. *)
Definition maxMs (env : option Z) : Z :=
  match env with
  | Some n => if (n =? 0)%Z then (20 * 60 * 1000)%Z else n
  | None => (20 * 60 * 1000)%Z
  end.

(** The timer kills the child when it is still running after [maxMs]. *)
Definition timer_fires (env : option Z) (t : Tool) : bool :=
  match runs_ms t with
  | None => true
  | Some d => (maxMs env <? d)%Z
  end.

(** The [code] argument of the [close] event: [null] after SIGKILL. *)
Definition close_code (env : option Z) (t : Tool) : option Z :=
  if timer_fires env t then None else Some (exit_code t).

Definition code_string (c : option Z) : string :=
  match c with Some z => pretty z | None => "null" end.

(** The [close] handler: [None] resolves, [Some msg] rejects with
    [new Error(msg)]. *)
Definition on_close (code : option Z) (t : Tool) : option string :=
  match code with
  | Some 0%Z => None
  | _ =>
    let out := if String.eqb (stderr t) "" then stdout t else stderr t in
    let summary := extractUnityErrorSummary out in
    let tail := clip (4 * 1000) out in
    Some ("Unity exited with code " +:+ code_string code +:+ ". " +:+
          (if String.eqb summary "" then "Output tail: " +:+ tail
           else "Error summary:" +:+ nl +:+ summary))
  end.

(** The promise awaited in [runUnity]. *)
Definition runUnity_promise (env : option Z) (t : Tool) : option string :=
  match spawn_error t with
  | Some e => Some e
  | None => on_close (close_code env t) t
  end.

End Runner.


(** The document as [runBuild] first stores it. *)
Definition marked_running (p : Project) : Project :=
  set_buildTimings (Some {| finishedAt := false; steps := [] |})
    (set_error None (set_status running p)).

(** [new AdmZip(bytes)] followed by [getEntries()] or [extractAllTo]: the
    entry names, or the message of the error the library throws. *)
Definition ZipLibrary : Type := list Byte.byte -> string + list string.

(** [String(project.templateId).replace(/[^a-zA-Z0-9_-]/g, '_')] *)
Definition is_key_char (a : ascii) : bool :=
  let n := nat_of_ascii a in
  ((65 <=? n) && (n <=? 90)) || ((97 <=? n) && (n <=? 122)) ||
  ((48 <=? n) && (n <=? 57)) || (n =? 95) || (n =? 45).

Definition cacheKey (templateId : string) : string :=
  Js.str (map (fun a => if is_key_char a then a else "_"%char)
              (Js.chars templateId)).

(** ** The build pipeline: [runBuild]

    [runBuild] is sequential code over the file system, the database, the
    artifact store and two external tools.  Each call site that can throw
    is an [Op]; a [World] fixes, for one run, which calls throw and what
    the outside answers.  The run itself is a computation in a state and
    exception monad: an exception keeps the state reached so far, as the
    mutations of [project] made before a [throw] stay in place. *)

Module Build.
Import Runner.

Inductive Op :=
| SaveRunning | Mkdtemp | FindTemplate | CopyArchive | MkdirExtract
| ExtractArchive | EnsureBurst | CacheRestoreMkdir | CacheRestoreCp
| WriteBuildScripts | WriteAiPatch | InjectAssets | MkdirOutput
| SpawnBuild | MkdirMediaOut | SpawnCapture
| CacheSaveMkdir | CacheSaveRm | CacheSaveCp
| ReadCover | PutCover | ReadShot (i : nat) | PutShot (i : nat)
| SpawnFfmpeg | ReadVideo | PutVideo
| ReadApk | PutApk | UploadWebglFiles | ZipWebgl | PutZip
| SaveReady | SaveFailed | RemoveWorkdir.

#[global] Instance Op_eq_dec : EqDecision Op.
Proof. solve_decision. Defined.

Record World := {
  (** [Some msg]: the call at this site throws [new Error(msg)] *)
  throws : Op -> option string;
  (** [storageKey] of the template found by [findById], if any *)
  template : option string;
  (** the bytes stored under the template's key *)
  archive : list Byte.byte;
  (** the zip library on those bytes *)
  admZip : ZipLibrary;
  (** what [extractAllTo] leaves in the extraction directory *)
  tree : Node;
  env_UNITY_EDITOR_PATH : string;
  env_UNITY_BUILD_TIMEOUT_MS : option Z;
  (** the keys under which the cache directory holds a [Library] *)
  cacheEntry : string -> bool;
  build : Tool;
  capture : Tool;
  (** the build leaves a [Library] directory in the project *)
  unityWritesLibrary : bool;
  cover : bool;
  shot : nat -> bool;
  framesDir : bool;
  firstFrame : bool;
  (** the exit code of the encoder; the source sets no timer on it, and a
      run in which it never exits is not among the runs described here *)
  ffmpeg_exit : Z;
  ffmpeg_output : string;
  mp4 : bool;
  coverUrl : string;
  shotUrl : nat -> string;
  videoUrl : string;
  apk : bool;
  indexHtml : bool;
}.

Record Run := {
  (** the document held by this run *)
  doc : Project;
  (** the versions written by [project.save()], most recent first *)
  saves : list Project;
  stepStartedAt : list string;
  stepDurations : list string;
  (** the calls made, most recent first *)
  calls : list Op;
}.

Definition M (A : Type) : Type := Run -> (string + A) * Run.

Definition ret {A} (a : A) : M A := fun r => (inr a, r).
Definition throw {A} (e : string) : M A := fun r => (inl e, r).
Definition bind {A B} (m : M A) (k : A -> M B) : M B :=
  fun r => match m r with
           | (inr a, r') => k a r'
           | (inl e, r') => (inl e, r')
           end.
Definition try_catch {A} (m : M A) (h : string -> M A) : M A :=
  fun r => match m r with
           | (inl e, r') => h e r'
           | ok => ok
           end.
(** [try { m } catch { }] *)
Definition attempt (m : M unit) : M unit := try_catch m (fun _ => ret tt).
(** [try { m } finally { c }] for a [c] that does not throw. *)
Definition finally {A} (m : M A) (c : M unit) : M A :=
  fun r => let '(x, r') := m r in (x, snd (c r')).
Definition get_doc : M Project := fun r => (inr (doc r), r).
Definition get_steps : M (list string) := fun r => (inr (stepDurations r), r).
Definition get_calls : M (list Op) := fun r => (inr (calls r), r).
Definition modify (f : Project -> Project) : M unit :=
  fun r => (inr tt, {| doc := f (doc r); saves := saves r;
                       stepStartedAt := stepStartedAt r;
                       stepDurations := stepDurations r; calls := calls r |}).
Definition when (b : bool) (m : M unit) : M unit := if b then m else ret tt.

Declare Scope run_scope.
Delimit Scope run_scope with run.
Notation "x <- m ;; k" := (bind m (fun x => k))
  (at level 100, m at next level, right associativity) : run_scope.
Notation "m ;; k" := (bind m (fun _ => k))
  (at level 100, right associativity) : run_scope.
Local Open Scope run_scope.

Definition startStep (name : string) : M unit :=
  fun r => (inr tt, {| doc := doc r; saves := saves r;
                       stepStartedAt := name :: stepStartedAt r;
                       stepDurations := stepDurations r; calls := calls r |}).

Definition endStep (name : string) : M unit :=
  fun r => (inr tt,
    if bool_decide (name ∈ stepStartedAt r) then
      {| doc := doc r; saves := saves r; stepStartedAt := stepStartedAt r;
         stepDurations := stepDurations r ++ [name]; calls := calls r |}
    else r).

Definition record_call (op : Op) (r : Run) : Run :=
  {| doc := doc r; saves := saves r; stepStartedAt := stepStartedAt r;
     stepDurations := stepDurations r; calls := op :: calls r |}.

Definition persisted (r : Run) : Run :=
  {| doc := doc r; saves := doc r :: saves r;
     stepStartedAt := stepStartedAt r;
     stepDurations := stepDurations r; calls := calls r |}.

(** [e?.message ? String(e.message) : String(e)] for an [Error]. *)
Definition error_text (e : string) : string :=
  if String.eqb e "" then "Error" else e.

Section Pipeline.
Variable w : World.

Definition io (op : Op) : M unit :=
  fun r => match throws w op with
           | Some e => (inl e, record_call op r)
           | None => (inr tt, record_call op r)
           end.

(** [await project.save()] *)
Definition save_doc (op : Op) : M unit :=
  io op ;; (fun r => (inr tt, persisted r)).

Definition unityRoot : Path :=
  default [] (RootDiscovery.find_unity_root
                (length (RootDiscovery.candidates (tree w))) (tree w)).

(** [fs.existsSync(unityLibraryAbs)] before the build. *)
Definition libraryInTree : bool :=
  existsSync (tree w) (unityRoot ++ ["Library"]).

(** The cache was copied into the project by this run. *)
Definition restored (made : list Op) : bool :=
  bool_decide (CacheRestoreCp ∈ made) &&
  bool_decide (throws w CacheRestoreCp = None).

(** [new AdmZip(zipCopyAbs)] and [zip.extractAllTo(extractedRoot, true)];
    the bytes are not looked at before the library is. *)
Definition extract_archive : M unit :=
  match admZip w (archive w) with
  | inl e => fun r => (inl e, record_call ExtractArchive r)
  | inr _ => io ExtractArchive
  end.

(** [fs.existsSync(cachedLibraryAbs)] *)
Definition cachedLibrary (p : Project) : bool :=
  cacheEntry w (cacheKey (templateId p)).

Definition library_cache_restore : M unit :=
  startStep "library_cache_restore" ;;
  p <- get_doc ;;
  attempt (when (cachedLibrary p && negb libraryInTree)
             (io CacheRestoreMkdir ;; io CacheRestoreCp)) ;;
  endStep "library_cache_restore".

Definition library_cache_save : M unit :=
  startStep "library_cache_save" ;;
  attempt (made <- get_calls ;;
           when (libraryInTree || restored made || unityWritesLibrary w)
             (io CacheSaveMkdir ;; io CacheSaveRm ;; io CacheSaveCp)) ;;
  endStep "library_cache_save".

Definition runUnity (stepName : string) (op : Op) (t : Tool) : M unit :=
  startStep stepName ;;
  (fun r => match runUnity_promise (env_UNITY_BUILD_TIMEOUT_MS w) t with
            | Some e => (inl e, record_call op r)
            | None => (inr tt, record_call op r)
            end) ;;
  endStep stepName.

Fixpoint upload_shots (idx : list nat) (shotUrls : list string)
  : M (list string) :=
  match idx with
  | [] => ret shotUrls
  | i :: rest =>
    io (ReadShot i) ;; io (PutShot i) ;;
    upload_shots rest (shotUrls ++ [shotUrl w i])
  end.

(** The body of the [try] of step [upload_media]. *)
Definition upload_media_body : M unit :=
  when (cover w)
    (io ReadCover ;; io PutCover ;;
     modify (set_previewImageUrl (Some (coverUrl w)))) ;;
  shotUrls <- upload_shots (List.filter (shot w) [1; 2; 3]) [] ;;
  when (0 <? length shotUrls) (modify (set_screenshotUrls shotUrls)) ;;
  when (framesDir w && firstFrame w)
    (io SpawnFfmpeg ;;
     (if (ffmpeg_exit w =? 0)%Z then ret tt
      else throw ("ffmpeg exited with code " +:+ pretty (ffmpeg_exit w)
                  +:+ ". Output tail: " +:+ clip 3000 (ffmpeg_output w))) ;;
     when (mp4 w)
       (io ReadVideo ;; io PutVideo ;;
        modify (set_previewVideoUrl (Some (videoUrl w))))).

Definition upload_media : M unit :=
  startStep "upload_media" ;;
  attempt upload_media_body ;;
  endStep "upload_media".

Definition publish_android : M unit :=
  startStep "verify_output" ;;
  (if apk w then ret tt else throw "Android build did not produce an APK") ;;
  endStep "verify_output" ;;
  startStep "upload_android_apk" ;;
  io ReadApk ;; io PutApk ;;
  endStep "upload_android_apk" ;;
  p <- get_doc ;;
  let key := _id p +:+ ".apk" in
  modify (fun p => set_status ready
            (set_androidApkStorageKey (Some key)
               (set_resultStorageKey (Some key) p))).

Definition publish_webgl : M unit :=
  startStep "verify_output" ;;
  (if indexHtml w then ret tt
   else throw "WebGL build did not produce index.html") ;;
  endStep "verify_output" ;;
  startStep "upload_webgl_files" ;;
  io UploadWebglFiles ;;
  endStep "upload_webgl_files" ;;
  startStep "zip_webgl" ;;
  io ZipWebgl ;; io PutZip ;;
  endStep "zip_webgl" ;;
  p <- get_doc ;;
  let key := _id p +:+ ".zip" in
  modify (fun p => set_status ready
            (set_webglIndexStorageKey (Some (_id p +:+ "/webgl/index.html"))
               (set_webglZipStorageKey (Some key)
                  (set_resultStorageKey (Some key) p)))).

(** Steps 1 to 4: template, extraction, root, cache, injected files. *)
Definition prepare : M unit :=
  startStep "load_template" ;;
  io FindTemplate ;;
  match template w with
  | None => throw "Template not found"
  | Some _ => ret tt
  end ;;
  endStep "load_template" ;;
  startStep "extract_template" ;;
  io CopyArchive ;; io MkdirExtract ;; extract_archive ;;
  endStep "extract_template" ;;
  startStep "find_unity_root" ;;
  endStep "find_unity_root" ;;
  startStep "ensure_burst" ;;
  attempt (io EnsureBurst) ;;
  endStep "ensure_burst" ;;
  library_cache_restore ;;
  startStep "inject_build_script" ;;
  io WriteBuildScripts ;;
  endStep "inject_build_script" ;;
  startStep "inject_ai_patch" ;;
  p <- get_doc ;;
  when (bool_decide (is_Some (aiUnityConfig p)))
    (io WriteAiPatch ;; endStep "inject_ai_patch") ;;
  startStep "inject_assets" ;;
  when (Js.truthy (assetsCollectionId p)) (io InjectAssets) ;;
  endStep "inject_assets".

(** Step 5 and 5a: the build and the media capture, one after the other
    in the outer [try]. *)
Definition build_and_capture : M unit :=
  startStep "unity_build" ;;
  (if String.eqb (Js.trim (env_UNITY_EDITOR_PATH w)) ""
   then throw "UNITY_EDITOR_PATH env var is required to run Unity builds"
   else ret tt) ;;
  io MkdirOutput ;;
  runUnity "unity_build" SpawnBuild (build w) ;;
  io MkdirMediaOut ;;
  runUnity "capture_media" SpawnCapture (capture w).

Definition publish : M unit :=
  p <- get_doc ;;
  if isAndroidApk p then publish_android else publish_webgl.

Definition finish : M unit :=
  done <- get_steps ;;
  modify (set_buildTimings (Some {| finishedAt := true; steps := done |})) ;;
  save_doc SaveReady.

(** The body of the outer [try]. *)
Definition pipeline : M unit :=
  prepare ;;
  build_and_capture ;;
  library_cache_save ;;
  upload_media ;;
  publish ;;
  finish.

(** The [catch (e)] of the outer [try]. *)
Definition on_error (e : string) : M unit :=
  attempt (modify (fun p => set_error (Some (error_text e))
                             (set_status failed p)) ;;
           done <- get_steps ;;
           modify (set_buildTimings
                     (Some {| finishedAt := true; steps := done |})) ;;
           save_doc SaveFailed).

Definition runBuild : M unit :=
  modify marked_running ;;
  save_doc SaveRunning ;;
  startStep "workdir" ;;
  io Mkdtemp ;;
  endStep "workdir" ;;
  finally (try_catch pipeline on_error) (attempt (io RemoveWorkdir)).

Definition start (p : Project) : Run :=
  {| doc := p; saves := []; stepStartedAt := []; stepDurations := [];
     calls := [] |}.

(** One run on the document found by [findById]. *)
Definition run (p : Project) : (string + unit) * Run := runBuild (start p).

(** The status a poller reads once the run is over. *)
Definition final_status (p : Project) : Status :=
  match saves (snd (run p)) with
  | q :: _ => status q
  | [] => status p
  end.

(** The statuses written by the run, oldest first. *)
Definition status_history (p : Project) : list Status :=
  rev (map status (saves (snd (run p)))).

End Pipeline.

End Build.


(** ** Properties of computations in the run monad *)

Import Build.

(** A computation that leaves an observation [f] of the run as it was. *)
Definition preserves {X A} (f : Run -> X) (m : M A) : Prop :=
  forall r, f (snd (m r)) = f r.

(** Observations that the bookkeeping of steps and calls does not touch. *)
Class Bookkeeping {X} (f : Run -> X) : Prop := {
  bk_call : forall op r, f (record_call op r) = f r;
  bk_start : forall n r, f (snd (startStep n r)) = f r;
  bk_end : forall n r, f (snd (endStep n r)) = f r;
}.

(** A computation that writes nothing to the database. *)
Definition quiet {A} (m : M A) : Prop := preserves saves m.

(** Has the call [op] been made. *)
Definition called (op : Op) (r : Run) : bool := bool_decide (op ∈ calls r).

(** A computation that does not throw. *)
Definition total {A} (m : M A) : Prop :=
  forall r, exists a, fst (m r) = inr a.

(** A computation that writes the document at most once, and only as
    [ready], when it does not throw. *)
Definition saves_ready (m : M unit) : Prop :=
  forall r,
    saves (snd (m r)) = saves r \/
    (fst (m r) = inr tt /\
     exists q, saves (snd (m r)) = q :: saves r /\ status q = ready).

(** A computation that writes the document at most once, as [ready] or
    as [failed]. *)
Definition saves_once (m : M unit) : Prop :=
  forall r,
    saves (snd (m r)) = saves r \/
    exists q, saves (snd (m r)) = q :: saves r /\
              (status q = ready \/ status q = failed).

(** What holds of the state after a computation that did not throw. *)
Definition on_success {A} (Q : Run -> Prop) (m : M A) : Prop :=
  forall r a r', m r = (inr a, r') -> Q r'.

(** What a poller and the later steps can see of a run: everything but
    the list of calls made. *)
Definition same_view (r r' : Run) : Prop :=
  doc r = doc r' /\ saves r = saves r' /\
  stepStartedAt r = stepStartedAt r' /\ stepDurations r = stepDurations r'.

(** Two computations that answer alike and keep views equal. *)
Definition alike {A} (m m' : M A) : Prop :=
  forall r r', same_view r r' ->
    fst (m r) = fst (m' r') /\ same_view (snd (m r)) (snd (m' r')).

Definition is_cache_op (op : Op) : bool :=
  match op with
  | CacheRestoreMkdir | CacheRestoreCp
  | CacheSaveMkdir | CacheSaveRm | CacheSaveCp => true
  | _ => false
  end.

(** The world [w] in which the call [op] throws [msg]. *)
Definition with_fault (w : World) (op : Op) (msg : string) : World :=
  {| throws := fun o => if bool_decide (o = op) then Some msg else throws w o;
     template := template w;
     archive := archive w;
     admZip := admZip w;
     tree := tree w;
     env_UNITY_EDITOR_PATH := env_UNITY_EDITOR_PATH w;
     env_UNITY_BUILD_TIMEOUT_MS := env_UNITY_BUILD_TIMEOUT_MS w;
     cacheEntry := cacheEntry w;
     build := build w;
     capture := capture w;
     unityWritesLibrary := unityWritesLibrary w;
     cover := cover w;
     shot := shot w;
     framesDir := framesDir w;
     firstFrame := firstFrame w;
     ffmpeg_exit := ffmpeg_exit w;
     ffmpeg_output := ffmpeg_output w;
     mp4 := mp4 w;
     coverUrl := coverUrl w;
     shotUrl := shotUrl w;
     videoUrl := videoUrl w;
     apk := apk w;
     indexHtml := indexHtml w |}.

(** The world [w] with another state of the cache: the entry present or
    not, and other faults of the cache operations. *)
Definition with_cache (w : World) (present : string -> bool)
    (faults : Op -> option string) : World :=
  {| throws := fun op => if is_cache_op op then faults op else throws w op;
     template := template w;
     archive := archive w;
     admZip := admZip w;
     tree := tree w;
     env_UNITY_EDITOR_PATH := env_UNITY_EDITOR_PATH w;
     env_UNITY_BUILD_TIMEOUT_MS := env_UNITY_BUILD_TIMEOUT_MS w;
     cacheEntry := present;
     build := build w;
     capture := capture w;
     unityWritesLibrary := unityWritesLibrary w;
     cover := cover w;
     shot := shot w;
     framesDir := framesDir w;
     firstFrame := firstFrame w;
     ffmpeg_exit := ffmpeg_exit w;
     ffmpeg_output := ffmpeg_output w;
     mp4 := mp4 w;
     coverUrl := coverUrl w;
     shotUrl := shotUrl w;
     videoUrl := videoUrl w;
     apk := apk w;
     indexHtml := indexHtml w |}.

(** Shallower or as deep. *)
Definition no_longer (a b : Path) : Prop := length a <= length b.

(** ** Template upload: archive validation *)

Module Templates.

Record Store := {
  (** archives stored by [storage.putBuffer], most recent first *)
  archives : list (list Byte.byte);
  (** template records created *)
  records : nat;
  (** temporary work directories created *)
  workdirs : nat;
}.

(** [buf[i] === b]; reading past the end gives [undefined]. *)
Definition byte_is (b : Byte.byte) (o : option Byte.byte) : bool :=
  match o with Some a => Byte.eqb a b | None => false end.

Section Upload.
Variable admZip : ZipLibrary.

(** The checks at the head of [uploadTemplate]. *)
Definition validate (file : option (list Byte.byte)) : Result unit :=
  match file with
  | None => Throw (BadRequestException "file is required")
  | Some buf =>
    if (length buf <? 4) ||
       negb (byte_is Byte.x50 (buf !! 0)) ||
       negb (byte_is Byte.x4b (buf !! 1))
    then Throw (BadRequestException "Invalid zip file. Expected a .zip archive.")
    else
      match admZip buf with
      | inl _ | inr [] =>
        Throw (BadRequestException "Invalid or unsupported zip format")
      | inr (_ :: _) => Ok tt
      end
  end.

(** [uploadTemplate] as far as the archive goes: nothing is created or
    stored unless the checks pass; the media pass that follows works in
    a temporary directory when media are missing from the request and the
    editor is configured. *)
Definition uploadTemplate (file : option (list Byte.byte))
    (needsMedia unityConfigured : bool) (st : Store) : Result unit * Store :=
  match validate file with
  | Throw e => (Throw e, st)
  | Ok _ =>
    (Ok tt,
     {| archives := default [] file :: archives st;
        records := S (records st);
        workdirs := if needsMedia && unityConfigured
                    then S (workdirs st) else workdirs st |})
  end.

(** The stores uploads lead to, from the empty one: [uploadTemplate] is
    the only writer of a template archive. *)
Inductive reachable : Store -> Prop :=
| reachable_empty :
    reachable {| archives := []; records := 0; workdirs := 0 |}
| reachable_upload (file : option (list Byte.byte))
    (needsMedia unityConfigured : bool) (st : Store) :
    reachable st ->
    reachable (snd (uploadTemplate file needsMedia unityConfigured st)).

End Upload.

End Templates.


(** ** Sample data *)

Module Sample.

Definition job (st : Status) (target : string) : Project :=
  {| _id := "p1"; ownerId := "alice"; templateId := "tpl-1";
     name := "Runner"; description := ""; assetsCollectionId := None;
     status := st; error := None; buildTarget := Some target;
     aiUnityConfig := None;
     resultStorageKey := None; webglZipStorageKey := None;
     webglIndexStorageKey := None; androidApkStorageKey := None;
     buildTimings := None; previewImageUrl := None;
     screenshotUrls := []; previewVideoUrl := None |}.

(** A job built for the web: archive, entry point and generic reference. *)
Definition web_built : Project :=
  set_webglIndexStorageKey (Some "p1/webgl/index.html")
    (set_webglZipStorageKey (Some "p1.zip")
       (set_resultStorageKey (Some "p1.zip") (job ready "webgl"))).

(** The same job switched to the Android target by [update]. *)
Definition web_built_now_android : Project :=
  set_buildTarget (Some "android_apk") web_built.

Definition service_with (p : Project) : Service :=
  {| projectModel := {[ "p1" := p ]};
     activeBuildProcesses := {[ "p1" := 4242 ]};
     killed := []; spawned := [] |}.

Definition tool (code : Z) (out err : string) : Runner.Tool :=
  {| Runner.spawn_error := None; Runner.runs_ms := Some 90000%Z;
     Runner.exit_code := code; Runner.stdout := out; Runner.stderr := err |}.

(** A tool that prints nothing and never exits by itself. *)
Definition silent_hang : Runner.Tool :=
  {| Runner.spawn_error := None; Runner.runs_ms := None;
     Runner.exit_code := 0%Z; Runner.stdout := EmptyString;
     Runner.stderr := EmptyString |}.

Definition unity_tree : Node :=
  Dir [("Assets", Dir []); ("Packages", Dir []); ("ProjectSettings", Dir [])].

Definition pk_archive : list Byte.byte :=
  [Byte.x50; Byte.x4b; Byte.x03; Byte.x04; Byte.x14].

Definition not_a_zip : list Byte.byte :=
  [Byte.x3c; Byte.x68; Byte.x74; Byte.x6d; Byte.x6c; Byte.x3e].

(** A zip library for the samples: it opens what starts with "PK". *)
Definition zip : ZipLibrary :=
  fun bytes =>
    match bytes with
    | Byte.x50 :: Byte.x4b :: _ =>
      inr ["Assets/"; "Packages/"; "ProjectSettings/"]
    | _ => inl "Invalid or unsupported zip format. No END header found"
    end.

(** A world in which nothing throws; the build tool, the capture tool and
    the stored archive vary. *)
Definition world (build capture : Runner.Tool) (bytes : list Byte.byte)
  : Build.World :=
  {| Build.throws := fun _ => None;
     Build.template := Some "tpl-1.zip";
     Build.archive := bytes;
     Build.admZip := zip;
     Build.tree := unity_tree;
     Build.env_UNITY_EDITOR_PATH := "/opt/unity/Editor/Unity";
     Build.env_UNITY_BUILD_TIMEOUT_MS := None;
     Build.cacheEntry := fun _ => false;
     Build.build := build;
     Build.capture := capture;
     Build.unityWritesLibrary := true;
     Build.cover := true;
     Build.shot := fun _ => true;
     Build.framesDir := true;
     Build.firstFrame := true;
     Build.ffmpeg_exit := 0%Z;
     Build.ffmpeg_output := EmptyString;
     Build.mp4 := true;
     Build.coverUrl := "http://localhost:3000/api/projects/files/p1%2Fmedia%2Fcover_1.png";
     Build.shotUrl := fun _ => "http://localhost:3000/api/projects/files/p1%2Fmedia%2Fshot_1.png";
     Build.videoUrl := "http://localhost:3000/api/projects/files/p1%2Fmedia%2Fvideo_1.mp4";
     Build.apk := false;
     Build.indexHtml := true |}.

(** A request body that sets one colour, in lower case. *)
Definition lower_case_color : Bag :=
  {| timeScale := JUndefined; difficulty := JUndefined; theme := JUndefined;
     notes := JUndefined; speed := JUndefined; genre := JUndefined;
     assetsType := JUndefined; mechanics := JUndefined;
     primaryColor := JStr "#abcdef"; secondaryColor := JUndefined;
     accentColor := JUndefined; playerColor := JUndefined;
     fogEnabled := JUndefined; fogDensity := JUndefined;
     cameraZoom := JUndefined; gravityY := JUndefined; jumpForce := JUndefined |}.

Definition ai_request : AiParams :=
  {| ai_ownerId := "alice"; ai_prompt := "a neon runner game";
     ai_templateId := Some "tpl-1"; ai_buildTarget := None;
     ai_initialConfig := Some lower_case_color |}.

(** The AI service answers with a name and with no configuration. *)
Definition ai_world : AiWorld :=
  {| draft_name := Answer (JStr "Neon Runner", JStr "Run through neon.");
     mostDownloadedPublicTemplate := Some "tpl-1";
     unityConfig := QuotaExceeded;
     createdId := "p2" |}.

Definition empty_service : Service :=
  {| projectModel := ∅; activeBuildProcesses := ∅; killed := []; spawned := [] |}.

Definition update_request : UpdateDto :=
  {| dto_buildTarget := JUndefined; dto_name := JUndefined;
     dto_description := JUndefined; dto_cfg := lower_case_color |}.

(** An archive that wraps the project in a folder, beside the metadata
    folder of a macOS archiver. *)
Definition wrapped_tree : Node :=
  Dir [("__MACOSX", Dir [("Assets", File); ("Packages", File);
                          ("ProjectSettings", File)]);
       ("MyGame", Dir [("Assets", Dir [("Scenes", Dir [])]);
                        ("Packages", Dir [("manifest.json", File)]);
                        ("ProjectSettings", Dir [])])].

(** Two folders side by side: the first holds three regular files named
    like the markers, the second holds the three marker directories. *)
Definition decoy_tree : Node :=
  Dir [("A", Dir [("Assets", File); ("Packages", File);
                   ("ProjectSettings", File)]);
       ("B", Dir [("Assets", Dir []); ("Packages", Dir []);
                   ("ProjectSettings", Dir [])])].

Definition build_ok : Runner.Tool := tool 0 "Build succeeded" EmptyString.

Definition capture_fails : Runner.Tool :=
  tool 1 EmptyString "InvalidOperationException: no camera in the scene".

End Sample.

(** * The services around the build *)

(** ** More string operations *)

Module Text.

(** [s.slice(0, n)] *)
Definition slice_to (n : nat) (s : string) : string :=
  Js.str (take n (Js.chars s)).

(** [s.startsWith(p)] on character lists. *)
Fixpoint starts_with (p s : list ascii) : bool :=
  match p, s with
  | [], _ => true
  | a :: p', b :: s' => Ascii.eqb a b && starts_with p' s'
  | _ :: _, [] => false
  end.

Definition startsWith (s p : string) : bool :=
  starts_with (Js.chars p) (Js.chars s).

Definition endsWith (s p : string) : bool :=
  starts_with (rev (Js.chars p)) (rev (Js.chars s)).

Fixpoint includes_from (p s : list ascii) : bool :=
  starts_with p s ||
  match s with
  | [] => false
  | _ :: r => includes_from p r
  end.

(** [s.includes(p)] *)
Definition includes (s p : string) : bool :=
  includes_from (Js.chars p) (Js.chars s).

(** [s.split(sep)] for a one-character separator. *)
Fixpoint split_on_from (sep : ascii) (s cur : list ascii) : list string :=
  match s with
  | [] => [Js.str (rev cur)]
  | a :: r =>
    if Ascii.eqb a sep then Js.str (rev cur) :: split_on_from sep r []
    else split_on_from sep r (a :: cur)
  end.

Definition split_on (sep : ascii) (s : string) : list string :=
  split_on_from sep (Js.chars s) [].

(** [s.split(/[c]+/)] for a class of characters [c]: a run of separators
    ends the piece read so far, the empty piece before a leading run and
    after a trailing run included.  [in_run] tells that the character just
    read was a separator. *)
Fixpoint split_runs_from (sep : ascii -> bool) (s cur : list ascii)
    (in_run : bool) : list string :=
  match s with
  | [] => [Js.str (rev cur)]
  | a :: r =>
    if sep a then
      if in_run then split_runs_from sep r [] true
      else Js.str (rev cur) :: split_runs_from sep r [] true
    else split_runs_from sep r (a :: cur) false
  end.

Definition split_runs (sep : ascii -> bool) (s : string) : list string :=
  split_runs_from sep (Js.chars s) [] false.

(** [xs.filter(Boolean)] on strings: the empty string is dropped. *)
Definition non_empty (xs : list string) : list string :=
  List.filter (fun x => negb (String.eqb x "")) xs.

(** [l.join(sep)] *)
Definition join (sep : string) (l : list string) : string :=
  String.concat sep l.

End Text.

(** ** [AiService.generateUnityConfig]: the answer of the model made safe

    [parsed] is what [JSON.parse] returned for the answer of the model, read
    through the properties the function looks at.  (For the JSON value
    [null] the property reads throw, and no data is returned.) *)

Module Ai.

Definition Math_min (a b : Q) : Q := if Qle_bool a b then a else b.
Definition Math_max (a b : Q) : Q := if Qle_bool a b then b else a.

(** What [Array.prototype.join] makes of an element. *)
Definition elem_text (e : Elem) : string :=
  match e with
  | ENullish => ""
  | EStr s => s
  | EOther s => s
  end.

Section Config.

(** [Number(s)] for a string [s]: the grammar of numeric literals is a
    parameter of the development. *)
Variable StringToNumber : string -> JsNum.

(** [Number(v)] *)
Definition Number (v : JsVal) : JsNum :=
  match v with
  | JUndefined => NaN
  | JNull => Finite 0
  | JBool b => Finite (if b then 1 else 0)
  | JNum x => x
  | JStr s => StringToNumber s
  | JArr xs => StringToNumber (Text.join "," (map elem_text xs))
  | JObj => NaN
  end.

Definition clamp (n : JsVal) (min max fallback : Q) : JsVal :=
  let v := match n with JNum x => x | _ => Number n end in
  match v with
  | Finite q => JNum (Finite (Math_max min (Math_min max q)))
  | _ => JNum (Finite fallback)
  end.

Definition asShortString (v : JsVal) (maxLen : nat) (fallback : string)
  : JsVal :=
  match v with
  | JStr v =>
    let s := Js.trim v in
    if String.eqb s "" then JStr fallback
    else JStr (Text.slice_to maxLen s)
  | _ => JStr fallback
  end.

Definition asStringArray (v : JsVal) (maxItems maxLen : nat) : JsVal :=
  match v with
  | JArr xs =>
    let out :=
      take maxItems
        (map (Text.slice_to maxLen)
           (List.filter (fun x => 0 <? String.length x)
                        (map elem_string xs))) in
    match out with
    | [] => JUndefined
    | _ => JArr (map EStr out)
    end
  | _ => JUndefined
  end.

Definition asHexColor (v : JsVal) (fallback : string) : string :=
  match v with
  | JStr v =>
    let s := Js.trim v in
    if String.eqb s "" then fallback
    else
      let s := if negb (startsWithHash s) then "#" +:+ s else s in
      if negb (is_hash_hex6 s) then fallback
      else Js.toUpperCase s
  | _ => fallback
  end.

(** The [data] object returned. *)
Definition unityConfigData (parsed : Bag) : Bag :=
  {| timeScale := clamp (timeScale parsed) (1 # 2) 2 1;
     difficulty := clamp (difficulty parsed) 0 1 (1 # 2);
     theme := asShortString (theme parsed) 40 "default";
     notes := asShortString (notes parsed) 200 "";
     speed := clamp (speed parsed) 0 20 5;
     genre := asShortString (genre parsed) 30 "platformer";
     assetsType := asShortString (assetsType parsed) 30 "lowpoly";
     mechanics := asStringArray (mechanics parsed) 12 20;
     primaryColor := JStr (asHexColor (primaryColor parsed) "#22C55E");
     secondaryColor := JStr (asHexColor (secondaryColor parsed) "#3B82F6");
     accentColor := JStr (asHexColor (accentColor parsed) "#F59E0B");
     playerColor := JUndefined; fogEnabled := JUndefined;
     fogDensity := JUndefined; cameraZoom := JUndefined;
     gravityY := JUndefined; jumpForce := JUndefined |}.

(** [generateUnityConfig] on the outcome of the request to the model
    (the text parsed, or the error thrown on the way). *)
Definition generateUnityConfig (answer : AiAnswer Bag) : AiAnswer Bag :=
  match answer with
  | Answer parsed => Answer (unityConfigData parsed)
  | QuotaExceeded => QuotaExceeded
  | Failure e => Failure e
  end.

End Config.

(** *** The ranges the prompt of [generateUnityConfig] documents *)

Definition number_within (lo hi : Q) (v : JsVal) : bool :=
  match v with
  | JNum (Finite q) => Qle_bool lo q && Qle_bool q hi
  | _ => false
  end.

Definition text_within (lo hi : nat) (v : JsVal) : bool :=
  match v with
  | JStr s => (lo <=? String.length s) && (String.length s <=? hi)
  | _ => false
  end.

Definition is_color (v : JsVal) : bool :=
  match v with
  | JStr c => is_normalized_color c
  | _ => false
  end.

Definition is_undefined (v : JsVal) : bool :=
  match v with JUndefined => true | _ => false end.

Definition tags_within (maxItems lo hi : nat) (v : JsVal) : bool :=
  match v with
  | JArr xs =>
    (length xs <=? maxItems) &&
    forallb (fun e => match e with
                      | EStr s => (lo <=? String.length s) &&
                                  (String.length s <=? hi)
                      | _ => false
                      end) xs
  | _ => false
  end.

(** Numbers in range, texts within their length, at most 12 mechanics of
    1 to 20 characters, colours as [#RRGGBB] in upper case; the fields the
    function does not produce are absent. *)
Definition safe_unity_config (d : Bag) : bool :=
  number_within (1 # 2) 2 (timeScale d) &&
  number_within 0 1 (difficulty d) &&
  text_within 1 40 (theme d) &&
  text_within 0 200 (notes d) &&
  number_within 0 20 (speed d) &&
  text_within 1 30 (genre d) &&
  text_within 1 30 (assetsType d) &&
  (is_undefined (mechanics d) || tags_within 12 1 20 (mechanics d)) &&
  is_color (primaryColor d) &&
  is_color (secondaryColor d) &&
  is_color (accentColor d) &&
  is_undefined (playerColor d) &&
  is_undefined (fogEnabled d) &&
  is_undefined (fogDensity d) &&
  is_undefined (cameraZoom d) &&
  is_undefined (gravityY d) &&
  is_undefined (jumpForce d).

End Ai.

(** ** [AiGameOrchestratorService]: from a prompt to a queued project *)

Module Orchestrator.

Inductive GameType :=
| endless_runner | platformer | topdown_shooter | survival | puzzle.

Definition gameType_text (g : GameType) : string :=
  match g with
  | endless_runner => "endless_runner"
  | platformer => "platformer"
  | topdown_shooter => "topdown_shooter"
  | survival => "survival"
  | puzzle => "puzzle"
  end.

Inductive Style := style_2d | style_3d.

Definition style_text (s : Style) : string :=
  match s with style_2d => "2d" | style_3d => "3d" end.

Record ClassifiedGame := {
  gameType : GameType;
  cg_theme : string;
  mood : string;
  (** 0.5 or 0.8 *)
  cg_difficulty : Q;
  cg_mechanics : list string;
  style : Style;
}.

Definition classifyPrompt (prompt : string) : ClassifiedGame :=
  let p := Js.toLowerCase prompt in
  let has := Text.includes p in
  {| gameType :=
       if has "endless runner" || has "endless-runner" || has "runner"
       then endless_runner
       else if has "top down" || has "topdown" || has "shooter"
       then topdown_shooter
       else if has "survival" then survival
       else if has "puzzle" then puzzle
       else platformer;
     style :=
       if has "3d" || has "third person" || has "first person"
       then style_3d else style_2d;
     cg_theme :=
       if has "night" || has "dark" then "night"
       else if has "sci-fi" || has "space" then "sci-fi" else "default";
     mood :=
       if has "horror" || has "scary" then "horror"
       else if has "cozy" then "cozy" else "default";
     cg_mechanics :=
       (if has "rain" then ["rain"] else []) ++
       (if has "enemy" || has "enemies" then ["enemies"] else []) ++
       (if has "coins" || has "collect" then ["collect"] else []);
     cg_difficulty :=
       if has "hard" || has "hardcore" then (4 # 5)%Q else (1 # 2)%Q |}.

(** [candidates.sort((a, b) => score(b) - score(a))]: the sort of arrays
    is stable, so the result is the one of any stable sort by decreasing
    score; this one inserts each element before the first element of the
    sorted rest whose score is not greater. *)
Fixpoint insert_desc {A} (score : A -> nat) (x : A) (l : list A) : list A :=
  match l with
  | [] => [x]
  | y :: r => if score x <? score y then y :: insert_desc score x r
              else x :: l
  end.

Fixpoint sort_desc {A} (score : A -> nat) (l : list A) : list A :=
  match l with
  | [] => []
  | x :: r => insert_desc score x (sort_desc score r)
  end.

(** A template as [selectTemplate] reads it. *)
Record TemplateRec := {
  t_id : option string;
  t_name : option string;
  t_category : option string;
  (** [None] when [tags] is not an array *)
  t_tags : option (list string);
}.

Definition tokens (cls : ClassifiedGame) : list string :=
  take 8
    (Text.non_empty
       (map (fun x => Js.toLowerCase (Js.trim x))
            [gameType_text (gameType cls); style_text (style cls);
             cg_theme cls; mood cls])).

Definition hay (t : TemplateRec) : string :=
  Text.join " | "
    (map Js.toLowerCase
         ([default "" (t_category t)] ++ default [] (t_tags t) ++
          [default "" (t_name t)])).

Definition score (cls : ClassifiedGame) (t : TemplateRec) : nat :=
  list_sum (map (fun tok =>
                   if String.eqb tok "" then 0
                   else if Text.includes (hay t) tok then 3 else 0)
                (tokens cls)) +
  (if Text.includes (hay t) "2d" &&
      String.eqb (style_text (style cls)) "2d" then 2 else 0) +
  (if Text.includes (hay t) "3d" &&
      String.eqb (style_text (style cls)) "3d" then 2 else 0).

(** [candidates] are the public templates by decreasing downloads, at
    most 30; [None] stands for the [NotFoundException]. *)
Definition selectTemplate (candidates : list TemplateRec)
    (cls : ClassifiedGame) : option TemplateRec :=
  head (sort_desc (score cls) candidates).

(** An asset as [matchAssets] reads it. *)
Record AssetRec := {
  a_id : string;
  a_type : string;
  (** [None] when [tags] is not an array *)
  a_tags : option (list string);
}.

Record MatchedAssets := {
  characterAssetId : option string;
  backgroundAssetId : option string;
  enemyAssetId : option string;
  soundPackId : option string;
}.

Definition tagTokens (cls : ClassifiedGame) : list string :=
  take 8
    (List.filter (fun t => 3 <=? String.length t)
       (map (fun t => Js.toLowerCase (Js.trim t))
            (Text.split_runs Js.is_space
               (Text.join " " [cg_theme cls; mood cls;
                               gameType_text (gameType cls)])))).

Definition asset_score (cls : ClassifiedGame) (a : AssetRec) : nat :=
  let tags := map Js.toLowerCase (default [] (a_tags a)) in
  list_sum (map (fun tok =>
                   if existsb (fun t => Text.includes t tok) tags
                   then 2 else 0)
                (tagTokens cls)).

Definition pick_asset (assets : list AssetRec) (cls : ClassifiedGame)
    (type : string) : option AssetRec :=
  head (sort_desc (asset_score cls)
          (List.filter (fun a => String.eqb (a_type a) type) assets)).

Definition or_asset (a b : option AssetRec) : option AssetRec :=
  match a with Some _ => a | None => b end.

Definition matchAssets (assets : list AssetRec) (cls : ClassifiedGame)
  : MatchedAssets :=
  let pick := pick_asset assets cls in
  {| characterAssetId := a_id <$> or_asset (pick "model") (pick "texture");
     backgroundAssetId := a_id <$> pick "texture";
     enemyAssetId := a_id <$> or_asset (pick "model") (pick "texture");
     soundPackId := a_id <$> pick "audio" |}.

(** [initialConfig]: the configuration of the model, seeded from the
    classification where the model gave nothing. *)
Definition initialConfig (cls : ClassifiedGame) (unityCfg : Bag) : Bag :=
  {| timeScale := timeScale unityCfg;
     difficulty :=
       if is_number (difficulty unityCfg) then difficulty unityCfg
       else JNum (Finite (cg_difficulty cls));
     theme :=
       match theme unityCfg with
       | JStr t => if String.eqb (Js.trim t) "" then JStr (cg_theme cls)
                   else JStr t
       | _ => JStr (cg_theme cls)
       end;
     notes := notes unityCfg;
     speed := speed unityCfg;
     genre := genre unityCfg;
     assetsType := assetsType unityCfg;
     mechanics :=
       match mechanics unityCfg with
       | JArr (x :: xs) => JArr (x :: xs)
       | _ => JArr (map EStr (cg_mechanics cls))
       end;
     primaryColor := primaryColor unityCfg;
     secondaryColor := secondaryColor unityCfg;
     accentColor := accentColor unityCfg;
     playerColor := playerColor unityCfg;
     fogEnabled := fogEnabled unityCfg;
     fogDensity := fogDensity unityCfg;
     cameraZoom := cameraZoom unityCfg;
     gravityY := gravityY unityCfg;
     jumpForce := jumpForce unityCfg |}.

(** What the collaborators answer during one call of [generateFullGame]:
    the public templates by decreasing downloads, the ready assets of an
    owner, the outcome of the request for a configuration made here, and
    the outcomes of the two requests made inside [createFromAi]. *)
Record World := {
  publicTemplates : list TemplateRec;
  readyAssets : string -> list AssetRec;
  configAnswer : AiAnswer Bag;
  draftAnswer : AiAnswer (JsVal * JsVal);
  secondConfigAnswer : AiAnswer Bag;
  newId : string;
}.

Record FullGame := {
  fg_projectId : string;
  fg_classified : ClassifiedGame;
  fg_templateId : string;
  fg_matchedAssets : MatchedAssets;
}.

Section FullGame.
Variable StringToNumber : string -> JsNum.

Definition projectsWorld (w : World) : AiWorld :=
  {| draft_name := draftAnswer w;
     mostDownloadedPublicTemplate := head (publicTemplates w) ≫= t_id;
     unityConfig := Ai.generateUnityConfig StringToNumber (secondConfigAnswer w);
     createdId := newId w |}.

Definition generateFullGame (w : World) (owner prompt : string) (s : Service)
  : Result FullGame * Service :=
  let ownerId := Js.trim owner in
  if String.eqb ownerId "" then
    (Throw (BadRequestException "Missing ownerId"), s)
  else
    let prompt := Js.trim prompt in
    if String.eqb prompt "" then
      (Throw (BadRequestException "prompt is required"), s)
    else
      let cls := classifyPrompt prompt in
      match selectTemplate (publicTemplates w) cls with
      | None => (Throw (NotFoundException "No public templates available"), s)
      | Some template =>
        if negb (Js.truthy (t_id template)) then
          (Throw (NotFoundException "No template found"), s)
        else
          let templateId := default "" (t_id template) in
          let matchedAssets := matchAssets (readyAssets w ownerId) cls in
          let unityCfg :=
            match Ai.generateUnityConfig StringToNumber (configAnswer w) with
            | Answer d => d
            | _ => emptyBag
            end in
          match createFromAi (projectsWorld w)
                  {| ai_ownerId := ownerId; ai_prompt := prompt;
                     ai_templateId := Some templateId;
                     ai_buildTarget := Some "webgl";
                     ai_initialConfig := Some (initialConfig cls unityCfg) |}
                  s with
          | (Throw e, s') => (Throw e, s')
          | (Ok projectId, s') =>
            if String.eqb projectId "" then
              (Throw (BadRequestException "Failed to create project"), s')
            else
              (Ok {| fg_projectId := projectId; fg_classified := cls;
                     fg_templateId := templateId;
                     fg_matchedAssets := matchedAssets |}, s')
          end
      end.

End FullGame.

(** A configuration in the making: each field is absent or as
    [Ai.safe_unity_config] wants it. *)
Definition absent_or (test : JsVal -> bool) (v : JsVal) : bool :=
  Ai.is_undefined v || test v.

Definition partial_config (d : Bag) : bool :=
  absent_or (Ai.number_within (1 # 2) 2) (timeScale d) &&
  absent_or (Ai.number_within 0 1) (difficulty d) &&
  absent_or (Ai.text_within 1 40) (theme d) &&
  absent_or (Ai.text_within 0 200) (notes d) &&
  absent_or (Ai.number_within 0 20) (speed d) &&
  absent_or (Ai.text_within 1 30) (genre d) &&
  absent_or (Ai.text_within 1 30) (assetsType d) &&
  absent_or (Ai.tags_within 12 1 20) (mechanics d) &&
  absent_or Ai.is_color (primaryColor d) &&
  absent_or Ai.is_color (secondaryColor d) &&
  absent_or Ai.is_color (accentColor d) &&
  Ai.is_undefined (playerColor d) &&
  Ai.is_undefined (fogEnabled d) &&
  Ai.is_undefined (fogDensity d) &&
  Ai.is_undefined (cameraZoom d) &&
  Ai.is_undefined (gravityY d) &&
  Ai.is_undefined (jumpForce d).

End Orchestrator.

(** ** [ProjectsService]: the other entry points *)

(** A request body of [update] that carries a player colour and nothing
    else of the configuration. *)
Definition only_playerColor (c : JsVal) : Bag :=
  {| timeScale := JUndefined; difficulty := JUndefined; theme := JUndefined;
     notes := JUndefined; speed := JUndefined; genre := JUndefined;
     assetsType := JUndefined; mechanics := JUndefined;
     primaryColor := JUndefined; secondaryColor := JUndefined;
     accentColor := JUndefined; playerColor := c;
     fogEnabled := JUndefined; fogDensity := JUndefined;
     cameraZoom := JUndefined; gravityY := JUndefined; jumpForce := JUndefined |}.

(** The edits [update] makes to the document it found, up to
    [project.save()]; a blank name ends them with a [BadRequestException]. *)
Definition edited (dto : UpdateDto) (project : Project) : Result Project :=
  let p1 := update_buildTarget (dto_buildTarget dto) project in
  let named :=
    match dto_name dto with
    | JStr n =>
      let v := Js.trim n in
      if String.eqb v "" then Throw (BadRequestException "Name is required")
      else Ok (set_name v p1)
    | _ => Ok p1
    end in
  match named with
  | Throw e => Throw e
  | Ok p2 =>
    let p3 := match dto_description dto with
              | JStr d => set_description (Js.trim d) p2
              | _ => p2
              end in
    Ok (if hasAiUpdate (dto_cfg dto) then
          set_aiUnityConfig
            (Some (mergeAiUpdate (default emptyBag (aiUnityConfig p3))
                     (dto_cfg dto)))
            p3
        else p3)
  end.

(** What [edited] leaves alone. *)
Definition build_state (p : Project) :=
  (_id p, ownerId p, templateId p, assetsCollectionId p, status p, error p,
   resultStorageKey p, webglZipStorageKey p, webglIndexStorageKey p,
   androidApkStorageKey p, buildTimings p, previewImageUrl p,
   screenshotUrls p, previewVideoUrl p).

(** *** getRuntimeConfig *)

(** [test(v) ? v : fallback] *)
Definition runtime (test : JsVal -> bool) (v fallback : JsVal) : JsVal :=
  if test v then v else fallback.

Definition runtimeConfigData (cfg : Bag) : Bag :=
  {| timeScale := runtime is_number (timeScale cfg) (JNum (Finite 1));
     difficulty := runtime is_number (difficulty cfg) (JNum (Finite (1 # 2)));
     theme := runtime is_string (theme cfg) (JStr "default");
     notes := runtime is_string (notes cfg) (JStr "");
     speed := runtime is_number (speed cfg) (JNum (Finite 5));
     genre := runtime is_string (genre cfg) (JStr "platformer");
     assetsType := runtime is_string (assetsType cfg) (JStr "lowpoly");
     mechanics := runtime is_array (mechanics cfg) (JArr []);
     primaryColor := runtime is_string (primaryColor cfg) (JStr "#22C55E");
     secondaryColor := runtime is_string (secondaryColor cfg) (JStr "#3B82F6");
     accentColor := runtime is_string (accentColor cfg) (JStr "#F59E0B");
     playerColor := runtime is_string (playerColor cfg) JUndefined;
     fogEnabled := runtime is_boolean (fogEnabled cfg) JUndefined;
     fogDensity := runtime is_number (fogDensity cfg) JUndefined;
     cameraZoom := runtime is_number (cameraZoom cfg) JUndefined;
     gravityY := runtime is_number (gravityY cfg) JUndefined;
     jumpForce := runtime is_number (jumpForce cfg) JUndefined |}.

(** [updatedAt] is the time stamp mongoose keeps on the document, as
    [toISOString] renders it, or [None] when the document has none. *)
Definition getRuntimeConfig (owner id : string) (updatedAt : option string)
    (s : Service) : Result (Bag * option string) :=
  match projectModel s !! id with
  | None => Throw (NotFoundException "Project not found")
  | Some p =>
    if negb (String.eqb (ownerId p) owner) then Throw ForbiddenException
    else Ok (runtimeConfigData (default emptyBag (aiUnityConfig p)), updatedAt)
  end.

(** A configuration with another value of [mechanics]. *)
Definition with_mechanics (m : JsVal) (d : Bag) : Bag :=
  {| timeScale := timeScale d; difficulty := difficulty d; theme := theme d;
     notes := notes d; speed := speed d; genre := genre d;
     assetsType := assetsType d; mechanics := m;
     primaryColor := primaryColor d; secondaryColor := secondaryColor d;
     accentColor := accentColor d; playerColor := playerColor d;
     fogEnabled := fogEnabled d; fogDensity := fogDensity d;
     cameraZoom := cameraZoom d; gravityY := gravityY d;
     jumpForce := jumpForce d |}.

(** *** getPreviewUrl *)

Definition getPreviewUrl (owner id baseUrl : string) (token : option string)
    (s : Service) : Result string :=
  match projectModel s !! id with
  | None => Throw (NotFoundException "Project not found")
  | Some p =>
    if negb (String.eqb (ownerId p) owner) then Throw ForbiddenException
    else if negb (Js.truthy (webglIndexStorageKey p)) then
      Throw (BadRequestException "Missing web build")
    else
      let base := Js.strip_trailing_slash baseUrl in
      let url := base +:+ "/api/projects/files/"
                   +:+ default "" (webglIndexStorageKey p) in
      if Js.truthy token && negb (String.eqb (Js.trim (default "" token)) "")
      then Ok (url +:+ "?projectId=" +:+ Js.encodeURIComponent id
                   +:+ "&token=" +:+ Js.encodeURIComponent (default "" token)
                   +:+ "&apiBaseUrl=" +:+ Js.encodeURIComponent base)
      else Ok url
  end.

(** ** The states of a run before its guarded part *)

(** After the first [project.save()] was attempted. *)
Definition first_save_attempted (p : Project) : Run :=
  record_call SaveRunning
    {| doc := marked_running p; saves := []; stepStartedAt := [];
       stepDurations := []; calls := [] |}.

(** After [mkdtemp] was attempted. *)
Definition workdir_attempted (p : Project) : Run :=
  record_call Mkdtemp
    (snd (startStep "workdir" (persisted (first_save_attempted p)))).

(** When the outer [try] is entered. *)
Definition workdir_made (p : Project) : Run :=
  snd (endStep "workdir" (workdir_attempted p)).

(** The calls that come after the two invocations of the editor. *)
Definition after_capture (op : Op) : bool :=
  match op with
  | CacheSaveMkdir | CacheSaveRm | CacheSaveCp
  | ReadCover | PutCover | ReadShot _ | PutShot _
  | SpawnFfmpeg | ReadVideo | PutVideo
  | ReadApk | PutApk | UploadWebglFiles | ZipWebgl | PutZip
  | SaveReady => true
  | _ => false
  end.

(** The identity of a document and its references to artifacts. *)
Definition artifacts (p : Project) :=
  (_id p, ownerId p, buildTarget p, resultStorageKey p,
   webglZipStorageKey p, webglIndexStorageKey p, androidApkStorageKey p).

(** The references a successful build of [p] leaves. *)
Definition published (p : Project) :=
  if isAndroidApk p then
    (_id p, ownerId p, buildTarget p, Some (_id p +:+ ".apk"),
     webglZipStorageKey p, webglIndexStorageKey p, Some (_id p +:+ ".apk"))
  else
    (_id p, ownerId p, buildTarget p, Some (_id p +:+ ".zip"),
     Some (_id p +:+ ".zip"), Some (_id p +:+ "/webgl/index.html"),
     androidApkStorageKey p).

(** The collection once the last version a run wrote is in it. *)
Definition stored_by_run (w : World) (p : Project) (s : Service) : Service :=
  match saves (snd (run w p)) with
  | q :: _ => save q s
  | [] => s
  end.

(** A computation that writes the document at most once, and as ready
    only with the references of a successful build of the document it
    started from. *)
Definition saves_published (m : M unit) : Prop :=
  forall r,
    saves (snd (m r)) = saves r \/
    exists q, saves (snd (m r)) = q :: saves r /\
              (status q = failed \/
               (status q = ready /\ error q = error (doc r) /\
                artifacts q = published (doc r))).

(** What the steps before publication leave alone. *)
Definition artifact_view (r : Run) := (artifacts (doc r), status (doc r), error (doc r)).

(** ** [runUnity]: the environment of the editor

    [unityEnv] starts as a copy of [process.env]; the loop over its keys
    deletes a variable whose upper-cased name starts with [MONO_] or
    [UNITY_DEBUG] or is [DEBUGGER_AGENT], and a variable whose lower-cased
    value mentions [debugger-agent]. *)

Module UnityEnv.

Definition delete_if (b : bool) (k : string) (m : gmap string string) : gmap string string :=
  if b then delete k m else m.

(** The body of the loop, for the key [k]. *)
Definition scrub (m : gmap string string) (k : string) : gmap string string :=
  let key := Js.toUpperCase k in
  let m1 := delete_if (Text.startsWith key "MONO_") k m in
  let m2 := delete_if (Text.startsWith key "UNITY_DEBUG") k m1 in
  let m3 := delete_if (String.eqb key "DEBUGGER_AGENT") k m2 in
  match m3 !! k with
  | Some v =>
    delete_if (Text.includes (Js.toLowerCase v) "debugger-agent") k m3
  | None => m3
  end.

(** The loop over [Object.keys(unityEnv)], the keys in the order [keys]. *)
Definition unityEnv (env : gmap string string) (keys : list string) : gmap string string :=
  foldl scrub env keys.

(** The variables the loop is after. *)
Definition debugging (k v : string) : bool :=
  Text.startsWith (Js.toUpperCase k) "MONO_" ||
  Text.startsWith (Js.toUpperCase k) "UNITY_DEBUG" ||
  String.eqb (Js.toUpperCase k) "DEBUGGER_AGENT" ||
  Text.includes (Js.toLowerCase v) "debugger-agent".

End UnityEnv.

(** ** [runBuild]: the files of the web build and their keys *)

Module WebglUpload.

(** [walk(dirAbs)]: the paths of the entries that are not directories,
    below the directory [n] reached by [dir], in the order of the
    listings. *)
Fixpoint files (n : Node) (dir : Path) : list Path :=
  match n with
  | File => []
  | Dir es =>
    (fix entries (l : list (string * Node)) : list Path :=
       match l with
       | [] => []
       | e :: r =>
         match snd e with
         | File => [dir ++ [fst e]]
         | Dir _ => files (snd e) (dir ++ [fst e])
         end ++ entries r
       end) es
  end.

(** [s.replace(/\\/g, '/')] *)
Definition slashes (s : string) : string :=
  Js.str (map (fun a => if Ascii.eqb a "\"%char then "/"%char else a)
              (Js.chars s)).

(** [webglPrefix + '/' + rel] for the file at [p] below the output
    directory. *)
Definition key_of (id : string) (p : Path) : string :=
  (id +:+ "/webgl") +:+ "/" +:+ slashes (Text.join "/" p).

(** The keys under which the files of the output directory are stored. *)
Definition uploaded_keys (id : string) (out : Node) : list string :=
  map (key_of id) (files out []).

End WebglUpload.

(** ** [TemplatesService]: tags, access and reviews *)

Module TemplateMeta.

(** [params.tagsCsv ? String(params.tagsCsv).split(',').map(t => t.trim())
    .filter(Boolean) : []] *)
Definition parse_tags (tagsCsv : option string) : list string :=
  if Js.truthy tagsCsv then
    Text.non_empty (map Js.trim (Text.split_on "," (default "" tagsCsv)))
  else [].

(** A tag as the parser returns it: not empty, trimmed, free of commas. *)
Definition is_tag (t : string) : Prop :=
  t <> "" /\ Js.trim t = t /\ ","%char ∉ Js.chars t.

(** *** The metadata [uploadTemplate] stores *)

(** A metadata object read from JSON or returned by the AI service.  A
    field is [None] when its value is falsy, else [Some] of the [String]
    of the value; [m_tags] is [None] when [tags] is not an array, and else
    holds [String(t || '')] for each element [t]. *)
Record Meta := {
  m_name : option string;
  m_description : option string;
  m_category : option string;
  m_tags : option (list string);
}.

(** [x?.f && String(x.f).trim() ? String(x.f).trim() : ''] *)
Definition read (m : option Meta) (f : Meta -> option string) : string :=
  match m ≫= f with
  | Some s => Js.trim s
  | None => ""
  end.

(** [Array.isArray(x?.tags) ? x.tags.map(t => String(t || '').trim())
    .filter(Boolean) : []] *)
Definition read_tags (m : option Meta) : list string :=
  match m ≫= m_tags with
  | Some l => Text.non_empty (map Js.trim l)
  | None => []
  end.

(** [a || b || ...] on strings, the last one standing when all are
    empty. *)
Fixpoint first_text (l : list string) : string :=
  match l with
  | [] => ""
  | [s] => s
  | s :: r => if String.eqb s "" then first_text r else s
  end.

(** [n.replace(/^\//, '')] *)
Definition strip_leading_slash (n : string) : string :=
  match n with
  | String "/" r => r
  | _ => n
  end.

(** The name of the first folder or file of the archive, the metadata of
    macOS archivers left out. *)
Definition fallbackZipName (entryNames : list string) : string :=
  let names :=
    List.filter
      (fun n => negb (String.eqb n "") && negb (String.eqb n ".") &&
                negb (String.eqb n ".."))
      (map (fun n => default "" (head (Text.split_on "/" n)))
         (List.filter (fun n => negb (Text.startsWith n "__MACOSX/"))
            (map strip_leading_slash (Text.non_empty entryNames)))) in
  Js.trim (default "" (head names)).

(** [/[-_ .]+/] *)
Definition is_name_separator (a : ascii) : bool :=
  Ascii.eqb a "-" || Ascii.eqb a "_" || Ascii.eqb a " " || Ascii.eqb a ".".

(** Tags made of the pieces of the archive name. *)
Definition name_tags (zipName : string) : list string :=
  take 8
    (Text.non_empty
       (map (fun t => Js.toLowerCase (Js.trim t))
            (Text.split_runs is_name_separator zipName))).

(** The request, as far as the metadata goes. *)
Record Request := {
  r_name : option string;
  r_description : option string;
  r_category : option string;
  r_tagsCsv : option string;
  (** a preview image with its buffer and its MIME type, or a screenshot
      with both among the first two *)
  r_images : bool;
  (** media given with their buffer *)
  r_previewImage : bool;
  r_screenshots : bool;
  r_previewVideo : bool;
}.

(** What the automatic media pass finds once the capture has run: the
    [metadata.json] the capture wrote, readable or not, and the draft the
    AI service makes of the captured images, if it is asked and answers. *)
Record Capture := {
  captured_metadata : option Meta;
  captured_draft : option Meta;
}.

(** The outside of [uploadTemplate], as far as the metadata goes. *)
Record Outside := {
  entryNames : list string;
  (** the metadata entry of the archive, when there is one and it parses *)
  metadataInZip : option Meta;
  (** the draft made of the uploaded images, when the service answers *)
  imageDraft : option Meta;
  (** [UNITY_EDITOR_PATH] is set *)
  editor : bool;
  (** [None]: a step of the media pass up to the capture threw *)
  capture : option Capture;
}.

Record Stored := {
  s_name : string;
  s_description : string;
  s_category : string;
  s_tags : list string;
}.

Definition with_name (v : string) (c : Stored) : Stored :=
  {| s_name := v; s_description := s_description c;
     s_category := s_category c; s_tags := s_tags c |}.
Definition with_description (v : string) (c : Stored) : Stored :=
  {| s_name := s_name c; s_description := v;
     s_category := s_category c; s_tags := s_tags c |}.
Definition with_category (v : string) (c : Stored) : Stored :=
  {| s_name := s_name c; s_description := s_description c;
     s_category := v; s_tags := s_tags c |}.
Definition with_tags (v : list string) (c : Stored) : Stored :=
  {| s_name := s_name c; s_description := s_description c;
     s_category := s_category c; s_tags := v |}.

(** [if (b) c = f(c)] *)
Definition assign (b : bool) (f : Stored -> Stored) (c : Stored) : Stored :=
  if b then f c else c.

Definition blank (s : string) : bool := String.eqb s "".
Definition no_tags (l : list string) : bool :=
  match l with [] => true | _ => false end.

Section Upload.
Variables (req : Request) (out : Outside).

Definition incomingName : string := Js.trim (default "" (r_name req)).
Definition incomingDescription : string :=
  Js.trim (default "" (r_description req)).
Definition incomingCategory : string := Js.trim (default "" (r_category req)).
Definition tags : list string := parse_tags (r_tagsCsv req).

Definition missingName : bool := blank incomingName.
Definition missingDescription : bool := blank incomingDescription.
Definition missingCategory : bool := blank incomingCategory.
Definition missingTags : bool := no_tags tags.
Definition missingAny : bool :=
  missingName || missingDescription || missingCategory || missingTags.

Definition zipMetadata : option Meta :=
  if missingAny then metadataInZip out else None.

Definition visionDraft : option Meta :=
  if missingAny && blank (read zipMetadata m_name) &&
     blank (read zipMetadata m_description) &&
     blank (read zipMetadata m_category) && no_tags (read_tags zipMetadata)
  then (if r_images req then imageDraft out else None)
  else None.

(** The document as [templateModel.create] receives it. *)
Definition created : Stored :=
  let zipName := fallbackZipName (entryNames out) in
  {| s_name :=
       Text.slice_to 80
         (first_text [incomingName; read zipMetadata m_name;
                      read visionDraft m_name; zipName; "Untitled Template"]);
     s_description :=
       Text.slice_to 400
         (first_text [incomingDescription; read zipMetadata m_description;
                      read visionDraft m_description; ""]);
     s_category :=
       Text.slice_to 60
         (first_text [incomingCategory; read zipMetadata m_category;
                      read visionDraft m_category; "General"]);
     s_tags :=
       take 20 (if negb (no_tags tags) then tags
                else if negb (no_tags (read_tags zipMetadata))
                     then read_tags zipMetadata
                     else read_tags visionDraft) |}.

(** The block "Auto-fill template metadata if missing", from the
    metadata the capture wrote. *)
Definition fill_from_capture (md : option Meta) (c : Stored) : Stored :=
  match md with
  | None => c
  | Some _ =>
    let zipName := fallbackZipName (entryNames out) in
    let finalName := first_text [read md m_name; zipName] in
    let c1 := assign (missingName && negb (blank finalName))
                (with_name (Text.slice_to 80 finalName)) c in
    let c2 := assign (missingDescription &&
                      negb (blank (read md m_description)))
                (with_description
                   (Text.slice_to 400 (read md m_description))) c1 in
    let c3 := assign (missingCategory && negb (blank (read md m_category)))
                (with_category (Text.slice_to 60 (read md m_category))) c2 in
    match md ≫= m_tags with
    | Some _ =>
      assign (missingTags && negb (no_tags (take 20 (read_tags md))))
        (with_tags (take 20 (read_tags md))) c3
    | None => c3
    end
  end.

Definition fill_from_name (c : Stored) : Stored :=
  let zipName := fallbackZipName (entryNames out) in
  assign (missingTags && no_tags (s_tags c) && negb (blank zipName) &&
          negb (no_tags (name_tags zipName)))
    (with_tags (name_tags zipName)) c.

Definition stillMissingName (c : Stored) : bool :=
  blank (Js.trim (s_name c)) || String.eqb (s_name c) "Untitled Template".
Definition stillMissingDescription (c : Stored) : bool :=
  blank (Js.trim (s_description c)).
Definition stillMissingCategory (c : Stored) : bool :=
  blank (Js.trim (s_category c)) || String.eqb (s_category c) "General".
Definition stillMissingTags (c : Stored) : bool := no_tags (s_tags c).

Definition fill_from_draft (draft : option Meta) (c : Stored) : Stored :=
  if (stillMissingName c || stillMissingDescription c ||
      stillMissingCategory c || stillMissingTags c) && missingAny
  then
    match draft with
    | None => c
    | Some _ =>
      let c1 := assign (stillMissingName c && negb (blank (read draft m_name)))
                  (with_name (Text.slice_to 80 (read draft m_name))) c in
      let c2 := assign (stillMissingDescription c &&
                        negb (blank (read draft m_description)))
                  (with_description
                     (Text.slice_to 400 (read draft m_description))) c1 in
      let c3 := assign (stillMissingCategory c &&
                        negb (blank (read draft m_category)))
                  (with_category
                     (Text.slice_to 60 (read draft m_category))) c2 in
      match draft ≫= m_tags with
      | Some _ =>
        assign (stillMissingTags c &&
                negb (no_tags (take 20 (read_tags draft))))
          (with_tags (take 20 (read_tags draft))) c3
      | None => c3
      end
    end
  else c.

(** The media the request did not bring. *)
Definition needsMedia : bool :=
  negb (r_previewImage req) || negb (r_screenshots req) ||
  negb (r_previewVideo req).

(** The metadata of the document [uploadTemplate] saves at its end. *)
Definition stored : Stored :=
  if needsMedia && editor out then
    match capture out with
    | None => created
    | Some cap =>
      if missingAny then
        fill_from_draft (captured_draft cap)
          (fill_from_name (fill_from_capture (captured_metadata cap) created))
      else created
    end
  else created.

End Upload.

(** The limits of the stored metadata. *)
Definition within_limits (c : Stored) : Prop :=
  String.length (s_name c) <= 80 /\ String.length (s_description c) <= 400 /\
  String.length (s_category c) <= 60 /\ length (s_tags c) <= 20 /\
  s_name c <> "" /\ s_category c <> "".

End TemplateMeta.

(** ** [TemplatesService]: paid templates *)

Module Market.

(** An [HttpException], or an error of another kind thrown by the payment
    client. *)
Inductive Error :=
| NotFound (msg : string)
| Forbidden (msg : option string)
| BadRequest (msg : string)
| Internal (msg : string).

Record Template := {
  isPublic : bool;
  price : JsVal;
  downloads : nat;
  storageKey : string;
}.

Record Purchase := {
  stripePaymentIntentId : string;
  amount : JsNum;
  currency : string;
}.

(** The collections of templates and of purchases, the latter keyed by
    template and user as its queries and its upsert are. *)
Record Store := {
  templates : gmap string Template;
  purchases : gmap (string * string) Purchase;
}.

(** [typeof t.price === 'number' ? t.price : 0] *)
Definition price_of (t : Template) : JsNum :=
  match price t with JNum x => x | _ => Finite 0 end.

(** [!price || price <= 0] *)
Definition free (p : JsNum) : bool :=
  match p with
  | Finite q => Qeq_bool q 0 || Qle_bool q 0
  | NaN => true
  | NegInfinity => true
  | PosInfinity => false
  end.

(** [price > 0] *)
Definition positive (p : JsNum) : bool :=
  match p with
  | Finite q => match (0 ?= q)%Q with Lt => true | _ => false end
  | PosInfinity => true
  | _ => false
  end.

Definition found (id : string) (st : Store) : Error + Template :=
  match templates st !! id with
  | None => inl (NotFound "Template not found")
  | Some t => if isPublic t then inr t else inl (Forbidden None)
  end.

Definition getAccess (templateId userId : string) (st : Store)
  : Error + bool :=
  match found templateId st with
  | inl e => inl e
  | inr t =>
    if free (price_of t) then inr true
    else inr (bool_decide (is_Some (purchases st !! (templateId, userId))))
  end.

Definition fileUrl (baseUrl key : string) : string :=
  Js.strip_trailing_slash baseUrl +:+ "/api/templates/files/"
    +:+ Js.encodeURIComponent key.

Definition downloaded (t : Template) : Template :=
  {| isPublic := isPublic t; price := price t;
     downloads := downloads t + 1; storageKey := storageKey t |}.

Definition getDownloadUrlAuthed (templateId baseUrl userId : string)
    (st : Store) : (Error + string) * Store :=
  match found templateId st with
  | inl e => (inl e, st)
  | inr t =>
    if positive (price_of t) &&
       negb (bool_decide (is_Some (purchases st !! (templateId, userId))))
    then (inl (Forbidden (Some "Purchase required")), st)
    else
      (inr (fileUrl baseUrl (storageKey t)),
       {| templates := <[templateId := downloaded t]> (templates st);
          purchases := purchases st |})
  end.

(** [Math.round]: the nearest integer, a tie going up. *)
Definition Math_round (x : JsNum) : JsNum :=
  match x with
  | Finite q => Finite (inject_Z (Qfloor (q + (1 # 2))))
  | _ => x
  end.

(** [!n] for a number: zero or NaN. *)
Definition falsy (x : JsNum) : bool :=
  match x with
  | Finite q => Qeq_bool q 0
  | NaN => true
  | _ => false
  end.

(** [a === b] on numbers. *)
Definition same_number (a b : JsNum) : bool :=
  match a, b with
  | Finite x, Finite y => Qeq_bool x y
  | PosInfinity, PosInfinity => true
  | NegInfinity, NegInfinity => true
  | _, _ => false
  end.

(** A PaymentIntent as [confirmPurchase] reads it. *)
Record Intent := {
  pi_id : string;
  pi_kind : option string;
  pi_templateId : option string;
  pi_userId : option string;
  pi_status : string;
  pi_amount_received : option JsNum;
  pi_amount : JsNum;
  pi_currency : option string;
}.

(** The payment client: whether a secret key is configured, and what
    [paymentIntents.retrieve] answers (an error thrown, or the intent, or a
    falsy value). *)
Record Stripe := {
  configured : bool;
  retrieve : string -> string + option Intent;
}.

Section Payment.

(** [p * 100] in floating point, for a finite [p]. *)
Variable times100 : Q -> JsNum.

Definition toStripeAmount (p : JsNum) : JsNum :=
  match p with
  | Finite q => if Qle_bool q 0 then Finite 0 else Math_round (times100 q)
  | _ => Finite 0
  end.

Definition text (o : option string) : string :=
  default "" (Js.or_else o (Some "")).

Definition confirmPurchase (stripe : Stripe)
    (templateId userId paymentIntentId : string) (st : Store)
  : (Error + option Template) * Store :=
  match found templateId st with
  | inl e => (inl e, st)
  | inr t =>
    let expectedAmount := toStripeAmount (price_of t) in
    if falsy expectedAmount then (inl (BadRequest "Template is free"), st)
    else if negb (configured stripe) then
      (inl (BadRequest "Stripe is not configured"), st)
    else
      match retrieve stripe paymentIntentId with
      | inl e => (inl (Internal e), st)
      | inr None => (inl (NotFound "PaymentIntent not found"), st)
      | inr (Some intent) =>
        if negb (String.eqb (text (pi_kind intent)) "template_purchase") then
          (inl (BadRequest "Invalid payment intent"), st)
        else if negb (String.eqb (text (pi_templateId intent)) templateId) then
          (inl (BadRequest "Payment intent does not match template"), st)
        else if negb (String.eqb (text (pi_userId intent)) userId) then
          (inl (BadRequest "Payment intent does not match user"), st)
        else if negb (String.eqb (pi_status intent) "succeeded") then
          (inl (BadRequest ("Payment not completed (status="
                            +:+ pi_status intent +:+ ")")), st)
        else if negb (same_number
                        (default (pi_amount intent) (pi_amount_received intent))
                        expectedAmount) then
          (inl (BadRequest "Payment amount mismatch"), st)
        else
          let st' :=
            {| templates := templates st;
               purchases :=
                 <[(templateId, userId) :=
                     {| stripePaymentIntentId := pi_id intent;
                        amount := expectedAmount;
                        currency :=
                          default "" (Js.or_else (pi_currency intent)
                                                 (Some "usd")) |}]>
                   (purchases st) |} in
          (inr (templates st' !! templateId), st')
      end
  end.

End Payment.

End Market.

(** ** [TemplatesService]: reviews and their moderation *)

Module Reviews.

Inductive Status := pending | approved.

#[global] Instance review_status_eq_dec : EqDecision Status.
Proof. solve_decision. Defined.

Record Review := {
  username : string;
  rating : JsNum;
  comment : string;
  (** [None]: a document written before the field existed *)
  status : option Status;
  approvedAt : option nat;
  approvedBy : option string;
}.

Record TemplateDoc := {
  isPublic : bool;
  name : string;
  t_rating : JsNum;
}.

Record Notification := {
  userIds : list string;
  message_rating : JsNum;
  n_templateId : string;
  n_userId : string;
}.

(** The collections, the reviews keyed by template and user as the
    filter of every [updateOne] is, and the notifications sent. *)
Record Store := {
  templates : gmap string TemplateDoc;
  reviews : gmap (string * string) Review;
  notifications : list Notification;
}.

(** [Math.min(5, x)] and [Math.max(1, x)] *)
Definition Math_min (a : Q) (x : JsNum) : JsNum :=
  match x with
  | Finite q => Finite (if Qle_bool a q then a else q)
  | PosInfinity => Finite a
  | _ => x
  end.

Definition Math_max (a : Q) (x : JsNum) : JsNum :=
  match x with
  | Finite q => Finite (if Qle_bool a q then q else a)
  | NegInfinity => Finite a
  | _ => x
  end.

(** [x >= a] *)
Definition at_least (a : Q) (x : JsNum) : bool :=
  match x with
  | Finite q => Qle_bool a q
  | PosInfinity => true
  | _ => false
  end.

Definition resolveReviewStatus (rating : JsNum) : Status :=
  if at_least 4 rating then approved else pending.

(** [$or: [{ status: 'approved' }, { status: { $exists: false } }]] *)
Definition public_status (r : Review) : bool :=
  match status r with
  | Some approved | None => true
  | Some pending => false
  end.

(** Whether [listPublicReviews], and [listPendingReviews], hold the review
    of a user. *)
Definition listed_publicly (templateId userId : string) (st : Store) : bool :=
  match reviews st !! (templateId, userId) with
  | Some r => public_status r
  | None => false
  end.

Definition listed_pending (templateId userId : string) (st : Store) : bool :=
  match reviews st !! (templateId, userId) with
  | Some r => bool_decide (status r = Some pending)
  | None => false
  end.

Section Rated.

(** What the aggregation and the rounding make of the ratings of the
    reviews it matches, in floating point: [None] when there is no
    average or it is not a finite number. *)
Variable rated : list JsNum -> option JsNum.

(** What the users service and the notifications service answer:
    [None] when one of them throws. *)
Variable admins : option (list string).

Definition matched (templateId : string) (st : Store) : list JsNum :=
  map (fun kv => rating kv.2)
      (List.filter (fun kv => String.eqb (kv.1).1 templateId &&
                              public_status kv.2)
                   (map_to_list (reviews st))).

(** The tail of [upsertReview] and of [approveReview]: the rating of the
    template follows the reviews the public sees. *)
Definition refresh (templateId : string) (t : TemplateDoc) (st : Store)
  : Store :=
  match rated (matched templateId st) with
  | Some v =>
    {| templates :=
         <[templateId := {| isPublic := isPublic t; name := name t;
                            t_rating := v |}]> (templates st);
       reviews := reviews st; notifications := notifications st |}
  | None => st
  end.

Definition upsertReview (templateId userId user : string) (r : JsNum)
    (c : string) (now : nat) (st : Store)
  : (Market.Error + Status) * Store :=
  match templates st !! templateId with
  | None => (inl (Market.NotFound "Template not found"), st)
  | Some t =>
    if negb (isPublic t) then (inl (Market.Forbidden None), st)
    else
      let rating := Math_max 1 (Math_min 5 (Market.Math_round r)) in
      let comment := Js.trim c in
      if String.eqb comment "" then
        (inl (Market.BadRequest "comment is required"), st)
      else if 400 <? String.length comment then
        (inl (Market.BadRequest "comment too long"), st)
      else
        let status := resolveReviewStatus rating in
        let approver (A : Type) (v : A) : option A :=
          if decide (status = approved) then Some v else None in
        let st1 :=
          {| templates := templates st;
             reviews :=
               <[(templateId, userId) :=
                   {| username := user; rating := rating; comment := comment;
                      status := Some status;
                      approvedAt := approver nat now;
                      approvedBy := approver string userId |}]> (reviews st);
             notifications := notifications st |} in
        match status, admins with
        | pending, None => (inl (Market.Internal "notification"), st1)
        | pending, Some ids =>
          let st2 :=
            {| templates := templates st1; reviews := reviews st1;
               notifications :=
                 notifications st1 ++
                 [{| userIds := ids; message_rating := rating;
                     n_templateId := templateId; n_userId := userId |}] |} in
          (inr status, refresh templateId t st2)
        | approved, _ => (inr status, refresh templateId t st1)
        end
  end.

Definition approveReview (templateId userId approver : string) (now : nat)
    (st : Store) : (Market.Error + unit) * Store :=
  match templates st !! templateId with
  | None => (inl (Market.NotFound "Template not found"), st)
  | Some t =>
    let st1 :=
      {| templates := templates st;
         reviews :=
           match reviews st !! (templateId, userId) with
           | Some r =>
             <[(templateId, userId) :=
                 {| username := username r; rating := rating r;
                    comment := comment r; status := Some approved;
                    approvedAt := Some now;
                    approvedBy := Some approver |}]> (reviews st)
           | None => reviews st
           end;
         notifications := notifications st |} in
    (inr (), refresh templateId t st1)
  end.

End Rated.

End Reviews.

(** ** [AiService]: repairing the JSON of a model answer *)

Module ModelJson.

(** *** [sanitize]

    The text is a list of UTF-16 code units, as the loop reads it. *)

Definition quote : N := 34.
Definition backslash : N := 92.

(** [s.replace(/\u2028/g, '\\u2028').replace(/\u2029/g, '\\u2029')]: a
    line or paragraph separator becomes its escape. *)
Definition separator (ch : N) : list N :=
  if (ch =? 8232)%N then [92; 117; 50; 48; 50; 56]%N
  else if (ch =? 8233)%N then [92; 117; 50; 48; 50; 57]%N
  else [ch].

Definition escape_separators (s : list N) : list N := flat_map separator s.

(** The loop of [sanitize], from the state [inString], [escaped]. *)
Fixpoint sanitize_from (inString escaped : bool) (s : list N) : list N :=
  match s with
  | [] => []
  | ch :: r =>
    if inString then
      if escaped then ch :: sanitize_from true false r
      else if (ch =? backslash)%N then ch :: sanitize_from true true r
      else if (ch =? quote)%N then ch :: sanitize_from false false r
      else if (ch =? 10)%N then 92%N :: 110%N :: sanitize_from true false r
      else if (ch =? 13)%N then 92%N :: 114%N :: sanitize_from true false r
      else if (ch =? 9)%N then 92%N :: 116%N :: sanitize_from true false r
      else ch :: sanitize_from true false r
    else if (ch =? quote)%N then ch :: sanitize_from true false r
    else ch :: sanitize_from false false r
  end.

Definition sanitize (input : list N) : list N :=
  sanitize_from false false (escape_separators input).

(** A line feed, a carriage return or a tab. *)
Definition control (ch : N) : bool :=
  (ch =? 10)%N || (ch =? 13)%N || (ch =? 9)%N.

(** A line or paragraph separator. *)
Definition is_separator (ch : N) : bool := (ch =? 8232)%N || (ch =? 8233)%N.

(** Whether a string literal of the text holds a control character that
    no backslash precedes, read with the states of the loop. *)
Fixpoint bare_control_from (inString escaped : bool) (s : list N) : bool :=
  match s with
  | [] => false
  | ch :: r =>
    if inString then
      if escaped then bare_control_from true false r
      else if (ch =? backslash)%N then bare_control_from true true r
      else if (ch =? quote)%N then bare_control_from false false r
      else control ch || bare_control_from true false r
    else if (ch =? quote)%N then bare_control_from true false r
    else bare_control_from false false r
  end.

Definition bare_control (s : list N) : bool := bare_control_from false false s.

(** *** [tryBalance] *)

(** The text from the first brace or bracket on: [indexOf] of both, the
    smaller one taken. *)
Fixpoint from_first_open (l : list ascii) : option (ascii * list ascii) :=
  match l with
  | [] => None
  | a :: r =>
    if Ascii.eqb a "{" || Ascii.eqb a "[" then Some (a, r)
    else from_first_open r
  end.

Definition closer (openChar : ascii) : ascii :=
  if Ascii.eqb openChar "{" then "}"%char else "]"%char.

(** The double quote. *)
Definition dquote : ascii := ascii_of_nat 34.

Record Scan := {
  depth : Z;
  inString : bool;
  escaped : bool;
}.

(** One turn of the loop. *)
Definition scan_step (openChar closeChar : ascii) (st : Scan) (ch : ascii)
  : Scan :=
  if inString st then
    if escaped st then
      {| depth := depth st; inString := true; escaped := false |}
    else if Ascii.eqb ch "\" then
      {| depth := depth st; inString := true; escaped := true |}
    else if Ascii.eqb ch dquote then
      {| depth := depth st; inString := false; escaped := escaped st |}
    else st
  else if Ascii.eqb ch dquote then
    {| depth := depth st; inString := true; escaped := escaped st |}
  else
    let d1 := if Ascii.eqb ch openChar then (depth st + 1)%Z else depth st in
    let d2 := if Ascii.eqb ch closeChar then (d1 - 1)%Z else d1 in
    {| depth := d2; inString := false; escaped := escaped st |}.

Definition scan (openChar : ascii) (st : Scan) (l : list ascii) : Scan :=
  foldl (scan_step openChar (closer openChar)) st l.

Definition start : Scan := {| depth := 0; inString := false; escaped := false |}.

(** The state the loop of [tryBalance] ends in, for a text with a brace
    or bracket. *)
Definition scanned (s : string) : option (ascii * Scan) :=
  match from_first_open (Js.chars s) with
  | None => None
  | Some (o, r) => Some (o, scan o start (o :: r))
  end.

Definition tryBalance (input : string) : string :=
  let s := Js.trim input in
  if String.eqb s "" then s
  else
    match scanned s with
    | None => s
    | Some (o, st) =>
      if (depth st <=? 0)%Z then s
      else s +:+ Js.str (replicate (Z.to_nat (depth st)) (closer o))
    end.

End ModelJson.

(** ** [ProjectsController.aiCreate] *)

Module Controller.

(** The value of [runtimeConfig] in the body: an object with its keys, an
    array, or anything else ([undefined], [null], a number, a string, a
    boolean). *)
Inductive RuntimeConfig :=
| RcObject (keys : gmap string JsVal)
| RcArray
| RcOther.

Record CreateProjectAiDto := {
  prompt : string;
  runtimeConfig : RuntimeConfig;
  dto_buildTarget : option string;
  dto_templateId : option string;
  (** the seventeen configuration fields of the body *)
  fields : Bag;
}.

(** [rc && typeof rc === 'object' && !Array.isArray(rc) ? rc : undefined],
    and then [runtimeConfig || {}]. *)
Definition runtimeConfig_object (dto : CreateProjectAiDto)
  : gmap string JsVal :=
  match runtimeConfig dto with
  | RcObject keys => keys
  | _ => ∅
  end.

(** The object literal passed as [initialConfig]: the keys of
    [runtimeConfig] first, then the seventeen fields of the body, each
    written whether the body has it or not. *)
Definition initialConfig (dto : CreateProjectAiDto) : gmap string JsVal :=
  let d := fields dto in
  <["jumpForce" := jumpForce d]>
  (<["gravityY" := gravityY d]>
  (<["cameraZoom" := cameraZoom d]>
  (<["fogDensity" := fogDensity d]>
  (<["fogEnabled" := fogEnabled d]>
  (<["playerColor" := playerColor d]>
  (<["accentColor" := accentColor d]>
  (<["secondaryColor" := secondaryColor d]>
  (<["primaryColor" := primaryColor d]>
  (<["mechanics" := mechanics d]>
  (<["assetsType" := assetsType d]>
  (<["genre" := genre d]>
  (<["speed" := speed d]>
  (<["notes" := notes d]>
  (<["theme" := theme d]>
  (<["difficulty" := difficulty d]>
  (<["timeScale" := timeScale d]>
     (runtimeConfig_object dto))))))))))))))))).

(** [o.k]: [undefined] for a key the object does not have. *)
Definition get (o : gmap string JsVal) (k : string) : JsVal :=
  default JUndefined (o !! k).

(** The keys [createFromAi] reads of [initialConfig]. *)
Definition read_config (o : gmap string JsVal) : Bag :=
  {| timeScale := get o "timeScale"; difficulty := get o "difficulty";
     theme := get o "theme"; notes := get o "notes"; speed := get o "speed";
     genre := get o "genre"; assetsType := get o "assetsType";
     mechanics := get o "mechanics"; primaryColor := get o "primaryColor";
     secondaryColor := get o "secondaryColor";
     accentColor := get o "accentColor"; playerColor := get o "playerColor";
     fogEnabled := get o "fogEnabled"; fogDensity := get o "fogDensity";
     cameraZoom := get o "cameraZoom"; gravityY := get o "gravityY";
     jumpForce := get o "jumpForce" |}.

Definition aiCreate (w : AiWorld) (user : string) (dto : CreateProjectAiDto)
    (s : Service) : Result string * Service :=
  createFromAi w
    {| ai_ownerId := user; ai_prompt := prompt dto;
       ai_templateId := dto_templateId dto;
       ai_buildTarget := dto_buildTarget dto;
       ai_initialConfig := Some (read_config (initialConfig dto)) |} s.

Definition with_runtimeConfig (rc : RuntimeConfig) (dto : CreateProjectAiDto)
  : CreateProjectAiDto :=
  {| prompt := prompt dto; runtimeConfig := rc;
     dto_buildTarget := dto_buildTarget dto;
     dto_templateId := dto_templateId dto; fields := fields dto |}.

End Controller.

(** ** [AiService._generateWithFallback]: models, API versions and retries *)

Module Fallback.

Inductive ApiVersion := v1beta | v1.

(** An error as the function reads it: its status
    ([Number(e?.getStatus?.() ?? e?.status ?? e?.statusCode)]), its message,
    and [Number(resp.retryAfterSeconds)] when its response is an object. *)
Record ApiError := {
  statusCode : JsNum;
  message : string;
  retryAfterSeconds : option JsNum;
}.

Definition Outcome : Type := string + ApiError.

(** The requests made so far, each with its answer, and the waits. *)
Record Log := {
  requests : list (ApiVersion * string * Outcome);
  sleeps : list Q;
}.

Definition M (A : Type) : Type := Log -> A * Log.

Section Service.

(** [_generateContentJson]: what the request number [n] of the call
    answers, for an API version and a model. *)
Variable generateContentJson : nat -> ApiVersion -> string -> Outcome.

Definition request (v : ApiVersion) (m : string) : M Outcome :=
  fun st =>
    let o := generateContentJson (length (requests st)) v m in
    (o, {| requests := requests st ++ [(v, m, o)]; sleeps := sleeps st |}).

(** [await this._sleep(retryS * 1000)] *)
Definition sleep (seconds : Q) : Log -> Log :=
  fun st => {| requests := requests st; sleeps := sleeps st ++ [seconds] |}.

(** [statusCode === 429] *)
Definition is_429 (e : ApiError) : bool :=
  match statusCode e with
  | Finite q => Qeq_bool q 429
  | _ => false
  end.

(** [typeof retryS === 'number' && Number.isFinite(retryS) && retryS > 0 &&
    retryS <= 120] *)
Definition retry_hint (e : ApiError) : option Q :=
  match retryAfterSeconds e with
  | Some (Finite q) =>
    if negb (Qle_bool q 0) && Qle_bool q 120 then Some q else None
  | _ => None
  end.

(** The helper [call]: at most two attempts, the second one only after a
    429 that says how long to wait. *)
Definition call (v : ApiVersion) (m : string) : M Outcome :=
  fun st =>
    let '(o, st1) := request v m st in
    match o with
    | inl text => (inl text, st1)
    | inr e =>
      if negb (is_429 e) then (inr e, st1)
      else
        match retry_hint e with
        | Some seconds => request v m (sleep seconds st1)
        | None => (inr e, st1)
        end
    end.

(** [msg.includes('(404)') || msg.toLowerCase().includes('not found') ||
    msg.toLowerCase().includes('not supported')] *)
Definition shouldRetry (e : ApiError) : bool :=
  Text.includes (message e) "(404)" ||
  Text.includes (Js.toLowerCase (message e)) "not found" ||
  Text.includes (Js.toLowerCase (message e)) "not supported".

Definition fallbackModels : list string :=
  ["gemini-1.5-flash"; "gemini-1.5-pro"; "gemini-1.0-pro"].

(** The body of the loop over the fallback models, for the model [m]: the
    text, or the error that becomes [lastErr]. *)
Definition try_model (m : string) : M Outcome :=
  fun st =>
    let '(o, st1) := call v1beta m st in
    match o with
    | inl text => (inl text, st1)
    | inr err =>
      if is_429 err then (inr err, st1)
      else if negb (shouldRetry err) then (inr err, st1)
      else call v1 m st1
    end.

Fixpoint try_models (primaryModel : string) (models : list string)
    (lastErr : ApiError) : M Outcome :=
  fun st =>
    match models with
    | [] => (inr lastErr, st)
    | m :: rest =>
      if String.eqb m primaryModel then try_models primaryModel rest lastErr st
      else
        let '(o, st1) := try_model m st in
        match o with
        | inl text => (inl text, st1)
        | inr e => try_models primaryModel rest e st1
        end
    end.

Definition not_configured : ApiError :=
  {| statusCode := Finite 400; message := "Gemini is not configured";
     retryAfterSeconds := None |}.

(** [apiKey] and [model] are the settings [gemini.apiKey] and
    [gemini.model]. *)
Definition generateWithFallback (apiKey model : option string) : M Outcome :=
  fun st =>
    if String.eqb (Js.trim (default "" (Js.or_else apiKey (Some "")))) "" then
      (inr not_configured, st)
    else
      let configuredModel :=
        Js.trim (default "" (Js.or_else model (Some ""))) in
      let primaryModel :=
        if String.eqb configuredModel "" then "gemini-1.5-flash"
        else configuredModel in
      let '(o, st1) := call v1beta primaryModel st in
      match o with
      | inl text => (inl text, st1)
      | inr e =>
        if is_429 e then (inr e, st1)
        else if negb (shouldRetry e) then (inr e, st1)
        else
          let '(o2, st2) := call v1 primaryModel st1 in
          match o2 with
          | inl text => (inl text, st2)
          | inr e2 => try_models primaryModel fallbackModels e2 st2
          end
      end.

End Service.

Definition empty : Log := {| requests := []; sleeps := [] |}.

(** The request answered with a text. *)
Definition succeeded (r : ApiVersion * string * Outcome) : bool :=
  match r.2 with inl _ => true | inr _ => false end.

(** A wait the retry hint allows: more than 0 and at most 120 seconds. *)
Definition short_wait (seconds : Q) : Prop := (0 < seconds /\ seconds <= 120)%Q.

(** What a part of the function adds to the log: at most [n] requests
    and [k] waits, the waits short; a text returned is the answer of the
    last request and every request before it failed; when an error is
    returned every request failed. *)
Definition bounded (n k : nat) (f : M Outcome) : Prop :=
  forall st,
    exists new waits,
      requests (f st).2 = requests st ++ new /\
      sleeps (f st).2 = sleeps st ++ waits /\
      length new <= n /\ length waits <= k /\
      Forall short_wait waits /\
      match (f st).1 with
      | inl text =>
        exists before v m,
          new = before ++ [(v, m, inl text)] /\
          Forall (fun r => succeeded r = false) before
      | inr _ => Forall (fun r => succeeded r = false) new
      end.

(** [try { return await f } catch (e) { handler(e) }] *)
Definition catch (f : M Outcome) (handler : ApiError -> M Outcome)
  : M Outcome :=
  fun st =>
    let '(o, st1) := f st in
    match o with
    | inl text => (inl text, st1)
    | inr e => handler e st1
    end.

End Fallback.

(** ** [attachMedia]: the key and the URL of an attached file *)

Module Media.

(** [[a-zA-Z0-9._-]] *)
Definition is_safe_char (a : ascii) : bool :=
  let n := nat_of_ascii a in
  ((97 <=? n) && (n <=? 122)) || ((65 <=? n) && (n <=? 90)) ||
  ((48 <=? n) && (n <=? 57)) || (n =? 46) || (n =? 95) || (n =? 45).

(** [String(file.originalname || fallback).replace(/[^a-zA-Z0-9._-]/g, '_')] *)
Definition safe_name (originalname : option string) (fallback : string)
  : string :=
  Js.str (map (fun a => if is_safe_char a then a else "_"%char)
              (Js.chars (default fallback
                           (Js.or_else originalname (Some fallback))))).

(** The key of the preview image, [now] being [String(Date.now())]. *)
Definition previewKey (id now : string) (originalname : option string)
  : string :=
  id +:+ "/preview_" +:+ now +:+ "_" +:+ safe_name originalname "image".

(** The key of the preview video. *)
Definition videoKey (id now : string) (originalname : option string)
  : string :=
  id +:+ "/video_" +:+ now +:+ "_" +:+ safe_name originalname "video".

(** The value [attachMedia] gives [previewImageUrl], and
    [previewVideoUrl]. *)
Definition previewImageUrl (baseUrl id now : string)
    (originalname : option string) : string :=
  fileUrl baseUrl (previewKey id now originalname).

Definition previewVideoUrl (baseUrl id now : string)
    (originalname : option string) : string :=
  fileUrl baseUrl (videoKey id now originalname).

End Media.

(** ** More sample data *)

Module Cases.

(** A number parser for the samples: nothing parses. *)
Definition no_number : string -> JsNum := fun _ => NaN.

Definition runner_template : Orchestrator.TemplateRec :=
  {| Orchestrator.t_id := Some "tpl-1";
     Orchestrator.t_name := Some "Endless Runner 2D";
     Orchestrator.t_category := Some "Arcade";
     Orchestrator.t_tags := Some ["runner"; "2d"] |}.

Definition puzzle_template : Orchestrator.TemplateRec :=
  {| Orchestrator.t_id := Some "tpl-2";
     Orchestrator.t_name := Some "Block Puzzle";
     Orchestrator.t_category := Some "Puzzle";
     Orchestrator.t_tags := Some ["puzzle"] |}.

(** The model answers with a colour in lower case and a speed out of
    range. *)
Definition raw_answer : Bag :=
  {| timeScale := JUndefined; difficulty := JUndefined; theme := JUndefined;
     notes := JUndefined; speed := JNum (Finite 90); genre := JUndefined;
     assetsType := JUndefined; mechanics := JUndefined;
     primaryColor := JStr "ff00aa"; secondaryColor := JUndefined;
     accentColor := JUndefined; playerColor := JUndefined;
     fogEnabled := JUndefined; fogDensity := JUndefined;
     cameraZoom := JUndefined; gravityY := JUndefined; jumpForce := JUndefined |}.

Definition orchestrator_world : Orchestrator.World :=
  {| Orchestrator.publicTemplates := [puzzle_template; runner_template];
     Orchestrator.readyAssets := fun _ => [];
     Orchestrator.configAnswer := Answer raw_answer;
     Orchestrator.draftAnswer := QuotaExceeded;
     Orchestrator.secondConfigAnswer := QuotaExceeded;
     Orchestrator.newId := "p7" |}.

(** The document a call returned, or the default job when it threw. *)
Definition job_after (r : Result Project * Service) : Project :=
  match fst r with
  | Ok p => p
  | Throw _ => Sample.job queued "webgl"
  end.

Definition thirteen_mechanics : UpdateDto :=
  {| dto_buildTarget := JUndefined; dto_name := JUndefined;
     dto_description := JUndefined;
     dto_cfg :=
       {| timeScale := JUndefined; difficulty := JUndefined;
          theme := JUndefined; notes := JUndefined; speed := JUndefined;
          genre := JUndefined; assetsType := JUndefined;
          mechanics :=
            JArr (ENullish :: EStr "  " :: repeat (EStr " jump ") 13);
          primaryColor := JUndefined; secondaryColor := JUndefined;
          accentColor := JUndefined; playerColor := JUndefined;
          fogEnabled := JUndefined; fogDensity := JUndefined;
          cameraZoom := JUndefined; gravityY := JUndefined;
          jumpForce := JUndefined |} |}.

Definition player_colour_only : UpdateDto :=
  {| dto_buildTarget := JUndefined; dto_name := JUndefined;
     dto_description := JUndefined;
     dto_cfg := only_playerColor (JStr "#102030") |}.

Definition server_env : gmap string string :=
  {[ "PATH" := "/usr/bin";
     "UNITY_EDITOR_PATH" := "/opt/unity/Editor/Unity";
     "Mono_Env_Options" := "--debug";
     "JAVA_TOOL_OPTIONS" := "-agentlib:Debugger-Agent" ]}.

(** The output directory of a web build. *)
Definition webgl_out : Node :=
  Dir [("Build", Dir [("game.wasm", File)]); ("index.html", File)].

(** A template sold for 4.99 and a payment of 499 cents that succeeded. *)
Definition market : Market.Store :=
  {| Market.templates :=
       {[ "tpl-9" := {| Market.isPublic := true;
                        Market.price := JNum (Finite (499 # 100));
                        Market.downloads := 3;
                        Market.storageKey := "tpl-9.zip" |} ]};
     Market.purchases := ∅ |}.

(** Multiplication by 100, exact on the samples. *)
Definition cents (q : Q) : JsNum := Finite (q * 100).

Definition stripe : Market.Stripe :=
  {| Market.configured := true;
     Market.retrieve := fun _ =>
       inr (Some {| Market.pi_id := "pi_1";
                    Market.pi_kind := Some "template_purchase";
                    Market.pi_templateId := Some "tpl-9";
                    Market.pi_userId := Some "bob";
                    Market.pi_status := "succeeded";
                    Market.pi_amount_received := Some (Finite 499);
                    Market.pi_amount := Finite 499;
                    Market.pi_currency := Some "usd" |}) |}.

(** An upload with all four metadata fields, and an archive and an AI
    service that propose others. *)
Definition full_request : TemplateMeta.Request :=
  {| TemplateMeta.r_name := Some " Space Run ";
     TemplateMeta.r_description := Some "A runner in space";
     TemplateMeta.r_category := Some "Arcade";
     TemplateMeta.r_tagsCsv := Some "space, runner";
     TemplateMeta.r_images := true;
     TemplateMeta.r_previewImage := true;
     TemplateMeta.r_screenshots := false;
     TemplateMeta.r_previewVideo := false |}.

Definition other_meta : TemplateMeta.Meta :=
  {| TemplateMeta.m_name := Some "Galaxy Dash";
     TemplateMeta.m_description := Some "Dash through the galaxy";
     TemplateMeta.m_category := Some "Action";
     TemplateMeta.m_tags := Some ["galaxy"] |}.

Definition proposing_outside : TemplateMeta.Outside :=
  {| TemplateMeta.entryNames := ["MyGame/Assets/a.txt"];
     TemplateMeta.metadataInZip := Some other_meta;
     TemplateMeta.imageDraft := Some other_meta;
     TemplateMeta.editor := true;
     TemplateMeta.capture :=
       Some {| TemplateMeta.captured_metadata := Some other_meta;
               TemplateMeta.captured_draft := Some other_meta |} |}.

(** An upload named like the placeholder, without a description. *)
Definition placeholder_request : TemplateMeta.Request :=
  {| TemplateMeta.r_name := Some "Untitled Template";
     TemplateMeta.r_description := None;
     TemplateMeta.r_category := Some "Arcade";
     TemplateMeta.r_tagsCsv := Some "space, runner";
     TemplateMeta.r_images := false;
     TemplateMeta.r_previewImage := false;
     TemplateMeta.r_screenshots := false;
     TemplateMeta.r_previewVideo := false |}.

(** A public template without reviews, and a rating service that keeps
    the rating as it is. *)
Definition reviewed : Reviews.Store :=
  {| Reviews.templates :=
       {[ "t1" := {| Reviews.isPublic := true; Reviews.name := "Runner";
                     Reviews.t_rating := Finite (47 # 10) |} ]};
     Reviews.reviews := ∅;
     Reviews.notifications := [] |}.

Definition no_rating : list JsNum -> option JsNum := fun _ => None.

(** [{"a":"b"}] as code units, and a truncated answer. *)
Definition clean_json : list N := [123; 34; 97; 34; 58; 34; 98; 34; 125]%N.

Definition truncated_answer : string := "  {[1, [2, 3  ".

End Cases.


(** * Properties *)

(** ** Cancel, rebuild and download on the job registry *)

Section Registry.

Lemma eqb_refl_neg (a : string) : negb (String.eqb a a) = false.
Proof. by rewrite String.eqb_refl. Qed.

(** In every lemma below the service holds project [p] under [id], the
    document carries its own id, and the caller owns it. *)
Variables (s : Service) (id : string) (p : Project).
Hypothesis Hfound : projectModel s !! id = Some p.
Hypothesis Hid : _id p = id.

Lemma cancel_terminal :
  cancellable (status p) = false ->
  cancelBuild (ownerId p) id s = (Ok (id, status p), s).
Proof.
  intros Hc. unfold cancelBuild.
  by rewrite Hfound, eqb_refl_neg, Hc, Hid.
Qed.

Lemma cancel_active :
  cancellable (status p) = true ->
  exists s' p',
    cancelBuild (ownerId p) id s = (Ok (id, failed), s') /\
    projectModel s' !! id = Some p' /\
    status p' = failed /\
    error p' = Some "Cancelled by user" /\
    activeBuildProcesses s' = activeBuildProcesses s /\
    killed s' = match activeBuildProcesses s !! id with
                | Some child => child :: killed s
                | None => killed s
                end.
Proof.
  intros Hc. unfold cancelBuild.
  rewrite Hfound, eqb_refl_neg, Hc. cbn [negb].
  set (p1 := set_buildTimings _ _).
  assert (Hp1 : _id p1 = id) by (subst p1; exact Hid).
  assert (Hst : status p1 = failed) by reflexivity.
  assert (Herr : error p1 = Some "Cancelled by user") by reflexivity.
  assert (Hlk : projectModel (save p1 s) !! id = Some p1).
  { unfold save. cbn [projectModel]. rewrite Hp1. apply lookup_insert_eq. }
  clearbody p1. rewrite Hid, Hp1, Hst.
  change (activeBuildProcesses (save p1 s)) with (activeBuildProcesses s).
  destruct (activeBuildProcesses s !! id) as [child|].
  - exists (kill child (save p1 s)), p1. repeat split; done.
  - exists (save p1 s), p1. repeat split; done.
Qed.

End Registry.

(** C6.  Cancel on a job whose status is ready or failed returns success
    with the unchanged status and changes nothing; cancel on a queued or
    running job stores status failed with the error "Cancelled by user" and
    sends SIGKILL to the process registered for the job id, if there is
    one. *)
Theorem cancelBuild_behaviour (s : Service) (id : string) (p : Project) :
  projectModel s !! id = Some p ->
  _id p = id ->
  (status p = ready \/ status p = failed ->
     cancelBuild (ownerId p) id s = (Ok (id, status p), s)) /\
  (status p = queued \/ status p = running ->
     exists s' p',
       cancelBuild (ownerId p) id s = (Ok (id, failed), s') /\
       projectModel s' !! id = Some p' /\
       status p' = failed /\
       error p' = Some "Cancelled by user" /\
       activeBuildProcesses s' = activeBuildProcesses s /\
       killed s' = match activeBuildProcesses s !! id with
                   | Some child => child :: killed s
                   | None => killed s
                   end).
Proof.
  intros Hfound Hid. split.
  - intros Hst. apply cancel_terminal; [done..|].
    by destruct Hst as [-> | ->].
  - intros Hst. apply cancel_active; [done..|].
    by destruct Hst as [-> | ->].
Qed.

Lemma cancelBuild_behaviour_witness :
  exists s' p',
    cancelBuild "alice" "p1" (Sample.service_with (Sample.job running "webgl"))
      = (Ok ("p1", failed), s') /\
    projectModel s' !! "p1" = Some p' /\
    status p' = failed /\
    error p' = Some "Cancelled by user" /\
    activeBuildProcesses s' =
      activeBuildProcesses (Sample.service_with (Sample.job running "webgl")) /\
    killed s' = [4242].
Proof.
  apply (cancelBuild_behaviour
           (Sample.service_with (Sample.job running "webgl")) "p1"
           (Sample.job running "webgl")).
  - vm_compute. reflexivity.
  - reflexivity.
  - right. reflexivity.
Defined.

Lemma rebuild_stores (s : Service) (id : string) (p : Project) :
  projectModel s !! id = Some p ->
  _id p = id ->
  rebuild (ownerId p) id s =
    (Ok id, spawn_runBuild id (save (rebuilt p) s)) /\
  projectModel (snd (rebuild (ownerId p) id s)) !! id = Some (rebuilt p).
Proof.
  intros Hfound Hid. unfold rebuild. rewrite Hfound, eqb_refl_neg.
  fold (rebuilt p).
  assert (Hr : _id (rebuilt p) = id).
  { unfold rebuilt. by destruct (isAndroidApk _). }
  rewrite Hr. split; [done|].
  cbn [snd spawn_runBuild save projectModel]. rewrite Hr.
  apply lookup_insert_eq.
Qed.

(** C8.  Rebuild stores status queued and no error, and clears the generic
    result reference and the references of the current build target only:
    for an Android job the web archive and the web entry point are left as
    they were, for a web job the Android package reference is; identity,
    target, configuration and media references are untouched, and one
    [runBuild] is started. *)
Theorem rebuild_clears_current_target_only (s : Service) (id : string) (p : Project) :
  projectModel s !! id = Some p ->
  _id p = id ->
  exists s' p',
    rebuild (ownerId p) id s = (Ok id, s') /\
    projectModel s' !! id = Some p' /\
    spawned s' = id :: spawned s /\
    status p' = queued /\ error p' = None /\
    resultStorageKey p' = None /\
    (isAndroidApk p = true ->
       androidApkStorageKey p' = None /\
       webglZipStorageKey p' = webglZipStorageKey p /\
       webglIndexStorageKey p' = webglIndexStorageKey p) /\
    (isAndroidApk p = false ->
       webglZipStorageKey p' = None /\
       webglIndexStorageKey p' = None /\
       androidApkStorageKey p' = androidApkStorageKey p) /\
    buildTarget p' = buildTarget p /\
    templateId p' = templateId p /\
    aiUnityConfig p' = aiUnityConfig p /\
    previewImageUrl p' = previewImageUrl p /\
    screenshotUrls p' = screenshotUrls p /\
    previewVideoUrl p' = previewVideoUrl p.
Proof.
  intros Hfound Hid.
  destruct (rebuild_stores s id p Hfound Hid) as [Heq Hlk].
  exists (spawn_runBuild id (save (rebuilt p) s)), (rebuilt p).
  rewrite Heq in Hlk. cbn [snd] in Hlk.
  split; [exact Heq|]. split; [exact Hlk|]. split; [reflexivity|].
  unfold rebuilt.
  change (isAndroidApk (set_error None (set_status queued p)))
    with (isAndroidApk p).
  destruct (isAndroidApk p); cbn; repeat split; congruence.
Qed.

Lemma rebuild_clears_current_target_only_witness :
  exists s' p',
    rebuild "alice" "p1" (Sample.service_with Sample.web_built_now_android)
      = (Ok "p1", s') /\
    projectModel s' !! "p1" = Some p' /\
    status p' = queued /\
    androidApkStorageKey p' = None /\
    webglZipStorageKey p' = Some "p1.zip" /\
    webglIndexStorageKey p' = Some "p1/webgl/index.html".
Proof.
  destruct (rebuild_clears_current_target_only
              (Sample.service_with Sample.web_built_now_android) "p1"
              Sample.web_built_now_android)
    as (s' & p' & Heq & Hlk & _ & Hst & _ & _ & Handroid & _).
  - vm_compute. reflexivity.
  - reflexivity.
  - exists s', p'.
    destruct Handroid as (Hapk & Hzip & Hidx); [vm_compute; reflexivity|].
    repeat split; assumption.
Defined.

(** ** Download URL *)

(** C10.  For a project found under [id] and requested by its owner:
    unless the status is ready the request fails with "Project not ready";
    when it is ready, the key served is the one of the requested target
    (Android package for android_apk/android, web archive for webgl) if it
    is set, else the generic result reference, and "Artifact not available"
    is raised exactly when neither is set. *)
Theorem getDownloadUrl_behaviour
    (s : Service) (id baseUrl : string) (target : option string) (p : Project) :
  projectModel s !! id = Some p ->
  let t := Js.toLowerCase (Js.trim (default EmptyString target)) in
  let specific :=
    if String.eqb t "android_apk" || String.eqb t "android"
    then androidApkStorageKey p
    else if String.eqb t "webgl" then webglZipStorageKey p
    else None in
  (status p <> ready ->
     getDownloadUrl (ownerId p) id baseUrl target s
       = Throw (BadRequestException "Project not ready")) /\
  (status p = ready ->
     getDownloadUrl (ownerId p) id baseUrl target s =
       if Js.truthy specific then Ok (fileUrl baseUrl (default EmptyString specific))
       else if Js.truthy (resultStorageKey p)
            then Ok (fileUrl baseUrl (default EmptyString (resultStorageKey p)))
            else Throw (BadRequestException "Artifact not available")) /\
  (getDownloadUrl (ownerId p) id baseUrl target s
     = Throw (BadRequestException "Artifact not available") <->
   status p = ready /\ Js.truthy specific = false /\
   Js.truthy (resultStorageKey p) = false).
Proof.
  intros Hfound t specific.
  assert (Hready : status p = ready ->
     getDownloadUrl (ownerId p) id baseUrl target s =
       if Js.truthy specific then Ok (fileUrl baseUrl (default EmptyString specific))
       else if Js.truthy (resultStorageKey p)
            then Ok (fileUrl baseUrl (default EmptyString (resultStorageKey p)))
            else Throw (BadRequestException "Artifact not available")).
  { intros Hst. unfold getDownloadUrl.
    rewrite Hfound, eqb_refl_neg, Hst. cbn [bool_decide negb].
    rewrite bool_decide_eq_true_2 by done. cbn [negb].
    fold t. subst specific. unfold Js.or_else.
    destruct (String.eqb t "android_apk" || String.eqb t "android").
    - destruct (Js.truthy (androidApkStorageKey p)) eqn:E; cbn [negb].
      + by rewrite E.
      + by destruct (Js.truthy (resultStorageKey p)).
    - destruct (String.eqb t "webgl").
      + destruct (Js.truthy (webglZipStorageKey p)) eqn:E; cbn [negb].
        * by rewrite E.
        * by destruct (Js.truthy (resultStorageKey p)).
      + cbn [Js.truthy]. by destruct (Js.truthy (resultStorageKey p)). }
  assert (Hnot : status p <> ready ->
     getDownloadUrl (ownerId p) id baseUrl target s
       = Throw (BadRequestException "Project not ready")).
  { intros Hst. unfold getDownloadUrl.
    rewrite Hfound, eqb_refl_neg.
    by rewrite bool_decide_eq_false_2. }
  split; [exact Hnot|]. split; [exact Hready|].
  split.
  - intros Heq. destruct (decide (status p = ready)) as [Hst|Hst].
    + rewrite (Hready Hst) in Heq.
      destruct (Js.truthy specific); [discriminate|].
      destruct (Js.truthy (resultStorageKey p)); [discriminate|]. done.
    + rewrite (Hnot Hst) in Heq. discriminate.
  - intros (Hst & H1 & H2). by rewrite (Hready Hst), H1, H2.
Qed.

Lemma getDownloadUrl_behaviour_witness :
  getDownloadUrl "alice" "p1" "https://api.example/" (Some " Android ")
    (Sample.service_with Sample.web_built)
  = Ok "https://api.example/api/projects/files/p1.zip".
Proof.
  destruct (getDownloadUrl_behaviour (Sample.service_with Sample.web_built)
              "p1" "https://api.example/" (Some " Android ") Sample.web_built)
    as (_ & Hready & _).
  - vm_compute. reflexivity.
  - etransitivity; [exact (Hready eq_refl)|]. vm_compute. reflexivity.
Defined.

(** ** Reasoning about runs of the pipeline *)


Section RunLemmas.
Context {X A B : Type} (f : Run -> X).

Lemma preserves_ret (a : A) : preserves f (ret a).
Proof. by intros r. Qed.

Lemma preserves_throw (e : string) : preserves f (@throw A e).
Proof. by intros r. Qed.

Lemma preserves_bind (m : M A) (k : A -> M B) :
  preserves f m -> (forall a, preserves f (k a)) -> preserves f (bind m k).
Proof.
  intros Hm Hk r. unfold bind. specialize (Hm r).
  destruct (m r) as [[e|a] r']; cbn in *; [done|].
  by rewrite Hk.
Qed.

Lemma preserves_try_catch (m : M A) (h : string -> M A) :
  preserves f m -> (forall e, preserves f (h e)) -> preserves f (try_catch m h).
Proof.
  intros Hm Hh r. unfold try_catch. specialize (Hm r).
  destruct (m r) as [[e|a] r']; cbn in *; [|done].
  by rewrite Hh.
Qed.

Lemma preserves_finally (m : M A) (c : M unit) :
  preserves f m -> preserves f c -> preserves f (finally m c).
Proof.
  intros Hm Hc r. unfold finally. specialize (Hm r).
  destruct (m r) as [x r']; cbn in *. by rewrite Hc.
Qed.

Lemma preserves_get_doc : preserves f get_doc.
Proof. by intros r. Qed.

Lemma preserves_get_steps : preserves f get_steps.
Proof. by intros r. Qed.

Lemma preserves_get_calls : preserves f get_calls.
Proof. by intros r. Qed.

End RunLemmas.

Lemma preserves_attempt {X} (f : Run -> X) (m : M unit) :
  preserves f m -> preserves f (attempt m).
Proof.
  intros Hm. apply preserves_try_catch; [done|]. by intros e r.
Qed.

Lemma preserves_when {X} (f : Run -> X) (b : bool) (m : M unit) :
  preserves f m -> preserves f (when b m).
Proof. intros Hm. destruct b; [done|]. by intros r. Qed.

Lemma total_attempt (m : M unit) : total (attempt m).
Proof.
  intros r. unfold attempt, try_catch.
  destruct (m r) as [[e|[]] r']; by exists tt.
Qed.

#[global] Instance saves_bookkeeping : Bookkeeping saves.
Proof.
  split; intros; try done. unfold endStep. cbn. by case_bool_decide.
Qed.

#[global] Instance doc_bookkeeping : Bookkeeping doc.
Proof.
  split; intros; try done. unfold endStep. cbn. by case_bool_decide.
Qed.

Section Atoms.
Context {X : Type} (f : Run -> X) `{!Bookkeeping f}.

Lemma preserves_io (w : World) (op : Op) : preserves f (io w op).
Proof. intros r. unfold io. destruct (throws w op); apply bk_call. Qed.

Lemma preserves_startStep (n : string) : preserves f (startStep n).
Proof. intros r. apply bk_start. Qed.

Lemma preserves_endStep (n : string) : preserves f (endStep n).
Proof. intros r. apply bk_end. Qed.

Lemma preserves_extract_archive (w : World) : preserves f (extract_archive w).
Proof.
  unfold extract_archive. destruct (admZip w (archive w)).
  - intros r. apply bk_call.
  - apply preserves_io.
Qed.

Lemma preserves_runUnity (w : World) (n : string) (op : Op) (t : Runner.Tool) :
  preserves f (runUnity w n op t).
Proof.
  unfold runUnity.
  apply preserves_bind; [apply preserves_startStep|intros _].
  apply preserves_bind; [|intros _; apply preserves_endStep].
  intros r. destruct (Runner.runUnity_promise _ _); apply bk_call.
Qed.

End Atoms.

Lemma quiet_modify (g : Project -> Project) : preserves saves (modify g).
Proof. by intros r. Qed.

Create HintDb run discriminated.
#[local] Hint Resolve preserves_ret preserves_throw preserves_get_doc
  preserves_get_steps preserves_get_calls preserves_io preserves_startStep
  preserves_endStep preserves_extract_archive preserves_runUnity
  quiet_modify : run.

(** Walk through a sequence of steps, one [bind] at a time. *)
Ltac step_through :=
  unfold quiet in *;
  repeat first
    [ solve [auto with run typeclass_instances]
    | apply preserves_bind
    | apply preserves_attempt
    | apply preserves_when
    | progress intros
    | match goal with
      | |- preserves _ (if ?b then _ else _) => destruct b
      | |- preserves _ (match ?x with Some _ => _ | None => _ end) => destruct x
      end ].

Lemma quiet_upload_shots (w : World) (idx : list nat) (acc : list string) :
  quiet (upload_shots w idx acc).
Proof.
  revert acc. induction idx as [|i idx IH]; intros acc; cbn [upload_shots].
  - apply preserves_ret.
  - step_through.
Qed.

Lemma quiet_upload_media (w : World) : quiet (upload_media w).
Proof.
  unfold upload_media, upload_media_body.
  pose proof (quiet_upload_shots w). step_through.
Qed.

Lemma quiet_library_cache_restore (w : World) : quiet (library_cache_restore w).
Proof. unfold library_cache_restore. step_through. Qed.

Lemma quiet_library_cache_save (w : World) : quiet (library_cache_save w).
Proof. unfold library_cache_save. step_through. Qed.

Lemma quiet_prepare (w : World) : quiet (prepare w).
Proof.
  unfold prepare. pose proof (quiet_library_cache_restore w). step_through.
Qed.

Lemma quiet_build_and_capture (w : World) : quiet (build_and_capture w).
Proof. unfold build_and_capture. step_through. Qed.

Lemma quiet_publish (w : World) : quiet (publish w).
Proof. unfold publish, publish_android, publish_webgl. step_through. Qed.

Lemma saves_ready_bind_quiet {A} (m : M A) (k : A -> M unit) :
  quiet m -> (forall a, saves_ready (k a)) -> saves_ready (bind m k).
Proof.
  intros Hm Hk r. unfold bind. specialize (Hm r).
  destruct (m r) as [[e|a] r']; cbn in *; [by left|].
  rewrite <- Hm. apply Hk.
Qed.

Lemma on_success_bind {A B} (Q : Run -> Prop) (m : M A) (k : A -> M B) :
  (forall a, on_success Q (k a)) -> on_success Q (bind m k).
Proof.
  intros Hk r b r'. unfold bind.
  destruct (m r) as [[e|a] r1]; [discriminate|]. apply Hk.
Qed.

Lemma publish_sets_ready (w : World) :
  on_success (fun r => status (doc r) = ready) (publish w).
Proof.
  unfold publish. apply on_success_bind. intros p.
  destruct (isAndroidApk p); unfold publish_android, publish_webgl;
    repeat (apply on_success_bind; intros);
    intros r x r' [= _ <-]; reflexivity.
Qed.

Lemma finish_saves (w : World) (r : Run) :
  status (doc r) = ready ->
  saves (snd (finish w r)) = saves r \/
  (fst (finish w r) = inr tt /\
   exists q, saves (snd (finish w r)) = q :: saves r /\ status q = ready).
Proof.
  intros Hst. cbv [finish bind get_steps modify save_doc io].
  destruct (throws w SaveReady); cbn; [by left|].
  right. split; [done|]. eexists. split; [done|]. exact Hst.
Qed.

Lemma pipeline_saves (w : World) : saves_ready (pipeline w).
Proof.
  unfold pipeline.
  apply saves_ready_bind_quiet; [apply quiet_prepare|intros _].
  apply saves_ready_bind_quiet; [apply quiet_build_and_capture|intros _].
  apply saves_ready_bind_quiet; [apply quiet_library_cache_save|intros _].
  apply saves_ready_bind_quiet; [apply quiet_upload_media|intros _].
  intros r. unfold bind.
  pose proof (quiet_publish w r) as Hq.
  pose proof (publish_sets_ready w r) as Hr.
  destruct (publish w r) as [[e|[]] r1]; cbn in *; [by left|].
  rewrite <- Hq. apply finish_saves. by eapply Hr.
Qed.

Lemma on_error_saves (w : World) (e : string) (r : Run) :
  fst (on_error w e r) = inr tt /\
  (saves (snd (on_error w e r)) = saves r \/
   exists q, saves (snd (on_error w e r)) = q :: saves r /\
             status q = failed /\ error q = Some (error_text e)).
Proof.
  cbv [on_error attempt try_catch bind get_steps modify save_doc io ret].
  destruct (throws w SaveFailed); cbn; (split; [done|]); [by left|].
  right. eexists. by split.
Qed.

Lemma save_doc_eq (w : World) (op : Op) (r : Run) :
  save_doc w op r =
    match throws w op with
    | Some e => (inl e, record_call op r)
    | None => (inr tt, persisted (record_call op r))
    end.
Proof. cbv [save_doc bind io]. by destruct (throws w op). Qed.

Lemma saves_once_bind_quiet {A} (m : M A) (k : A -> M unit) :
  quiet m -> (forall a, saves_once (k a)) -> saves_once (bind m k).
Proof.
  intros Hm Hk r. unfold bind. specialize (Hm r).
  destruct (m r) as [[e|a] r']; cbn in *; [by left|].
  rewrite <- Hm. apply Hk.
Qed.

Lemma guarded_saves (w : World) :
  saves_once (finally (try_catch (pipeline w) (on_error w))
                      (attempt (io w RemoveWorkdir))).
Proof.
  intros r. unfold finally.
  destruct (try_catch (pipeline w) (on_error w) r) as [x r2] eqn:E.
  cbn [snd]. rewrite (preserves_attempt saves _ (preserves_io saves w RemoveWorkdir) r2).
  unfold try_catch in E.
  pose proof (pipeline_saves w r) as Hp.
  destruct (pipeline w r) as [[e|[]] r1]; cbn [fst snd] in Hp.
  - destruct (on_error_saves w e r1) as [_ He]. rewrite E in He. cbn in He.
    destruct Hp as [Hp|[Hp _]]; [|discriminate]. rewrite <- Hp.
    destruct He as [He|(q & He & Hq & _)]; [by left|].
    right. exists q. split; [done|]. by right.
  - injection E as <- <-.
    destruct Hp as [Hp|(_ & q & Hp & Hq)]; [by left|].
    right. exists q. split; [done|]. by left.
Qed.

(** The versions of the document one run writes: nothing, or the
    document marked running, followed by at most one version whose status
    is ready or failed. *)
Lemma runBuild_saves (w : World) (p : Project) :
  let written := saves (snd (run w p)) in
  (throws w SaveRunning <> None /\ written = []) \/
  (throws w SaveRunning = None /\
   (written = [marked_running p] \/
    exists q, written = [q; marked_running p] /\
              (status q = ready \/ status q = failed))).
Proof.
  intros written.
  cut (exists l, written = l /\
         ((throws w SaveRunning <> None /\ l = []) \/
          (throws w SaveRunning = None /\
           (l = [marked_running p] \/
            exists q, l = [q; marked_running p] /\
                      (status q = ready \/ status q = failed))))).
  { intros (l & -> & H). exact H. }
  subst written. unfold run, runBuild.
  change (bind (modify marked_running) ?k (start p))
    with (k tt {| doc := marked_running p; saves := []; stepStartedAt := [];
                  stepDurations := []; calls := [] |}).
  cbv beta. unfold bind at 1. rewrite save_doc_eq.
  destruct (throws w SaveRunning);
    [eexists; split; [reflexivity|left; by split]|].
  cut (exists l, saves (snd ((startStep "workdir" ;; io w Mkdtemp ;;
                               endStep "workdir" ;;
                               finally (try_catch (pipeline w) (on_error w))
                                 (attempt (io w RemoveWorkdir)))%run
                              (persisted (record_call SaveRunning
                                 {| doc := marked_running p; saves := [];
                                    stepStartedAt := []; stepDurations := [];
                                    calls := [] |})))) = l /\
         (l = [marked_running p] \/
          exists q, l = [q; marked_running p] /\
                    (status q = ready \/ status q = failed))).
  { intros (l & El & H). exists l. split; [exact El|]. right. by split. }
  set (r1 := persisted _).
  assert (Hr1 : saves r1 = [marked_running p]) by reflexivity.
  clearbody r1.
  match goal with |- context [bind ?m ?k r1] =>
    assert (Hrest : saves_once (bind m k))
  end.
  { apply saves_once_bind_quiet; [apply (preserves_startStep saves)|intros _].
    apply saves_once_bind_quiet; [apply (preserves_io saves)|intros _].
    apply saves_once_bind_quiet; [apply (preserves_endStep saves)|intros _].
    apply guarded_saves. }
  eexists. split; [reflexivity|].
  destruct (Hrest r1) as [H|(q & H & Hq)]; rewrite H, Hr1.
  - by left.
  - right. exists q. split; [reflexivity|exact Hq].
Qed.

Lemma status_history_shape (w : World) (p : Project) :
  (throws w SaveRunning <> None /\ status_history w p = []) \/
  (throws w SaveRunning = None /\
   (status_history w p = [running] \/
    status_history w p = [running; ready] \/
    status_history w p = [running; failed])).
Proof.
  unfold status_history.
  destruct (runBuild_saves w p) as [[H1 ->]|[H1 [->|(q & -> & [Hq|Hq])]]];
    [left|right..]; (split; [exact H1|]); cbn; rewrite ?Hq; auto.
Qed.

(** ** Status transitions *)

(** C3, as the code has it.  One run of [runBuild] stores running first,
    whatever status it found, and then at most one of ready and failed.
    Cancel stores failed with the error "Cancelled by user" for a queued or
    running job and leaves a ready or failed job as it is.  Rebuild has no
    guard on the status: it stores queued from every status, running and
    queued included. *)
Theorem status_transitions
    (s : Service) (id : string) (p : Project) (w : World) :
  projectModel s !! id = Some p ->
  _id p = id ->
  (status_history w p = [] \/ status_history w p = [running] \/
   status_history w p = [running; ready] \/
   status_history w p = [running; failed]) /\
  status <$> projectModel (snd (cancelBuild (ownerId p) id s)) !! id
    = Some (if cancellable (status p) then failed else status p) /\
  (cancellable (status p) = true ->
   error <$> projectModel (snd (cancelBuild (ownerId p) id s)) !! id
     = Some (Some "Cancelled by user")) /\
  status <$> projectModel (snd (rebuild (ownerId p) id s)) !! id
    = Some queued.
Proof.
  intros Hfound Hid. split; [|split; [|split]].
  - destruct (status_history_shape w p) as [[_ H]|[_ H]]; tauto.
  - destruct (cancellable (status p)) eqn:Hc.
    + destruct (cancel_active s id p Hfound Hid Hc)
        as (s' & p' & Heq & Hlk & Hst & _).
      rewrite Heq. cbn [snd]. rewrite Hlk. cbn. by rewrite Hst.
    + rewrite (cancel_terminal s id p Hfound Hid Hc). cbn [snd].
      by rewrite Hfound.
  - intros Hc.
    destruct (cancel_active s id p Hfound Hid Hc)
      as (s' & p' & Heq & Hlk & _ & Herr & _).
    rewrite Heq. cbn [snd]. rewrite Hlk. cbn. by rewrite Herr.
  - destruct (rebuild_stores s id p Hfound Hid) as [_ ->]. cbn.
    unfold rebuilt. by destruct (isAndroidApk _).
Qed.

Lemma status_transitions_witness :
  status <$> projectModel
     (snd (rebuild "alice" "p1" (Sample.service_with (Sample.job queued "webgl"))))
     !! "p1" = Some queued.
Proof.
  apply (status_transitions (Sample.service_with (Sample.job queued "webgl"))
           "p1" (Sample.job queued "webgl")
           (Sample.world Sample.build_ok Sample.build_ok Sample.pk_archive)).
  - vm_compute. reflexivity.
  - reflexivity.
Defined.

(** C3, as stated, fails: rebuild moves a running job back to queued. *)
Lemma rebuild_of_running_job_counterexample :
  status <$> projectModel (Sample.service_with (Sample.job running "webgl"))
     !! "p1" = Some running /\
  fst (rebuild "alice" "p1" (Sample.service_with (Sample.job running "webgl")))
    = Ok "p1" /\
  status <$> projectModel
     (snd (rebuild "alice" "p1" (Sample.service_with (Sample.job running "webgl"))))
     !! "p1" = Some queued.
Proof. vm_compute. repeat split; reflexivity. Qed.

(** ** Media capture and the outcome of the job *)

Lemma upload_media_never_throws (w : World) (r : Run) :
  fst (upload_media w r) = inr tt.
Proof.
  unfold upload_media, bind. cbn [startStep].
  destruct (total_attempt (upload_media_body w)
              (snd (startStep "upload_media" r))) as [[] E].
  cbn [snd startStep] in E.
  destruct (attempt (upload_media_body w) _) as [[e|[]] r']; cbn in E;
    [discriminate|]. reflexivity.
Qed.

(** C1, at a failing input.  The publication of the media (step
    upload_media: reading and storing cover, screenshots and video, and the
    encoder) never throws into the pipeline: when storing the cover fails
    the job is still ready, without media references.  The media-capture
    invocation of the tool does throw: with a primary build that exits 0
    and a capture that exits 1, the job that would be ready is stored
    failed, with the capture's error summary as its error. *)
Theorem capture_failure_marks_job_failed :
  (forall w r, fst (upload_media w r) = inr tt) /\
  (let w := with_fault
              (Sample.world Sample.build_ok Sample.build_ok Sample.pk_archive)
              PutCover "ENOSPC: no space left on device" in
   final_status w (Sample.job queued "webgl") = ready /\
   (fun q => (previewImageUrl q, screenshotUrls q, previewVideoUrl q))
     <$> head (saves (snd (run w (Sample.job queued "webgl"))))
   = Some (None, [], None)) /\
  Runner.close_code None Sample.build_ok = Some 0%Z /\
  final_status (Sample.world Sample.build_ok Sample.build_ok Sample.pk_archive)
    (Sample.job queued "webgl") = ready /\
  final_status (Sample.world Sample.build_ok Sample.capture_fails Sample.pk_archive)
    (Sample.job queued "webgl") = failed /\
  (error <$> head (saves (snd (run
      (Sample.world Sample.build_ok Sample.capture_fails Sample.pk_archive)
      (Sample.job queued "webgl")))))
    = Some (Some ("Unity exited with code 1. Error summary:" +:+ Runner.nl +:+
                  "InvalidOperationException: no camera in the scene")).
Proof.
  split; [exact upload_media_never_throws|].
  vm_compute. repeat split; reflexivity.
Qed.

(** ** Archive validation *)

(** An upload that returns has passed the checks. *)
Lemma validate_ok (admZip : ZipLibrary) (file : option (list Byte.byte)) :
  Templates.validate admZip file = Ok tt ->
  exists buf,
    file = Some buf /\
    4 <= length buf /\ buf !! 0 = Some Byte.x50 /\ buf !! 1 = Some Byte.x4b /\
    exists entry entries, admZip buf = inr (entry :: entries).
Proof.
  unfold Templates.validate. destruct file as [buf|]; [|discriminate].
  destruct (Nat.ltb_spec (length buf) 4) as [|Hl]; [discriminate|].
  cbn [orb].
  destruct (buf !! 0) as [a|] eqn:E0; [|discriminate].
  destruct (buf !! 1) as [b|] eqn:E1;
    [|cbn; rewrite orb_true_r; discriminate].
  cbn [Templates.byte_is].
  destruct (Byte.eqb a Byte.x50) eqn:Ea; [|discriminate].
  destruct (Byte.eqb b Byte.x4b) eqn:Eb; [|discriminate].
  apply Byte.byte_dec_bl in Ea, Eb. subst a b. cbn [negb orb].
  destruct (admZip buf) as [e|[|entry entries]] eqn:Ez; try discriminate.
  intros _. exists buf. repeat split; try done. by exists entry, entries.
Qed.

(** Every archive of a store that uploads lead to has passed the checks. *)
Lemma reachable_archives (admZip : ZipLibrary) (st : Templates.Store) :
  Templates.reachable admZip st ->
  forall buf, buf ∈ Templates.archives st ->
    4 <= length buf /\ buf !! 0 = Some Byte.x50 /\ buf !! 1 = Some Byte.x4b /\
    exists entry entries, admZip buf = inr (entry :: entries).
Proof.
  induction 1 as [|file needsMedia unity st _ IH]; intros buf Hin.
  - by apply elem_of_nil in Hin.
  - unfold Templates.uploadTemplate in Hin.
    destruct (Templates.validate admZip file) as [[]|e] eqn:Ev;
      [|by apply IH].
    cbn in Hin. apply elem_of_cons in Hin as [->|Hin]; [|by apply IH].
    apply validate_ok in Ev as (b & -> & Hb). exact Hb.
Qed.

(** C5.  A template archive is submitted through [uploadTemplate], the
    only writer of the archives a build reads.  The upload rejects with a
    bad-request error, before anything is stored, before any record is
    created and before any work directory is made, every archive shorter
    than four bytes or whose first two bytes are not 0x50 0x4B, and every
    archive the zip library cannot open or in which it finds no entry.
    Hence every stored archive starts with the magic bytes and has an
    entry, and no run of [runBuild] on a stored archive fails on the
    archive itself: its extraction step can only fail on the file
    system. *)
Theorem upload_rejects_invalid_archive
    (admZip : ZipLibrary) (buf : list Byte.byte) (needsMedia unity : bool)
    (st : Templates.Store) :
  (length buf < 4 \/ buf !! 0 <> Some Byte.x50 \/ buf !! 1 <> Some Byte.x4b ->
   Templates.uploadTemplate admZip (Some buf) needsMedia unity st =
     (Throw (BadRequestException "Invalid zip file. Expected a .zip archive."), st)) /\
  ((exists e, admZip buf = inl e) \/ admZip buf = inr [] ->
   exists msg,
     Templates.uploadTemplate admZip (Some buf) needsMedia unity st =
       (Throw (BadRequestException msg), st)) /\
  (Templates.reachable admZip st -> buf ∈ Templates.archives st ->
   4 <= length buf /\ buf !! 0 = Some Byte.x50 /\ buf !! 1 = Some Byte.x4b /\
   exists entry entries, admZip buf = inr (entry :: entries)) /\
  (forall w r e,
     Templates.reachable (Build.admZip w) st ->
     archive w ∈ Templates.archives st ->
     fst (extract_archive w r) = inl e ->
     throws w ExtractArchive = Some e).
Proof.
  split; [|split; [|split]].
  - intros H. unfold Templates.uploadTemplate, Templates.validate.
    assert (E : (length buf <? 4) ||
                negb (Templates.byte_is Byte.x50 (buf !! 0)) ||
                negb (Templates.byte_is Byte.x4b (buf !! 1)) = true).
    { destruct H as [H|[H|H]].
      - apply Nat.ltb_lt in H. by rewrite H.
      - destruct (buf !! 0) as [b|]; cbn.
        + destruct (Byte.eqb b Byte.x50) eqn:Eb;
            [apply Byte.byte_dec_bl in Eb; congruence|].
          cbn. by rewrite orb_true_r.
        + by rewrite orb_true_r.
      - destruct (buf !! 1) as [b|]; cbn.
        + destruct (Byte.eqb b Byte.x4b) eqn:Eb;
            [apply Byte.byte_dec_bl in Eb; congruence|].
          cbn. by rewrite orb_true_r.
        + by rewrite orb_true_r. }
    by rewrite E.
  - intros H. unfold Templates.uploadTemplate, Templates.validate.
    destruct (_ || _ || _); [by eexists|].
    destruct H as [[e ->]| ->]; by eexists.
  - intros Hst Hin. by apply (reachable_archives admZip st).
  - intros w r e Hst Hin.
    destruct (reachable_archives _ _ Hst _ Hin)
      as (_ & _ & _ & entry & entries & Ez).
    unfold extract_archive. rewrite Ez. unfold io.
    destruct (throws w ExtractArchive) as [e'|]; cbn; [|discriminate].
    by intros [= ->].
Qed.

Lemma upload_rejects_invalid_archive_witness :
  Templates.uploadTemplate Sample.zip (Some Sample.not_a_zip) true true
    {| Templates.archives := []; Templates.records := 0; Templates.workdirs := 0 |}
  = (Throw (BadRequestException "Invalid zip file. Expected a .zip archive."),
     {| Templates.archives := []; Templates.records := 0; Templates.workdirs := 0 |}).
Proof.
  apply (upload_rejects_invalid_archive Sample.zip Sample.not_a_zip true true).
  right. left. discriminate.
Defined.

(** ** The process runner *)

Lemma length_chars (s : string) : length (Js.chars s) = String.length s.
Proof.
  unfold Js.chars. induction s as [|a s IH]; cbn; [done|]. by rewrite IH.
Qed.

Lemma length_str (l : list ascii) : String.length (Js.str l) = length l.
Proof.
  unfold Js.str. induction l as [|a l IH]; cbn; [done|]. by rewrite IH.
Qed.

Lemma length_trimStartL (l : list ascii) : length (Js.trimStartL l) <= length l.
Proof.
  induction l as [|a l IH]; cbn; [done|].
  destruct (Js.is_space a); cbn; lia.
Qed.

Lemma length_trim (s : string) : String.length (Js.trim s) <= String.length s.
Proof.
  unfold Js.trim, Js.trimL, Js.trimEndL.
  rewrite length_str, length_rev.
  pose proof (length_trimStartL (rev (Js.trimStartL (Js.chars s)))) as H1.
  pose proof (length_trimStartL (Js.chars s)) as H2.
  rewrite length_rev in H1. rewrite length_chars in H2. lia.
Qed.

Lemma length_last_n {A} (n : nat) (l : list A) : length (Js.last_n n l) <= n.
Proof. unfold Js.last_n. rewrite length_drop. lia. Qed.

Lemma length_clip (n : nat) (s : string) : String.length (Runner.clip n s) <= n.
Proof.
  unfold Runner.clip. destruct (n <? String.length s) eqn:E.
  - rewrite length_str. apply length_last_n.
  - apply Nat.ltb_ge in E. exact E.
Qed.

Lemma length_summary (out : string) :
  String.length (Runner.extractUnityErrorSummary out) <= 6 * 1000.
Proof.
  unfold Runner.extractUnityErrorSummary.
  etransitivity; [apply length_trim|]. apply length_clip.
Qed.

(** When no line of the tail is interesting the summary is made of the
    last 60 lines of the output themselves. *)
Lemma summary_without_match (out : string) :
  List.filter Runner.interesting (Js.last_n 400 (Runner.split_lines out)) = [] ->
  Runner.extractUnityErrorSummary out =
    Js.trim (Runner.clip (6 * 1000)
      (String.concat Runner.nl
         (Js.last_n 60 (Js.last_n 400 (Runner.split_lines out))))).
Proof. intros H. unfold Runner.extractUnityErrorSummary. by rewrite H. Qed.

(** When some line of the tail is interesting the summary is made of
    interesting lines only. *)
Lemma summary_with_match (out : string) :
  List.filter Runner.interesting (Js.last_n 400 (Runner.split_lines out)) <> [] ->
  exists ls,
    Forall (fun l => Runner.interesting l = true) ls /\
    length ls <= 60 /\
    Runner.extractUnityErrorSummary out =
      Js.trim (Runner.clip (6 * 1000) (String.concat Runner.nl ls)).
Proof.
  intros H. unfold Runner.extractUnityErrorSummary.
  set (matched := List.filter _ _) in *.
  exists (Js.last_n 60 matched). split; [|split].
  - unfold Js.last_n. apply Forall_drop.
    apply Forall_forall. intros l Hl.
    apply list_elem_of_In, filter_In in Hl. tauto.
  - apply length_last_n.
  - by destruct matched.
Qed.

(** C7, as the code has it.  An invocation still running when the timer
    fires (a tool that never exits included) is killed; the close handler
    sees the code null and rejects, so the step ends with an error.  The
    message starts with "Unity exited with code null. " and continues
    either with "Error summary:" and a non-empty summary of at most 6000
    characters, or, when the summary is empty, with "Output tail: " and at
    most the last 4000 characters of the output, possibly none.  The
    summary is made of at most 60 lines taken from the last 400: the lines
    matching a pattern when there are any, else the lines themselves.
    Without a usable setting the timer is armed at 20 minutes. *)
Theorem timed_out_invocation_is_rejected (env : option Z) (t : Runner.Tool) :
  Runner.spawn_error t = None ->
  Runner.timer_fires env t = true ->
  let out := if String.eqb (Runner.stderr t) EmptyString
             then Runner.stdout t else Runner.stderr t in
  let summary := Runner.extractUnityErrorSummary out in
  Runner.maxMs None = (20 * 60 * 1000)%Z /\
  Runner.close_code env t = None /\
  Runner.runUnity_promise env t =
    Some ("Unity exited with code null. " +:+
          (if String.eqb summary EmptyString
           then "Output tail: " +:+ Runner.clip (4 * 1000) out
           else "Error summary:" +:+ Runner.nl +:+ summary)) /\
  String.length summary <= 6 * 1000 /\
  String.length (Runner.clip (4 * 1000) out) <= 4 * 1000 /\
  (List.filter Runner.interesting (Js.last_n 400 (Runner.split_lines out)) = [] ->
   summary = Js.trim (Runner.clip (6 * 1000)
               (String.concat Runner.nl
                  (Js.last_n 60 (Js.last_n 400 (Runner.split_lines out)))))) /\
  (List.filter Runner.interesting (Js.last_n 400 (Runner.split_lines out)) <> [] ->
   exists ls, Forall (fun l => Runner.interesting l = true) ls /\
              length ls <= 60 /\
              summary = Js.trim (Runner.clip (6 * 1000)
                                   (String.concat Runner.nl ls))).
Proof.
  intros Hspawn Hfire out summary.
  split; [reflexivity|].
  assert (Hcode : Runner.close_code env t = None).
  { unfold Runner.close_code. by rewrite Hfire. }
  split; [exact Hcode|].
  split.
  { unfold Runner.runUnity_promise. rewrite Hspawn, Hcode. reflexivity. }
  split; [apply length_summary|].
  split; [apply length_clip|].
  split; [apply summary_without_match|apply summary_with_match].
Qed.

Lemma timed_out_invocation_is_rejected_witness :
  Runner.runUnity_promise None
    {| Runner.spawn_error := None; Runner.runs_ms := Some 1500000%Z;
       Runner.exit_code := 0%Z;
       Runner.stdout := "Compiling shaders"; Runner.stderr := EmptyString |}
  = Some ("Unity exited with code null. Error summary:" +:+ Runner.nl +:+
          "Compiling shaders").
Proof.
  destruct (timed_out_invocation_is_rejected None
              {| Runner.spawn_error := None; Runner.runs_ms := Some 1500000%Z;
                 Runner.exit_code := 0%Z;
                 Runner.stdout := "Compiling shaders";
                 Runner.stderr := EmptyString |})
    as (_ & _ & H & _).
  - reflexivity.
  - vm_compute. reflexivity.
  - etransitivity; [exact H|]. vm_compute. reflexivity.
Defined.

(** C7, as stated, fails.  A tool killed by the timer before it printed
    anything leaves an error with an empty summary and an empty tail; and
    for an output of 61 lines none of which matches a pattern the message
    carries the last 60 lines under "Error summary:", not the raw tail,
    which would hold all 61. *)
Lemma silent_timeout_counterexample :
  Runner.timer_fires None Sample.silent_hang = true /\
  Runner.extractUnityErrorSummary EmptyString = EmptyString /\
  Runner.runUnity_promise None Sample.silent_hang
    = Some "Unity exited with code null. Output tail: " /\
  List.filter Runner.interesting
    (Runner.split_lines (String.concat Runner.nl ("begin" :: repeat "step" 60)))
    = [] /\
  Runner.clip (4 * 1000) (String.concat Runner.nl ("begin" :: repeat "step" 60))
    = String.concat Runner.nl ("begin" :: repeat "step" 60) /\
  Runner.on_close None
    (Sample.tool 0 (String.concat Runner.nl ("begin" :: repeat "step" 60))
       EmptyString)
    = Some ("Unity exited with code null. Error summary:" +:+ Runner.nl +:+
            String.concat Runner.nl (repeat "step" 60)).
Proof. vm_compute. repeat split; reflexivity. Qed.

(** ** Configuration overrides *)

Lemma chars_str (l : list ascii) : Js.chars (Js.str l) = l.
Proof. apply list_ascii_of_string_of_list_ascii. Qed.

Lemma upper_hex_digit (a : ascii) :
  is_hex_digit a = true -> is_upper_hex_digit (Js.upper a) = true.
Proof.
  destruct a as [[] [] [] [] [] [] [] []]; vm_compute; congruence.
Qed.

(** Whatever [normHex] returns is [#] followed by six digits among
    [0-9A-F]. *)
Lemma normHex_normalized (v : JsVal) (c : string) :
  normHex v = Some c -> is_normalized_color c = true.
Proof.
  destruct v as [| | | |s| |]; try discriminate. cbn [normHex].
  destruct (String.eqb (Js.trim s) EmptyString); [discriminate|].
  match goal with |- context [is_hash_hex6 ?x] => set (s' := x) end.
  destruct (is_hash_hex6 s') eqn:E; [|discriminate]. cbn [negb].
  intros [= <-]. unfold is_hash_hex6 in E.
  unfold is_normalized_color, Js.toUpperCase. rewrite chars_str.
  destruct (Js.chars s') as [|a ds]; [discriminate|].
  destruct (Ascii.eqb_spec a "#"%char) as [->|Hne].
  - apply andb_true_iff in E as [E1 E2]. cbn [map].
    change (Js.upper "#"%char) with "#"%char. cbv iota.
    rewrite length_map, E1. cbn [andb].
    rewrite forallb_forall in E2. apply forallb_forall.
    intros x Hx. apply in_map_iff in Hx as (y & <- & Hy).
    apply upper_hex_digit. by apply E2.
  - destruct a as [[] [] [] [] [] [] [] []]; try discriminate. by destruct Hne.
Qed.

(** A colour [update] writes is normalized; else the field keeps what it
    held. *)
Lemma assign_hex_normalized (new old : JsVal) :
  assign_hex new old = old \/
  exists c, assign_hex new old = JStr c /\ is_normalized_color c = true.
Proof.
  unfold assign_hex. destruct (normHex new) as [c|] eqn:E; [|by left].
  right. exists c. split; [done|]. by eapply normHex_normalized.
Qed.

(** C2, at a failing input.  [update] stores a colour only as returned by
    [normHex], that is as a valid #RRGGBB in upper case.  [createFromAi]
    stores the colour of [initialConfig] as received: the valid colour
    "#abcdef" is stored, and later written to the generated configuration
    file, in lower case, where [update] stores "#ABCDEF". *)
Theorem createFromAi_stores_color_unnormalized :
  (forall cur d (field : Bag -> JsVal),
     In field [primaryColor; secondaryColor; accentColor; playerColor] ->
     field (mergeAiUpdate cur d) = field cur \/
     exists c, field (mergeAiUpdate cur d) = JStr c /\
               is_normalized_color c = true) /\
  is_hash_hex6 "#abcdef" = true /\
  primaryColor <$>
    configForBuild (snd (createFromAi Sample.ai_world Sample.ai_request
                           Sample.empty_service)) "p2"
    = Some (JStr "#abcdef") /\
  is_normalized_color "#abcdef" = false /\
  primaryColor <$>
    configForBuild (snd (update "alice" "p1" Sample.update_request
                           (Sample.service_with (Sample.job ready "webgl")))) "p1"
    = Some (JStr "#ABCDEF").
Proof.
  split.
  - intros cur d field [<-|[<-|[<-|[<-|[]]]]]; apply assign_hex_normalized.
  - vm_compute. repeat split; reflexivity.
Qed.

(** ** Project root discovery *)

Lemma find_app_first {A} (P : A -> bool) (l1 l2 : list A) :
  List.find P (l1 ++ l2) =
    match List.find P l1 with
    | Some x => Some x
    | None => List.find P l2
    end.
Proof.
  induction l1 as [|a l1 IH]; cbn; [done|]. by destruct (P a).
Qed.

Section Discovery.
Import RootDiscovery.
Variable root : Node.

Lemma bfs_hit (fuel : nat) (cur : Path * nat) (rest : list (Path * nat))
    (V : gset Path) :
  fst cur ∉ V -> has_unity_layout root (fst cur) = true ->
  bfs (S fuel) root (cur :: rest) V = Some (fst cur).
Proof.
  intros HV Hl. cbn [bfs]. rewrite bool_decide_eq_false_2 by done.
  by rewrite Hl.
Qed.

Lemma bfs_step (fuel : nat) (cur : Path * nat) (rest : list (Path * nat))
    (V : gset Path) :
  fst cur ∉ V -> has_unity_layout root (fst cur) = false ->
  bfs (S fuel) root (cur :: rest) V =
    bfs fuel root (rest ++ kids root cur) ({[fst cur]} ∪ V).
Proof.
  intros HV Hl. cbn [bfs]. rewrite bool_decide_eq_false_2 by done.
  rewrite Hl. unfold kids.
  destruct (maxDepth <=? snd cur); [by rewrite app_nil_r|].
  destruct (readdir root (fst cur)); [done|by rewrite app_nil_r].
Qed.

(** The loop consumes a prefix of the queue made of distinct, unvisited
    directories: it stops at the first match, or goes on with what the
    prefix appended. *)
Lemma bfs_prefix (xs : list (Path * nat)) :
  forall (ys : list (Path * nat)) (V : gset Path) (fuel : nat),
    NoDup (map fst xs) ->
    (forall x, x ∈ xs -> fst x ∉ V) ->
    length xs <= fuel ->
    match List.find (fun x => has_unity_layout root (fst x)) xs with
    | Some x => bfs fuel root (xs ++ ys) V = Some (fst x)
    | None =>
      exists V' : gset Path,
        (forall p, p ∈ V' <-> p ∈ map fst xs \/ p ∈ V) /\
        bfs fuel root (xs ++ ys) V =
          bfs (fuel - length xs) root (ys ++ flat_map (kids root) xs) V'
    end.
Proof.
  induction xs as [|x xs IH]; intros ys V fuel Hnd HV Hfuel.
  - cbn. exists V. split; [set_solver|].
    by rewrite Nat.sub_0_r, app_nil_r.
  - destruct fuel as [|fuel]; [cbn in Hfuel; lia|].
    cbn [map] in Hnd. apply NoDup_cons in Hnd as [Hx Hnd].
    assert (HxV : fst x ∉ V) by (apply HV; set_solver).
    cbn [List.find]. destruct (has_unity_layout root (fst x)) eqn:Hl.
    + change ((x :: xs) ++ ys) with (x :: (xs ++ ys)). by apply bfs_hit.
    + change ((x :: xs) ++ ys) with (x :: (xs ++ ys)).
      rewrite bfs_step by done. rewrite <- app_assoc.
      specialize (IH (ys ++ kids root x) ({[fst x]} ∪ V) fuel Hnd).
      destruct (List.find _ xs) as [y|].
      * apply IH; [|cbn in Hfuel; lia].
        intros z Hz. apply not_elem_of_union. split.
        -- apply not_elem_of_singleton. intros E. apply Hx. rewrite <- E.
           apply list_elem_of_fmap. by exists z.
        -- apply HV. set_solver.
      * destruct IH as (V' & HV' & E).
        { intros z Hz. apply not_elem_of_union. split.
          - apply not_elem_of_singleton. intros E. apply Hx. rewrite <- E.
            apply list_elem_of_fmap. by exists z.
          - apply HV. set_solver. }
        { cbn in Hfuel; lia. }
        exists V'. split.
        -- intros p. rewrite HV'. cbn [map]. set_solver.
        -- rewrite E. cbn [length flat_map]. by rewrite <- app_assoc.
Qed.

(** When the queue dies out after [n] generations, the loop returns the
    first match among them, and the extraction directory if there is
    none. *)
Lemma bfs_generations (n : nat) :
  forall (q : list (Path * nat)) (V : gset Path) (fuel : nat),
    generation root n q = [] ->
    NoDup (map fst (generations root n q)) ->
    (forall x, x ∈ generations root n q -> fst x ∉ V) ->
    length (generations root n q) <= fuel ->
    bfs fuel root q V =
      Some (default []
              (List.find (has_unity_layout root)
                         (map fst (generations root n q)))).
Proof.
  induction n as [|n IH]; intros q V fuel Hend Hnd HV Hfuel.
  - cbn in Hend. subst q. by destruct fuel.
  - cbn [generations generation] in *.
    rewrite map_app in Hnd. apply NoDup_app in Hnd as (Hq & Hdisj & Hrest).
    rewrite length_app in Hfuel.
    pose proof (bfs_prefix q [] V fuel Hq) as Hp.
    rewrite app_nil_r in Hp. cbn [app] in Hp.
    rewrite map_app, find_app_first.
    assert (Hfind : List.find (has_unity_layout root) (map fst q) =
                    fst <$> List.find (fun x => has_unity_layout root (fst x)) q).
    { clear. induction q as [|x q IHq]; cbn; [done|].
      by destruct (has_unity_layout root (fst x)). }
    rewrite Hfind.
    destruct (List.find (fun x => has_unity_layout root (fst x)) q) as [x|].
    + cbn. apply Hp; [|lia]. intros y Hy. apply HV. set_solver.
    + destruct Hp as (V' & HV' & E); [|lia|].
      { intros y Hy. apply HV. set_solver. }
      rewrite E. cbn [fmap option_fmap option_map].
      apply IH; [done|done| |lia].
      intros y Hy. rewrite HV'. intros [Hin|Hin].
      * apply (Hdisj (fst y)); [done|].
        apply list_elem_of_fmap. by exists y.
      * revert Hin. apply HV. set_solver.
Qed.

Lemma subdirs_names (dir : Path) :
  subdirs root dir =
    match readdir root dir with
    | None => []
    | Some children => map (fun n => dir ++ [n]) (child_names children)
    end.
Proof.
  unfold subdirs. destruct (readdir root dir) as [ch|]; [|done].
  unfold child_names. induction ch as [|c ch IH]; cbn; [done|].
  rewrite IH. by destruct (snd c && negb (String.eqb (fst c) "__MACOSX")).
Qed.

Lemma kids_below_bound (dir : Path) (d : nat) :
  d < maxDepth ->
  kids root (dir, d) = map (fun q => (q, S d)) (subdirs root dir).
Proof.
  intros Hd. unfold kids, subdirs. cbn [fst snd].
  apply Nat.leb_gt in Hd. rewrite Hd.
  destruct (readdir root dir) as [ch|]; [|done].
  unfold pushes. induction ch as [|c ch IH]; cbn; [done|].
  rewrite IH, Nat.add_1_r.
  by destruct (snd c), (String.eqb (fst c) "__MACOSX").
Qed.

Lemma kids_at_bound (dir : Path) : kids root (dir, maxDepth) = [].
Proof. reflexivity. Qed.

Lemma next_queue (d : nat) :
  d < maxDepth ->
  flat_map (kids root) (queue_at root d) = queue_at root (S d).
Proof.
  intros Hd. unfold queue_at. cbn [level].
  induction (level root d) as [|p l IH]; cbn; [done|].
  by rewrite IH, kids_below_bound, map_app.
Qed.

Lemma last_queue : flat_map (kids root) (queue_at root 3) = [].
Proof.
  unfold queue_at. induction (level root 3) as [|p l IH]; cbn; [done|].
  exact IH.
Qed.

Lemma fst_queue_at (d : nat) : map fst (queue_at root d) = level root d.
Proof.
  unfold queue_at. induction (level root d) as [|p l IH]; cbn; [done|].
  by rewrite IH.
Qed.

Lemma generations_candidates :
  map fst (generations root 4 [([], 0)]) = candidates root /\
  generation root 4 [([], 0)] = [].
Proof.
  change [([], 0)] with (queue_at root 0).
  cbn [generations generation].
  rewrite !next_queue by (unfold maxDepth; lia).
  rewrite last_queue. split; [|done].
  rewrite !map_app, !fst_queue_at. unfold candidates. by rewrite app_nil_r.
Qed.

Lemma subdirs_form (dir p : Path) :
  p ∈ subdirs root dir -> exists n, p = dir ++ [n].
Proof.
  rewrite subdirs_names. destruct (readdir root dir) as [ch|].
  - intros H. apply list_elem_of_fmap in H as (n & -> & _). by exists n.
  - intros H. by apply elem_of_nil in H.
Qed.

Lemma level_length (d : nat) (p : Path) : p ∈ level root d -> length p = d.
Proof.
  revert p. induction d as [|d IH]; intros p; cbn [level].
  - intros H. apply list_elem_of_singleton in H. by subst.
  - intros H. apply list_elem_of_In, in_flat_map in H as (q & Hq & Hp).
    apply list_elem_of_In in Hq, Hp.
    apply subdirs_form in Hp as (n & ->).
    rewrite length_app, (IH q Hq). cbn. lia.
Qed.

End Discovery.

Lemma wf_lookup (es : list (string * Node)) (c : string) (m : Node) :
  RootDiscovery.wf (Dir es) -> lookup_entry c es = Some m -> RootDiscovery.wf m.
Proof.
  intros [_ Hall]. induction es as [|[n x] es IH]; cbn; [done|].
  destruct Hall as [Hx Hall]. destruct (String.eqb n c).
  - by intros [= <-].
  - by apply IH.
Qed.

Lemma wf_walk (p : Path) :
  forall root m, RootDiscovery.wf root -> walk root p = Some m -> RootDiscovery.wf m.
Proof.
  induction p as [|c p IH]; intros root m Hwf; cbn [walk].
  - by intros [= <-].
  - destruct root as [|es]; [done|].
    destruct (lookup_entry c es) as [x|] eqn:E; [|done].
    apply IH. by eapply wf_lookup.
Qed.

Lemma NoDup_child_names (children : list (string * bool)) :
  NoDup (map fst children) -> NoDup (RootDiscovery.child_names children).
Proof.
  unfold RootDiscovery.child_names.
  induction children as [|c ch IH]; cbn; [constructor|].
  intros Hnd. apply NoDup_cons in Hnd as [Hc Hnd].
  destruct (snd c && negb (String.eqb (fst c) "__MACOSX")); cbn; [|by apply IH].
  apply NoDup_cons. split; [|by apply IH].
  intros Hin. apply Hc.
  apply list_elem_of_In, in_flat_map in Hin as (d & Hd & Hin).
  destruct (snd d && negb (String.eqb (fst d) "__MACOSX")); [|done].
  destruct Hin as [<-|[]]. apply list_elem_of_fmap. exists d.
  split; [done|]. by apply list_elem_of_In.
Qed.

Lemma NoDup_flat_map {A B} (f : A -> list B) (l : list A) :
  NoDup l ->
  (forall x, x ∈ l -> NoDup (f x)) ->
  (forall x y z, x ∈ l -> y ∈ l -> z ∈ f x -> z ∈ f y -> x = y) ->
  NoDup (flat_map f l).
Proof.
  induction l as [|a l IH]; intros Hnd Hf Hinj; cbn; [constructor|].
  apply NoDup_cons in Hnd as [Ha Hnd].
  apply NoDup_app. split; [|split].
  - apply Hf. set_solver.
  - intros z Hz Hin. apply list_elem_of_In, in_flat_map in Hin as (y & Hy & Hzy).
    apply list_elem_of_In in Hy, Hzy.
    assert (a = y) by (eapply Hinj; [set_solver|set_solver|done|done]).
    subst. done.
  - apply IH; [done|intros; apply Hf; set_solver|].
    intros x y z Hx Hy. apply Hinj; set_solver.
Qed.

Section DiscoveryOrder.
Import RootDiscovery.
Variable root : Node.
Hypothesis Hwf : wf root.

Lemma NoDup_subdirs (dir : Path) : NoDup (subdirs root dir).
Proof.
  rewrite subdirs_names. unfold readdir.
  destruct (walk root dir) as [[|es]|] eqn:E; try constructor.
  assert (Hinj : Inj (=) (=) (fun n : string => dir ++ [n])).
  { intros n1 n2 H. by apply app_inj_tail in H as [_ ?]. }
  apply (NoDup_fmap_2 (fun n => dir ++ [n])).
  apply NoDup_child_names.
  pose proof (wf_walk dir root (Dir es) Hwf E) as [Hnd _].
  clear -Hnd. induction es as [|e es IH]; cbn in *; [constructor|].
  apply NoDup_cons in Hnd as [He Hnd]. apply NoDup_cons. split; [|by apply IH].
  intros Hin. apply He. clear -Hin.
  induction es as [|e' es IH]; cbn in *; [done|].
  apply elem_of_cons in Hin as [->|Hin]; [left|right; by apply IH].
Qed.

Lemma NoDup_level (d : nat) : NoDup (level root d).
Proof.
  induction d as [|d IH]; cbn [level].
  - apply NoDup_singleton.
  - apply NoDup_flat_map; [done|intros; apply NoDup_subdirs|].
    intros x y z _ _ Hx Hy.
    apply subdirs_form in Hx as (n1 & ->).
    apply subdirs_form in Hy as (n2 & H).
    by apply app_inj_tail in H as [? _].
Qed.

Lemma NoDup_candidates : NoDup (candidates root).
Proof.
  unfold candidates.
  pose proof (NoDup_level 0) as N0. pose proof (level_length root 0) as L0.
  pose proof (NoDup_level 1) as N1. pose proof (level_length root 1) as L1.
  pose proof (NoDup_level 2) as N2. pose proof (level_length root 2) as L2.
  pose proof (NoDup_level 3) as N3. pose proof (level_length root 3) as L3.
  remember (level root 3) as l3 eqn:E3.
  remember (level root 2) as l2 eqn:E2.
  remember (level root 1) as l1 eqn:E1.
  remember (level root 0) as l0 eqn:E0.
  clear E0 E1 E2 E3.
  repeat (apply NoDup_app; split; [done|split]); try done.
  all: intros p Hp Hin;
    repeat (apply elem_of_app in Hin as [Hin|Hin]);
    first [apply L0 in Hp|apply L1 in Hp|apply L2 in Hp];
    first [apply L1 in Hin|apply L2 in Hin|apply L3 in Hin]; lia.
Qed.

(** Enough iterations give the first match in the order of the levels. *)
Lemma find_unity_root_spec (fuel : nat) :
  length (candidates root) <= fuel ->
  find_unity_root fuel root = Some (spec_root root).
Proof.
  intros Hfuel. unfold find_unity_root, spec_root.
  destruct (generations_candidates root) as [Hgen Hend].
  destruct (has_unity_layout root []) eqn:Hl.
  - unfold candidates. cbn [level app List.find]. by rewrite Hl.
  - rewrite (bfs_generations root 4 [([], 0)] ∅ fuel Hend).
    + by rewrite Hgen.
    + rewrite Hgen. apply NoDup_candidates.
    + intros x _. apply not_elem_of_empty.
    + by rewrite <- (length_map fst), Hgen.
Qed.

End DiscoveryOrder.

Lemma sorted_same_length (l : list Path) (d : nat) :
  (forall p, p ∈ l -> length p = d) -> StronglySorted no_longer l.
Proof.
  induction l as [|a l IH]; intros H; constructor.
  - apply IH. intros p Hp. apply H. set_solver.
  - apply Forall_forall. intros b Hb. unfold no_longer.
    rewrite (H a), (H b); [done| |]; set_solver.
Qed.

Lemma sorted_app (l1 l2 : list Path) :
  StronglySorted no_longer l1 -> StronglySorted no_longer l2 ->
  (forall a b, a ∈ l1 -> b ∈ l2 -> no_longer a b) ->
  StronglySorted no_longer (l1 ++ l2).
Proof.
  induction 1 as [|a l1 Hs IH Ha]; intros H2 H12; cbn; [done|].
  constructor.
  - apply IH; [done|]. intros x y Hx. apply H12. set_solver.
  - apply Forall_app. split; [done|].
    apply Forall_forall. intros b Hb. apply H12; set_solver.
Qed.

Lemma sorted_split (l1 l2 : list Path) (a : Path) :
  StronglySorted no_longer (l1 ++ a :: l2) -> Forall (no_longer a) l2.
Proof.
  induction l1 as [|b l1 IH]; cbn; intros H.
  - by apply StronglySorted_inv in H as [_ ?].
  - apply IH. by apply StronglySorted_inv in H as [? _].
Qed.

Section FirstMatch.
Context (P : Path -> bool).

Lemma find_first (l : list Path) (x : Path) :
  List.find P l = Some x ->
  exists l1 l2, l = l1 ++ x :: l2 /\ P x = true /\
                forall y, y ∈ l1 -> P y = false.
Proof.
  induction l as [|a l IH]; cbn; [done|].
  destruct (P a) eqn:Ha.
  - intros [= <-]. exists [], l. repeat split; [done|]. intros y Hy.
    by apply elem_of_nil in Hy.
  - intros H. destruct (IH H) as (l1 & l2 & -> & Hx & Hl1).
    exists (a :: l1), l2. repeat split; [done|]. intros y Hy.
    apply elem_of_cons in Hy as [->|Hy]; [done|by apply Hl1].
Qed.

Lemma first_match_shortest (l : list Path) (x q : Path) :
  StronglySorted no_longer l ->
  List.find P l = Some x -> q ∈ l -> P q = true ->
  length x <= length q.
Proof.
  intros Hs Hf Hq HP.
  destruct (find_first l x Hf) as (l1 & l2 & -> & _ & Hl1).
  apply elem_of_app in Hq as [Hq|Hq].
  - rewrite (Hl1 q Hq) in HP. discriminate.
  - apply elem_of_cons in Hq as [->|Hq]; [done|].
    apply sorted_split in Hs. rewrite Forall_forall in Hs. by apply Hs.
Qed.

End FirstMatch.

Section CandidateOrder.
Import RootDiscovery.
Variable root : Node.

Lemma candidates_sorted : StronglySorted no_longer (candidates root).
Proof.
  unfold candidates.
  pose proof (level_length root 0) as L0.
  pose proof (level_length root 1) as L1.
  pose proof (level_length root 2) as L2.
  pose proof (level_length root 3) as L3.
  remember (level root 3) as l3 eqn:E3.
  remember (level root 2) as l2 eqn:E2.
  remember (level root 1) as l1 eqn:E1.
  remember (level root 0) as l0 eqn:E0.
  clear E0 E1 E2 E3.
  apply sorted_app; [eapply sorted_same_length, L0| |].
  apply sorted_app; [eapply sorted_same_length, L1| |].
  apply sorted_app;
    [eapply sorted_same_length, L2|eapply sorted_same_length, L3|].
  all: intros a b Ha Hb; unfold no_longer;
    repeat (apply elem_of_app in Hb as [Hb|Hb]);
    first [apply L0 in Ha|apply L1 in Ha|apply L2 in Ha];
    first [apply L1 in Hb|apply L2 in Hb|apply L3 in Hb]; lia.
Qed.

Lemma child_names_not_junk (children : list (string * bool)) (n : string) :
  n ∈ child_names children -> n <> "__MACOSX".
Proof.
  unfold child_names. intros H.
  apply list_elem_of_In, in_flat_map in H as (d & _ & H).
  destruct (snd d) eqn:Hd; cbn in H; [|done].
  destruct (String.eqb_spec (fst d) "__MACOSX") as [|Hne]; cbn in H; [done|].
  destruct H as [<-|[]]. exact Hne.
Qed.

Lemma level_not_junk (d : nat) (p : Path) :
  p ∈ level root d -> "__MACOSX" ∉ p.
Proof.
  revert p. induction d as [|d IH]; intros p; cbn [level].
  - intros H. apply list_elem_of_singleton in H. subst. apply not_elem_of_nil.
  - intros H. apply list_elem_of_In, in_flat_map in H as (q & Hq & Hp).
    apply list_elem_of_In in Hq, Hp. rewrite subdirs_names in Hp.
    destruct (readdir root q) as [ch|]; [|by apply elem_of_nil in Hp].
    apply list_elem_of_fmap in Hp as (n & -> & Hn).
    apply child_names_not_junk in Hn.
    intros Hin. apply elem_of_app in Hin as [Hin|Hin].
    + by apply (IH q).
    + apply list_elem_of_singleton in Hin. congruence.
Qed.

Lemma candidates_level (p : Path) :
  p ∈ candidates root -> exists d, d <= 3 /\ p ∈ level root d.
Proof.
  unfold candidates. intros H.
  apply elem_of_app in H as [H|H]; [exists 0; split; [lia|done]|].
  apply elem_of_app in H as [H|H]; [exists 1; split; [lia|done]|].
  apply elem_of_app in H as [H|H]; [exists 2; split; [lia|done]|].
  exists 3. split; [lia|done].
Qed.

Lemma candidates_bounded (p : Path) :
  p ∈ candidates root -> length p <= 3 /\ "__MACOSX" ∉ p.
Proof.
  intros H. apply candidates_level in H as (d & Hd & H). split.
  - apply level_length in H. lia.
  - by eapply level_not_junk.
Qed.

End CandidateOrder.

(** C4, as the code has it.  For a tree in which sibling names are
    distinct, and with enough iterations, discovery returns the first
    directory, in the order of the levels 0 to 3 and left to right inside a
    level, that contains entries named Assets, Packages and
    ProjectSettings, whether files or directories: no candidate before it
    matches and no matching candidate is shallower.  No candidate lies at or
    below a directory named __MACOSX.  When no candidate matches, discovery
    returns the extraction directory. *)
Theorem root_discovery_returns_first_match (root : Node) (fuel : nat) :
  RootDiscovery.wf root ->
  length (RootDiscovery.candidates root) <= fuel ->
  RootDiscovery.find_unity_root fuel root = Some (RootDiscovery.spec_root root) /\
  (forall q,
     q ∈ RootDiscovery.candidates root ->
     RootDiscovery.has_unity_layout root q = true ->
     RootDiscovery.has_unity_layout root (RootDiscovery.spec_root root) = true /\
     length (RootDiscovery.spec_root root) <= length q /\
     exists before after,
       RootDiscovery.candidates root =
         before ++ RootDiscovery.spec_root root :: after /\
       forall p, p ∈ before -> RootDiscovery.has_unity_layout root p = false) /\
  ((forall q, q ∈ RootDiscovery.candidates root ->
              RootDiscovery.has_unity_layout root q = false) ->
   RootDiscovery.spec_root root = []) /\
  (forall p, p ∈ RootDiscovery.candidates root ->
             length p <= 3 /\ "__MACOSX" ∉ p).
Proof.
  intros Hwf Hfuel. split; [by apply find_unity_root_spec|].
  split; [|split; [|apply candidates_bounded]].
  - intros q Hq HP. unfold RootDiscovery.spec_root.
    destruct (List.find _ _) as [x|] eqn:Hf.
    + cbn. destruct (find_first _ _ _ Hf) as (l1 & l2 & E & Hx & Hl1).
      split; [done|]. split.
      * eapply first_match_shortest; [apply candidates_sorted|done..].
      * by exists l1, l2.
    + apply list_elem_of_In in Hq.
      pose proof (find_none _ _ Hf q Hq). congruence.
  - intros Hnone. unfold RootDiscovery.spec_root.
    destruct (List.find _ _) as [x|] eqn:Hf; [|done].
    apply find_some in Hf as [Hin Hx]. apply list_elem_of_In in Hin.
    rewrite (Hnone x Hin) in Hx. discriminate.
Qed.

Lemma root_discovery_returns_first_match_witness :
  RootDiscovery.find_unity_root 16 Sample.wrapped_tree = Some ["MyGame"].
Proof.
  destruct (root_discovery_returns_first_match Sample.wrapped_tree 16)
    as (H & _).
  - cbn. repeat split; repeat constructor; set_solver.
  - vm_compute. lia.
  - etransitivity; [exact H|]. vm_compute. reflexivity.
Defined.

(** C4, as stated, fails when the markers are read as subdirectories: a
    directory holding three regular files named like the markers is
    returned although it has no marker subdirectory, before the directory
    at the same depth that has them. *)
Lemma marker_files_counterexample :
  RootDiscovery.find_unity_root 16 Sample.decoy_tree = Some ["A"] /\
  RootDiscovery.has_marker_subdirectories Sample.decoy_tree ["A"] = false /\
  RootDiscovery.has_marker_subdirectories Sample.decoy_tree ["B"] = true /\
  RootDiscovery.spec_root_subdirectories Sample.decoy_tree = ["B"].
Proof. vm_compute. repeat split; reflexivity. Qed.

(** ** The build cache *)

Lemma restore_never_throws (w : World) (r : Run) :
  fst (library_cache_restore w r) = inr tt.
Proof.
  unfold library_cache_restore, bind. cbn [startStep get_doc].
  destruct (total_attempt
              (when (cachedLibrary w (doc r) && negb (libraryInTree w))
                 (io w CacheRestoreMkdir ;; io w CacheRestoreCp)%run)
              (snd (startStep "library_cache_restore" r))) as [[] E].
  cbn [snd startStep] in E. cbn [doc].
  destruct (attempt _ _) as [[e|[]] r']; cbn in E; [discriminate|].
  reflexivity.
Qed.

Lemma save_never_throws (w : World) (r : Run) :
  fst (library_cache_save w r) = inr tt.
Proof.
  unfold library_cache_save, bind. cbn [startStep].
  destruct (total_attempt
              (made <- get_calls ;;
               when (libraryInTree w || restored w made || unityWritesLibrary w)
                 (io w CacheSaveMkdir ;; io w CacheSaveRm ;; io w CacheSaveCp))%run
              (snd (startStep "library_cache_save" r))) as [[] E].
  cbn [snd startStep] in E.
  destruct (attempt _ _) as [[e|[]] r']; cbn in E; [discriminate|].
  reflexivity.
Qed.

(** The copy of the cache into the project is attempted exactly when the
    cache entry exists, the project has no Library directory yet, and the
    directory for the copy could be made. *)
Lemma restore_copies_iff (w : World) (r : Run) :
  calls (snd (library_cache_restore w r)) =
    if cacheEntry w (cacheKey (templateId (doc r))) && negb (libraryInTree w) then
      match throws w CacheRestoreMkdir with
      | None => CacheRestoreCp :: CacheRestoreMkdir :: calls r
      | Some _ => CacheRestoreMkdir :: calls r
      end
    else calls r.
Proof.
  cbv [library_cache_restore bind attempt try_catch when startStep endStep io ret
       get_doc cachedLibrary].
  cbn [doc].
  destruct (cacheEntry w _ && negb (libraryInTree w)).
  - destruct (throws w CacheRestoreMkdir); cbn.
    + by case_bool_decide.
    + destruct (throws w CacheRestoreCp); cbn; by case_bool_decide.
  - cbn. by case_bool_decide.
Qed.

Lemma doc_library_cache_restore (w : World) : preserves doc (library_cache_restore w).
Proof. unfold library_cache_restore. step_through. Qed.

Lemma doc_library_cache_save (w : World) : preserves doc (library_cache_save w).
Proof. unfold library_cache_save. step_through. Qed.

Section Called.
Variable op : Op.

Lemma called_record (op' : Op) (r : Run) :
  op' <> op -> called op (record_call op' r) = called op r.
Proof.
  intros Hne. unfold called. cbn. apply bool_decide_ext.
  rewrite elem_of_cons. split; [intros [E|H]; [congruence|done]|by right].
Qed.

Lemma called_io (w : World) (op' : Op) :
  op' <> op -> preserves (called op) (io w op').
Proof.
  intros Hne r. unfold io. destruct (throws w op'); by apply called_record.
Qed.

Lemma called_startStep (n : string) : preserves (called op) (startStep n).
Proof. by intros r. Qed.

Lemma called_endStep (n : string) : preserves (called op) (endStep n).
Proof.
  intros r. unfold endStep. cbn [snd].
  by destruct (bool_decide (n ∈ stepStartedAt r)).
Qed.

Lemma called_modify (g : Project -> Project) : preserves (called op) (modify g).
Proof. by intros r. Qed.

Lemma called_save_doc (w : World) (op' : Op) :
  op' <> op -> preserves (called op) (save_doc w op').
Proof.
  intros Hne r. rewrite save_doc_eq.
  destruct (throws w op'); cbn [snd]; [by apply called_record|].
  unfold persisted, called. cbn. fold (called op r).
  rewrite <- (called_record op' r Hne). reflexivity.
Qed.

Lemma called_runUnity (w : World) (n : string) (op' : Op) (t : Runner.Tool) :
  op' <> op -> preserves (called op) (runUnity w n op' t).
Proof.
  intros Hne. unfold runUnity.
  apply preserves_bind; [apply called_startStep|intros _].
  apply preserves_bind; [|intros _; apply called_endStep].
  intros r. destruct (Runner.runUnity_promise _ _); by apply called_record.
Qed.

Lemma called_extract_archive (w : World) :
  ExtractArchive <> op -> preserves (called op) (extract_archive w).
Proof.
  intros Hne. unfold extract_archive. destruct (admZip w (archive w)).
  - intros r. by apply called_record.
  - by apply called_io.
Qed.

End Called.

(** Walk through steps none of which makes the call [op]. *)
Ltac not_called :=
  repeat first
    [ apply called_runUnity; discriminate
    | apply called_extract_archive; discriminate
    | apply called_save_doc; discriminate
    | apply called_io; discriminate
    | apply called_startStep
    | apply called_endStep
    | apply called_modify
    | apply preserves_ret
    | apply preserves_throw
    | apply preserves_get_doc
    | apply preserves_get_steps
    | apply preserves_get_calls
    | apply preserves_attempt
    | apply preserves_when
    | apply preserves_bind
    | progress intros
    | match goal with
      | |- preserves _ (if ?b then _ else _) => destruct b
      | |- preserves _ (match ?x with Some _ => _ | None => _ end) => destruct x
      end ].

Lemma prepare_makes_no_cache_save (w : World) :
  preserves (called CacheSaveCp) (prepare w).
Proof. unfold prepare, library_cache_restore. not_called. Qed.

Lemma build_makes_no_cache_save (w : World) :
  preserves (called CacheSaveCp) (build_and_capture w).
Proof. unfold build_and_capture. not_called. Qed.

Lemma on_error_makes_no_cache_save (w : World) (e : string) :
  preserves (called CacheSaveCp) (on_error w e).
Proof. unfold on_error. not_called. Qed.

Lemma failed_build_throws (w : World) (e : string) (r : Run) :
  Runner.runUnity_promise (env_UNITY_BUILD_TIMEOUT_MS w) (build w) = Some e ->
  exists e', fst (build_and_capture w r) = inl e'.
Proof.
  intros H. cbv [build_and_capture bind startStep runUnity io throw ret].
  destruct (String.eqb _ _); [by eexists|].
  destruct (throws w MkdirOutput); [by eexists|].
  rewrite H. by eexists.
Qed.

(** The cache entry is replaced only in a run whose primary build
    succeeded. *)
Lemma cache_save_requires_build (w : World) (p : Project) :
  CacheSaveCp ∈ calls (snd (run w p)) ->
  Runner.runUnity_promise (env_UNITY_BUILD_TIMEOUT_MS w) (build w) = None.
Proof.
  destruct (Runner.runUnity_promise _ (build w)) as [e|] eqn:Hb; [|done].
  intros Hin. exfalso.
  assert (Hpipe : preserves (called CacheSaveCp) (pipeline w)).
  { unfold pipeline. intros r. unfold bind at 1.
    pose proof (prepare_makes_no_cache_save w r) as H1.
    destruct (prepare w r) as [[e1|[]] r1]; cbn [snd] in *; [done|].
    unfold bind at 1.
    pose proof (build_makes_no_cache_save w r1) as H2.
    destruct (failed_build_throws w e r1 Hb) as [e2 H3].
    destruct (build_and_capture w r1) as [[e3|[]] r2]; cbn [fst snd] in *;
      [congruence|discriminate]. }
  assert (Hrun : preserves (called CacheSaveCp) (runBuild w)).
  { unfold runBuild.
    apply preserves_bind; [apply called_modify|intros _].
    apply preserves_bind; [apply called_save_doc; discriminate|intros _].
    apply preserves_bind; [apply called_startStep|intros _].
    apply preserves_bind; [apply called_io; discriminate|intros _].
    apply preserves_bind; [apply called_endStep|intros _].
    apply preserves_finally.
    - apply preserves_try_catch; [exact Hpipe|].
      apply on_error_makes_no_cache_save.
    - apply preserves_attempt. apply called_io. discriminate. }
  specialize (Hrun (start p)). unfold called in Hrun.
  fold (run w p) in Hrun.
  rewrite (bool_decide_eq_true_2 _ Hin) in Hrun.
  cbn in Hrun. symmetry in Hrun. apply bool_decide_eq_true_1 in Hrun.
  by apply elem_of_nil in Hrun.
Qed.

(** *** The outcome does not depend on the cache *)

Lemma same_view_refl (r : Run) : same_view r r.
Proof. by repeat split. Qed.

Section Alike.
Context {A B : Type}.

Lemma alike_ret (a : A) : alike (ret a) (ret a).
Proof. by intros r r' H. Qed.

Lemma alike_throw (e : string) : alike (@throw A e) (throw e).
Proof. by intros r r' H. Qed.

Lemma alike_bind (m m' : M A) (k k' : A -> M B) :
  alike m m' -> (forall a, alike (k a) (k' a)) -> alike (bind m k) (bind m' k').
Proof.
  intros Hm Hk r r' Hv. unfold bind. destruct (Hm r r' Hv) as [E Hv'].
  destruct (m r) as [[e|a] r1], (m' r') as [[e'|a'] r1']; cbn in *;
    try discriminate.
  - injection E as <-. by split.
  - injection E as <-. by apply Hk.
Qed.

Lemma alike_try_catch (m m' : M A) (h h' : string -> M A) :
  alike m m' -> (forall e, alike (h e) (h' e)) ->
  alike (try_catch m h) (try_catch m' h').
Proof.
  intros Hm Hh r r' Hv. unfold try_catch. destruct (Hm r r' Hv) as [E Hv'].
  destruct (m r) as [[e|a] r1], (m' r') as [[e'|a'] r1']; cbn in *;
    try discriminate.
  - injection E as <-. by apply Hh.
  - by split.
Qed.

Lemma alike_finally (m m' : M A) (c c' : M unit) :
  alike m m' -> alike c c' -> alike (finally m c) (finally m' c').
Proof.
  intros Hm Hc r r' Hv. unfold finally. destruct (Hm r r' Hv) as [E Hv'].
  destruct (m r) as [x r1], (m' r') as [x' r1']; cbn in *.
  split; [done|]. by apply Hc.
Qed.

End Alike.

Lemma alike_attempt (m m' : M unit) : alike m m' -> alike (attempt m) (attempt m').
Proof. intros H. apply alike_try_catch; [done|]. intros e. apply alike_ret. Qed.

Lemma alike_when (b : bool) (m m' : M unit) :
  alike m m' -> alike (when b m) (when b m').
Proof. intros H. destruct b; [done|]. apply alike_ret. Qed.

Lemma same_view_record (op op' : Op) (r r' : Run) :
  same_view r r' -> same_view (record_call op r) (record_call op' r').
Proof. intros (?&?&?&?). by repeat split. Qed.

Lemma alike_io (w w' : World) (op : Op) :
  throws w op = throws w' op -> alike (io w op) (io w' op).
Proof.
  intros E r r' Hv. unfold io. rewrite E.
  destruct (throws w' op); (split; [done|]); by apply same_view_record.
Qed.

Lemma alike_save_doc (w w' : World) (op : Op) :
  throws w op = throws w' op -> alike (save_doc w op) (save_doc w' op).
Proof.
  intros E r r' Hv. rewrite !save_doc_eq, E.
  destruct (throws w' op); (split; [done|]).
  - by apply same_view_record.
  - destruct Hv as (H1&H2&H3&H4). repeat split; cbn; congruence.
Qed.

Lemma alike_startStep (n : string) : alike (startStep n) (startStep n).
Proof.
  intros r r' (H1&H2&H3&H4). split; [done|]. repeat split; cbn; congruence.
Qed.

Lemma alike_endStep (n : string) : alike (endStep n) (endStep n).
Proof.
  intros r r' (H1&H2&H3&H4). split; [done|]. unfold endStep. cbn [snd].
  rewrite H3. destruct (bool_decide _); repeat split; cbn; congruence.
Qed.

Lemma alike_modify (g : Project -> Project) : alike (modify g) (modify g).
Proof.
  intros r r' (H1&H2&H3&H4). split; [done|]. repeat split; cbn; congruence.
Qed.

Lemma alike_get_doc : alike get_doc get_doc.
Proof. intros r r' Hv. split; [|done]. cbn. f_equal. apply Hv. Qed.

Lemma alike_get_steps : alike get_steps get_steps.
Proof. intros r r' Hv. split; [|done]. cbn. f_equal. apply Hv. Qed.

Lemma alike_runUnity (w w' : World) (n : string) (op : Op) (t : Runner.Tool) :
  env_UNITY_BUILD_TIMEOUT_MS w = env_UNITY_BUILD_TIMEOUT_MS w' ->
  alike (runUnity w n op t) (runUnity w' n op t).
Proof.
  intros E. unfold runUnity. rewrite E.
  apply alike_bind; [apply alike_startStep|intros _].
  apply alike_bind; [|intros _; apply alike_endStep].
  intros r r' Hv.
  destruct (Runner.runUnity_promise _ _); (split; [done|]);
    by apply same_view_record.
Qed.

Lemma alike_extract_archive (w w' : World) :
  admZip w (archive w) = admZip w' (archive w') ->
  throws w ExtractArchive = throws w' ExtractArchive ->
  alike (extract_archive w) (extract_archive w').
Proof.
  intros E1 E2. unfold extract_archive. rewrite E1.
  destruct (admZip w' (archive w')).
  - intros r r' Hv. split; [done|]. by apply same_view_record.
  - by apply alike_io.
Qed.

(** The cache steps answer alike in any two worlds. *)
Lemma restore_view (w : World) (r : Run) :
  same_view (snd (library_cache_restore w r))
            (snd ((startStep "library_cache_restore" ;;
                   endStep "library_cache_restore")%run r)).
Proof.
  cbv [library_cache_restore bind attempt try_catch when startStep endStep io ret
       get_doc cachedLibrary].
  cbn [doc].
  destruct (cacheEntry w _ && negb (libraryInTree w));
    [destruct (throws w CacheRestoreMkdir);
       [|destruct (throws w CacheRestoreCp)]|];
    cbn; case_bool_decide; by repeat split.
Qed.

Lemma save_view (w : World) (r : Run) :
  same_view (snd (library_cache_save w r))
            (snd ((startStep "library_cache_save" ;;
                   endStep "library_cache_save")%run r)).
Proof.
  cbv [library_cache_save bind attempt try_catch when startStep endStep io ret
       get_calls].
  cbn [calls].
  destruct (libraryInTree w || restored w (calls r) || unityWritesLibrary w);
    [destruct (throws w CacheSaveMkdir);
       [|destruct (throws w CacheSaveRm); [|destruct (throws w CacheSaveCp)]]|];
    cbn; case_bool_decide; by repeat split.
Qed.

Lemma same_view_trans (r1 r2 r3 : Run) :
  same_view r1 r2 -> same_view r2 r3 -> same_view r1 r3.
Proof. intros (?&?&?&?) (?&?&?&?). repeat split; congruence. Qed.

Lemma same_view_sym (r1 r2 : Run) : same_view r1 r2 -> same_view r2 r1.
Proof. intros (?&?&?&?). by repeat split. Qed.

Lemma alike_library_cache_restore (w w' : World) :
  alike (library_cache_restore w) (library_cache_restore w').
Proof.
  intros r r' Hv. split.
  - by rewrite !restore_never_throws.
  - eapply same_view_trans; [apply restore_view|].
    eapply same_view_trans; [|apply same_view_sym, restore_view].
    apply (alike_bind _ _ _ _ (alike_startStep _)
             (fun _ => alike_endStep _) r r' Hv).
Qed.

Lemma alike_library_cache_save (w w' : World) :
  alike (library_cache_save w) (library_cache_save w').
Proof.
  intros r r' Hv. split.
  - by rewrite !save_never_throws.
  - eapply same_view_trans; [apply save_view|].
    eapply same_view_trans; [|apply same_view_sym, save_view].
    apply (alike_bind _ _ _ _ (alike_startStep _)
             (fun _ => alike_endStep _) r r' Hv).
Qed.

Section CacheIndependence.
Variables (w : World) (present : string -> bool)
  (faults : Op -> option string).

(** Walk through the same steps in the two worlds. *)
Ltac alike_through :=
  cbn [throws template archive admZip tree env_UNITY_EDITOR_PATH
       env_UNITY_BUILD_TIMEOUT_MS build capture unityWritesLibrary cover shot
       framesDir firstFrame ffmpeg_exit ffmpeg_output mp4 coverUrl shotUrl
       videoUrl apk indexHtml with_cache];
  repeat first
    [ apply alike_library_cache_restore
    | apply alike_library_cache_save
    | apply alike_runUnity; reflexivity
    | apply alike_extract_archive; reflexivity
    | apply alike_save_doc; reflexivity
    | apply alike_io; reflexivity
    | apply alike_startStep
    | apply alike_endStep
    | apply alike_modify
    | apply alike_get_doc
    | apply alike_get_steps
    | apply alike_ret
    | apply alike_throw
    | apply alike_attempt
    | apply alike_when
    | match goal with H : context [alike] |- _ => apply H end
    | apply alike_bind
    | progress intros
    | match goal with
      | |- alike (if ?b then _ else _) _ => destruct b
      | |- alike (match ?x with Some _ => _ | None => _ end) _ => destruct x
      end ].

Lemma alike_upload_shots (idx : list nat) (acc : list string) :
  alike (upload_shots (with_cache w present faults) idx acc)
        (upload_shots w idx acc).
Proof.
  revert acc. induction idx as [|i idx IH]; intros acc; cbn [upload_shots].
  - apply alike_ret.
  - alike_through.
Qed.

Lemma alike_upload_media :
  alike (upload_media (with_cache w present faults)) (upload_media w).
Proof.
  unfold upload_media, upload_media_body. pose proof alike_upload_shots.
  alike_through.
Qed.

Lemma alike_prepare :
  alike (prepare (with_cache w present faults)) (prepare w).
Proof. unfold prepare. alike_through. Qed.

Lemma alike_build_and_capture :
  alike (build_and_capture (with_cache w present faults)) (build_and_capture w).
Proof. unfold build_and_capture. alike_through. Qed.

Lemma alike_publish :
  alike (publish (with_cache w present faults)) (publish w).
Proof. unfold publish, publish_android, publish_webgl. alike_through. Qed.

Lemma alike_runBuild :
  alike (runBuild (with_cache w present faults)) (runBuild w).
Proof.
  unfold runBuild.
  pose proof alike_prepare. pose proof alike_build_and_capture.
  pose proof alike_upload_media. pose proof alike_publish.
  repeat (apply alike_bind; [alike_through|intros _]).
  apply alike_finally; [|alike_through].
  apply alike_try_catch.
  - unfold pipeline, finish. alike_through.
  - intros e. unfold on_error. alike_through.
Qed.

(** The cache never decides the outcome of a build: with the cache entry
    present or absent, and whatever fails in the cache operations, the run
    writes the same versions of the document. *)
Lemma outcome_independent_of_cache (p : Project) :
  saves (snd (run (with_cache w present faults) p)) = saves (snd (run w p)) /\
  fst (run (with_cache w present faults) p) = fst (run w p).
Proof.
  destruct (alike_runBuild (start p) (start p) (same_view_refl _))
    as [E (_ & Hs & _)].
  by split.
Qed.

End CacheIndependence.

Lemma promise_resolves (env : option Z) (t : Runner.Tool) :
  Runner.runUnity_promise env t = None ->
  Runner.spawn_error t = None /\ Runner.close_code env t = Some 0%Z.
Proof.
  unfold Runner.runUnity_promise, Runner.on_close.
  destruct (Runner.spawn_error t); [discriminate|].
  destruct (Runner.close_code env t) as [[|c|c]|]; try discriminate. done.
Qed.

(** C9.  Restore attempts the copy of the cached Library into the project
    exactly when the cache holds an entry under the sanitized template id
    and the project has no Library yet (and the directory for it could be
    made); neither restore nor save ever throws or touches the document or
    what was stored, whatever fails inside them.  The cache entry is
    replaced only in a run whose primary build exited with code 0.  And the
    cache never decides the outcome: with any other content of the cache and
    any other faults of the cache operations, the run stores the same
    versions of the document and ends in the same status. *)
Theorem build_cache_is_best_effort (w : World) (p : Project) (r : Run) :
  (fst (library_cache_restore w r) = inr tt /\
   doc (snd (library_cache_restore w r)) = doc r /\
   saves (snd (library_cache_restore w r)) = saves r /\
   calls (snd (library_cache_restore w r)) =
     if cacheEntry w (cacheKey (templateId (doc r))) && negb (libraryInTree w)
     then match throws w CacheRestoreMkdir with
          | None => CacheRestoreCp :: CacheRestoreMkdir :: calls r
          | Some _ => CacheRestoreMkdir :: calls r
          end
     else calls r) /\
  (fst (library_cache_save w r) = inr tt /\
   doc (snd (library_cache_save w r)) = doc r /\
   saves (snd (library_cache_save w r)) = saves r) /\
  (CacheSaveCp ∈ calls (snd (run w p)) ->
   Runner.spawn_error (build w) = None /\
   Runner.close_code (env_UNITY_BUILD_TIMEOUT_MS w) (build w) = Some 0%Z) /\
  (forall present faults,
     saves (snd (run (with_cache w present faults) p)) = saves (snd (run w p)) /\
     final_status (with_cache w present faults) p = final_status w p).
Proof.
  split; [|split; [|split]].
  - split; [apply restore_never_throws|].
    split; [apply doc_library_cache_restore|].
    split; [apply quiet_library_cache_restore|apply restore_copies_iff].
  - split; [apply save_never_throws|].
    split; [apply doc_library_cache_save|apply quiet_library_cache_save].
  - intros H. apply promise_resolves. by apply (cache_save_requires_build w p).
  - intros present faults.
    destruct (outcome_independent_of_cache w present faults p) as [Hs _].
    split; [exact Hs|]. unfold final_status. by rewrite Hs.
Qed.

Lemma build_cache_is_best_effort_witness :
  Runner.close_code None Sample.build_ok = Some 0%Z.
Proof.
  apply (build_cache_is_best_effort
           (Sample.world Sample.build_ok Sample.build_ok Sample.pk_archive)
           (Sample.job queued "webgl")
           (start (Sample.job queued "webgl"))).
  vm_compute. set_solver.
Defined.

(** * Properties of the services around the build *)

(** * Further properties *)

(** ** The configuration the AI service returns *)

Lemma Math_clamp_within (lo hi q : Q) :
  (lo <= hi)%Q ->
  Qle_bool lo (Ai.Math_max lo (Ai.Math_min hi q)) &&
  Qle_bool (Ai.Math_max lo (Ai.Math_min hi q)) hi = true.
Proof.
  intros Hlh. unfold Ai.Math_max, Ai.Math_min.
  destruct (Qle_bool hi q) eqn:E1.
  - destruct (Qle_bool lo hi) eqn:E2.
    + rewrite E2. cbn. apply Qle_bool_iff. apply Qle_refl.
    + apply Qle_bool_iff in Hlh. congruence.
  - destruct (Qle_bool lo q) eqn:E2.
    + rewrite E2. cbn. apply Qle_bool_iff.
      destruct (Qlt_le_dec q hi) as [H|H]; [by apply Qlt_le_weak|].
      apply Qle_bool_iff in H. congruence.
    + assert (H : Qle_bool lo lo = true) by (apply Qle_bool_iff, Qle_refl).
      rewrite H. cbn. by apply Qle_bool_iff.
Qed.

Lemma clamp_within (f : string -> JsNum) (n : JsVal) (lo hi fb : Q) :
  (lo <= hi)%Q -> (lo <= fb)%Q -> (fb <= hi)%Q ->
  Ai.number_within lo hi (Ai.clamp f n lo hi fb) = true.
Proof.
  intros Hlh H1 H2. unfold Ai.clamp.
  set (v := match n with JNum x => x | _ => Ai.Number f n end).
  assert (Hfb : Ai.number_within lo hi (JNum (Finite fb)) = true).
  { cbn. apply andb_true_iff. split; by apply Qle_bool_iff. }
  destruct v; try exact Hfb.
  cbn. by apply Math_clamp_within.
Qed.

Lemma length_slice_to (n : nat) (s : string) :
  String.length (Text.slice_to n s) = Nat.min n (String.length s).
Proof.
  unfold Text.slice_to. by rewrite length_str, length_take, length_chars.
Qed.

Lemma eqb_empty_length (s : string) :
  String.eqb s "" = false -> 1 <= String.length s.
Proof. destruct s; cbn; [discriminate|lia]. Qed.

Lemma asShortString_within (v : JsVal) (lo hi : nat) (fb : string) :
  lo <= 1 -> 1 <= hi -> lo <= String.length fb <= hi ->
  Ai.text_within lo hi (Ai.asShortString v hi fb) = true.
Proof.
  intros Hlo Hhi Hfb. unfold Ai.asShortString.
  assert (Hd : Ai.text_within lo hi (JStr fb) = true).
  { cbn. apply andb_true_iff. split; [apply Nat.leb_le|apply Nat.leb_le]; lia. }
  destruct v; try exact Hd.
  destruct (String.eqb (Js.trim s) "") eqn:E; [exact Hd|].
  apply eqb_empty_length in E. cbn. rewrite length_slice_to.
  apply andb_true_iff. split; apply Nat.leb_le; lia.
Qed.

Lemma asStringArray_within (v : JsVal) (maxItems maxLen : nat) :
  1 <= maxLen ->
  Ai.is_undefined (Ai.asStringArray v maxItems maxLen) ||
  Ai.tags_within maxItems 1 maxLen (Ai.asStringArray v maxItems maxLen) = true.
Proof.
  intros Hlen. unfold Ai.asStringArray.
  destruct v; try reflexivity.
  set (kept := List.filter _ _).
  assert (Hkept : Forall (fun x => 1 <= String.length x) kept).
  { apply Forall_forall. intros x Hx.
    apply list_elem_of_In, filter_In in Hx as [_ Hx].
    by apply Nat.ltb_lt in Hx. }
  clearbody kept.
  set (out := take maxItems _).
  assert (Hout : length out <= maxItems /\
                 Forall (fun x => 1 <= String.length x <= maxLen) out).
  { split.
    - unfold out. rewrite length_take. lia.
    - unfold out. apply Forall_take. apply Forall_fmap.
      eapply Forall_impl; [exact Hkept|]. intros x Hx. cbn.
      rewrite length_slice_to. cbn beta in Hx. lia. }
  clearbody out. destruct Hout as [H1 H2].
  destruct out as [|x out]; [reflexivity|].
  cbn [Ai.is_undefined orb Ai.tags_within].
  rewrite length_map. apply andb_true_iff. split; [by apply Nat.leb_le|].
  apply forallb_forall. intros e He.
  apply in_map_iff in He as (y & <- & Hy).
  apply list_elem_of_In in Hy.
  rewrite Forall_forall in H2. specialize (H2 y Hy).
  apply andb_true_iff. split; apply Nat.leb_le; lia.
Qed.

Lemma hash_not_hex_without_hash (s : string) :
  startsWithHash s = false -> is_hash_hex6 s = false.
Proof.
  unfold is_hash_hex6, Js.chars. destruct s as [|a s]; [done|].
  cbn. destruct (Ascii.eqb_spec a "#"%char) as [->|Hne]; [done|].
  intros _. destruct a as [[] [] [] [] [] [] [] []]; try reflexivity.
  by destruct Hne.
Qed.

Lemma hash_prefixed_length (s : string) :
  is_hash_hex6 ("#" +:+ s) = true -> String.length s = 6.
Proof.
  unfold is_hash_hex6, Js.chars. cbn. intros H.
  apply andb_true_iff in H as [H _]. apply Nat.eqb_eq in H.
  by rewrite <- length_chars.
Qed.

(** The normalizer of colours of the AI service and the one of [update]
    accept the same texts and return the same colour. *)
Lemma asHexColor_normHex (v : JsVal) (fallback : string) :
  Ai.asHexColor v fallback = default fallback (normHex v).
Proof.
  destruct v; try reflexivity. cbn [Ai.asHexColor normHex].
  destruct (String.eqb (Js.trim s) "") eqn:E; [reflexivity|].
  destruct (startsWithHash (Js.trim s)) eqn:Eh; cbn [negb andb].
  - by destruct (is_hash_hex6 (Js.trim s)).
  - destruct (String.length (Js.trim s) =? 6) eqn:El.
    + by destruct (is_hash_hex6 ("#" +:+ Js.trim s)).
    + rewrite (hash_not_hex_without_hash _ Eh). cbn.
      destruct (is_hash_hex6 ("#" +:+ Js.trim s)) eqn:E6; [|reflexivity].
      apply hash_prefixed_length in E6. apply Nat.eqb_neq in El. lia.
Qed.

Lemma asHexColor_normalized (v : JsVal) (fallback : string) :
  is_normalized_color fallback = true ->
  is_normalized_color (Ai.asHexColor v fallback) = true.
Proof.
  intros Hfb. rewrite asHexColor_normHex.
  destruct (normHex v) as [c|] eqn:E; [|exact Hfb].
  by eapply normHex_normalized.
Qed.

Lemma unityConfigData_safe (f : string -> JsNum) (parsed : Bag) :
  Ai.safe_unity_config (Ai.unityConfigData f parsed) = true.
Proof.
  unfold Ai.safe_unity_config, Ai.unityConfigData.
  cbn [timeScale difficulty theme notes speed genre assetsType mechanics
       primaryColor secondaryColor accentColor playerColor fogEnabled
       fogDensity cameraZoom gravityY jumpForce Ai.is_undefined Ai.is_color].
  rewrite !clamp_within by (by vm_compute).
  rewrite !asShortString_within by (cbn; lia).
  rewrite asStringArray_within by lia.
  rewrite !asHexColor_normalized by reflexivity.
  reflexivity.
Qed.

(** X1: whatever the model answers, the data [generateUnityConfig] returns
    are within the ranges its prompt documents: numbers clamped, texts
    within their length, at most 12 mechanics of 1 to 20 characters,
    colours as [#RRGGBB] in upper case, and no other field; a failure of
    the request is passed on as it is. *)
Theorem generateUnityConfig_within_ranges (f : string -> JsNum)
    (answer : AiAnswer Bag) :
  match Ai.generateUnityConfig f answer with
  | Answer d => Ai.safe_unity_config d = true
  | QuotaExceeded => answer = QuotaExceeded
  | Failure e => answer = Failure e
  end.
Proof. destruct answer; cbn; [apply unityConfigData_safe|done..]. Qed.

(** X2: the colour normalizer of the AI service, [asHexColor], and the one
    of [update], [normHex], accept the same texts and return the same
    colour, although only the second looks at the length before it adds
    the missing [#]. *)
Theorem asHexColor_agrees_with_normHex (v : JsVal) (fallback : string) :
  Ai.asHexColor v fallback = default fallback (normHex v).
Proof. apply asHexColor_normHex. Qed.

(** ** The orchestrator *)

Lemma head_insert_desc {A} (score : A -> nat) (x : A) (l : list A) :
  head (Orchestrator.insert_desc score x l) =
    match head l with
    | Some y => if score x <? score y then Some y else Some x
    | None => Some x
    end.
Proof.
  destruct l as [|y r]; cbn [Orchestrator.insert_desc head]; [done|].
  by destruct (score x <? score y).
Qed.

Lemma head_sort_desc {A} (score : A -> nat) (l : list A) (t : A) :
  head (Orchestrator.sort_desc score l) = Some t ->
  exists before after,
    l = before ++ t :: after /\
    Forall (fun u => score u < score t) before /\
    Forall (fun u => score u <= score t) after.
Proof.
  revert t. induction l as [|x r IH]; intros t; cbn; [discriminate|].
  rewrite head_insert_desc.
  destruct (head (Orchestrator.sort_desc score r)) as [t'|] eqn:E.
  - destruct (IH t' eq_refl) as (b & a & -> & Hb & Ha).
    destruct (score x <? score t') eqn:Ex; intros [= <-].
    + apply Nat.ltb_lt in Ex. exists (x :: b), a. split; [done|].
      split; [by constructor|done].
    + apply Nat.ltb_ge in Ex. exists [], (b ++ t' :: a). split; [done|].
      split; [constructor|]. apply Forall_app. split.
      * eapply Forall_impl; [exact Hb|]. cbn. intros; lia.
      * constructor; [lia|]. eapply Forall_impl; [exact Ha|]. cbn. intros; lia.
  - intros [= <-]. destruct r as [|y r].
    + exists [], []. by repeat split.
    + cbn in E. rewrite head_insert_desc in E.
      destruct (head _); [destruct (_ <? _)|]; discriminate.
Qed.

(** What [createFromAi] stores when it succeeds. *)
Lemma createFromAi_stored (w : AiWorld) (params : AiParams) (s : Service)
    (pid : string) (s' : Service) :
  createFromAi w params s = (Ok pid, s') ->
  exists p,
    projectModel s' !! pid = Some p /\
    _id p = pid /\
    ownerId p = ai_ownerId params /\
    status p = queued /\
    aiUnityConfig p =
      Some (mergedCfg (default emptyBag (ai_initialConfig params))
              (match unityConfig w with Answer c => c | _ => emptyBag end)).
Proof.
  unfold createFromAi.
  destruct (String.eqb (Js.trim (ai_prompt params)) ""); [discriminate|].
  destruct (draft_name w) as [d| |e]; try discriminate;
    (destruct (if String.eqb (Js.trim (default "" (ai_templateId params))) ""
               then mostDownloadedPublicTemplate w
               else Some (Js.trim (default "" (ai_templateId params))))
       as [tid|]; [|discriminate]);
    (destruct (unityConfig w) as [c| |e']; try discriminate);
    intros [= <- <-]; eexists; (split; [apply lookup_insert_eq|]);
    cbn; repeat split; reflexivity.
Qed.

Ltac bool_hyps :=
  repeat match goal with
         | H : _ && _ = true |- _ => apply andb_true_iff in H as [? ?]
         end.

Ltac bool_goal := repeat (apply andb_true_iff; split).

Lemma partial_of_safe (d : Bag) :
  Ai.safe_unity_config d = true -> Orchestrator.partial_config d = true.
Proof.
  unfold Ai.safe_unity_config, Orchestrator.partial_config,
    Orchestrator.absent_or.
  intros H. bool_hyps. bool_goal; try assumption;
    try (apply orb_true_iff; by right).
Qed.

Lemma classified_theme (p : string) :
  Ai.text_within 1 40 (JStr (Orchestrator.cg_theme (Orchestrator.classifyPrompt p)))
  = true.
Proof.
  unfold Orchestrator.classifyPrompt. cbn [Orchestrator.cg_theme].
  repeat match goal with |- context [if ?b then _ else _] => destruct b end;
    reflexivity.
Qed.

Lemma classified_difficulty (p : string) :
  Ai.number_within 0 1
    (JNum (Finite (Orchestrator.cg_difficulty (Orchestrator.classifyPrompt p))))
  = true.
Proof.
  unfold Orchestrator.classifyPrompt. cbn [Orchestrator.cg_difficulty].
  repeat match goal with |- context [if ?b then _ else _] => destruct b end;
    reflexivity.
Qed.

Lemma classified_mechanics (p : string) :
  Ai.tags_within 12 1 20
    (JArr (map EStr (Orchestrator.cg_mechanics (Orchestrator.classifyPrompt p))))
  = true.
Proof.
  unfold Orchestrator.classifyPrompt. cbn [Orchestrator.cg_mechanics].
  repeat match goal with |- context [if ?b then _ else _] => destruct b end;
    reflexivity.
Qed.

Lemma partial_initialConfig (p : string) (u : Bag) :
  Orchestrator.partial_config u = true ->
  Orchestrator.partial_config
    (Orchestrator.initialConfig (Orchestrator.classifyPrompt p) u) = true.
Proof.
  unfold Orchestrator.partial_config, Orchestrator.initialConfig.
  cbn [timeScale difficulty theme notes speed genre assetsType mechanics
       primaryColor secondaryColor accentColor playerColor fogEnabled
       fogDensity cameraZoom gravityY jumpForce].
  intros H. bool_hyps. bool_goal; try assumption.
  - destruct (is_number (difficulty u)); [assumption|].
    unfold Orchestrator.absent_or. rewrite classified_difficulty.
    apply orb_true_r.
  - unfold Orchestrator.absent_or in *.
    destruct (theme u) as [| | | |t| |];
      try (rewrite classified_theme; apply orb_true_r).
    destruct (String.eqb (Js.trim t) "");
      [rewrite classified_theme; apply orb_true_r|assumption].
  - unfold Orchestrator.absent_or in *.
    destruct (mechanics u) as [| | | | |[|x xs]|];
      try (rewrite classified_mechanics; apply orb_true_r).
    assumption.
Qed.

Lemma pick_valid (test valid : JsVal -> bool) (i u fb : JsVal) :
  test JUndefined = false ->
  Orchestrator.absent_or valid i = true ->
  Orchestrator.absent_or valid u = true ->
  valid fb = true ->
  valid (pick test i u fb) = true.
Proof.
  unfold Orchestrator.absent_or, pick. intros Ht Hi Hu Hfb.
  destruct (test i) eqn:Ei.
  - destruct i; cbn in Hi; try assumption. congruence.
  - destruct (test u) eqn:Eu; [|assumption].
    destruct u; cbn in Hu; try assumption. congruence.
Qed.

Lemma pick_absent_or (test valid : JsVal -> bool) (i u : JsVal) :
  test JUndefined = false ->
  Orchestrator.absent_or valid i = true ->
  Orchestrator.absent_or valid u = true ->
  Orchestrator.absent_or valid (pick test i u JUndefined) = true.
Proof.
  unfold pick. intros Ht Hi Hu.
  destruct (test i); [assumption|]. by destruct (test u).
Qed.

Lemma pick_absent (test : JsVal -> bool) (i u : JsVal) :
  Ai.is_undefined i = true -> Ai.is_undefined u = true ->
  Ai.is_undefined (pick test i u JUndefined) = true.
Proof.
  unfold pick. intros Hi Hu. destruct (test i); [assumption|].
  by destruct (test u).
Qed.

Lemma safe_mergedCfg (i u : Bag) :
  Orchestrator.partial_config i = true ->
  Orchestrator.partial_config u = true ->
  Ai.safe_unity_config (mergedCfg i u) = true.
Proof.
  unfold Orchestrator.partial_config, Ai.safe_unity_config, mergedCfg.
  cbn [timeScale difficulty theme notes speed genre assetsType mechanics
       primaryColor secondaryColor accentColor playerColor fogEnabled
       fogDensity cameraZoom gravityY jumpForce].
  intros Hi Hu. bool_hyps.
  bool_goal;
    try (apply pick_valid; (assumption || reflexivity));
    try (apply pick_absent; assumption).
  apply (pick_absent_or is_array (Ai.tags_within 12 1 20));
    (assumption || reflexivity).
Qed.

Lemma partial_answer (f : string -> JsNum) (a : AiAnswer Bag) :
  Orchestrator.partial_config
    (match Ai.generateUnityConfig f a with Answer d => d | _ => emptyBag end)
  = true.
Proof.
  destruct a; cbn; try reflexivity.
  apply partial_of_safe, unityConfigData_safe.
Qed.

(** X3: [selectTemplate] answers with a template of highest score, and among
    the templates of highest score with the first one in the order of the
    candidates, that is the most downloaded; it finds none only when there
    is no candidate. *)
Theorem selectTemplate_returns_first_best
    (cls : Orchestrator.ClassifiedGame)
    (candidates : list Orchestrator.TemplateRec) :
  (Orchestrator.selectTemplate candidates cls = None <-> candidates = []) /\
  forall t, Orchestrator.selectTemplate candidates cls = Some t ->
    exists before after,
      candidates = before ++ t :: after /\
      Forall (fun u => Orchestrator.score cls u < Orchestrator.score cls t)
             before /\
      Forall (fun u => Orchestrator.score cls u <= Orchestrator.score cls t)
             after.
Proof.
  unfold Orchestrator.selectTemplate. split; [|intros t; apply head_sort_desc].
  split; [|by intros ->].
  destruct candidates as [|x r]; [done|]. cbn. rewrite head_insert_desc.
  destruct (head _); [destruct (_ <? _)|]; discriminate.
Qed.

(** X4: whatever the model answers, a project created by
    [generateFullGame] is stored with a configuration within the documented
    ranges: numbers clamped, texts within their length, at most 12
    mechanics, colours as [#RRGGBB] in upper case. *)
Theorem generateFullGame_stores_safe_config
    (StringToNumber : string -> JsNum) (w : Orchestrator.World)
    (owner prompt : string) (s : Service)
    (g : Orchestrator.FullGame) (s' : Service) :
  Orchestrator.generateFullGame StringToNumber w owner prompt s = (Ok g, s') ->
  exists cfg,
    configForBuild s' (Orchestrator.fg_projectId g) = Some cfg /\
    Ai.safe_unity_config cfg = true.
Proof.
  unfold Orchestrator.generateFullGame.
  destruct (String.eqb (Js.trim owner) ""); [discriminate|].
  destruct (String.eqb (Js.trim prompt) ""); [discriminate|].
  destruct (Orchestrator.selectTemplate _ _) as [t|]; [|discriminate].
  destruct (negb (Js.truthy (Orchestrator.t_id t))); [discriminate|].
  destruct (createFromAi _ _ s) as [[pid|e] s1] eqn:E; [|discriminate].
  destruct (String.eqb pid ""); [discriminate|].
  intros [= <- <-]. cbn [Orchestrator.fg_projectId].
  apply createFromAi_stored in E as (p & Hp & _ & _ & _ & Hcfg).
  unfold configForBuild, patchFileConfig. rewrite Hp, Hcfg.
  eexists. split; [reflexivity|].
  cbn [ai_initialConfig default from_option id unityConfig
       Orchestrator.projectsWorld].
  apply safe_mergedCfg.
  - apply partial_initialConfig, partial_answer.
  - apply partial_answer.
Qed.

Lemma generateFullGame_stores_safe_config_witness :
  exists cfg,
    configForBuild
      (snd (Orchestrator.generateFullGame Cases.no_number
              Cases.orchestrator_world "alice" "An endless runner at night"
              Sample.empty_service)) "p7" = Some cfg /\
    primaryColor cfg = JStr "#FF00AA" /\
    Ai.safe_unity_config cfg = true.
Proof.
  destruct (generateFullGame_stores_safe_config Cases.no_number
              Cases.orchestrator_world "alice" "An endless runner at night"
              Sample.empty_service
              {| Orchestrator.fg_projectId := "p7";
                 Orchestrator.fg_classified :=
                   Orchestrator.classifyPrompt "An endless runner at night";
                 Orchestrator.fg_templateId := "tpl-1";
                 Orchestrator.fg_matchedAssets :=
                   Orchestrator.matchAssets []
                     (Orchestrator.classifyPrompt "An endless runner at night") |}
              (snd (Orchestrator.generateFullGame Cases.no_number
                      Cases.orchestrator_world "alice"
                      "An endless runner at night" Sample.empty_service)))
    as (cfg & Hcfg & Hsafe).
  - vm_compute. reflexivity.
  - exists cfg. split; [exact Hcfg|]. split; [|exact Hsafe].
    cbn [Orchestrator.fg_projectId] in Hcfg.
    assert (Some cfg = configForBuild
      (snd (Orchestrator.generateFullGame Cases.no_number
              Cases.orchestrator_world "alice" "An endless runner at night"
              Sample.empty_service)) "p7") as Heq by (symmetry; exact Hcfg).
    vm_compute in Heq. injection Heq as ->. reflexivity.
Defined.

(** ** Trimming *)

Lemma trimStartL_head (l : list ascii) :
  match Js.trimStartL l with
  | a :: _ => Js.is_space a = false
  | [] => True
  end.
Proof.
  induction l as [|a l IH]; cbn; [done|].
  destruct (Js.is_space a) eqn:E; [exact IH|exact E].
Qed.

Lemma trimStartL_fix (l : list ascii) :
  match l with a :: _ => Js.is_space a = false | [] => True end ->
  Js.trimStartL l = l.
Proof. destruct l as [|a l]; cbn; [done|]. by intros ->. Qed.

Lemma trimStartL_snoc (l : list ascii) (a : ascii) :
  Js.is_space a = false ->
  exists ys, Js.trimStartL (l ++ [a]) = ys ++ [a].
Proof.
  intros Ha. induction l as [|b l IH]; cbn.
  - rewrite Ha. by exists [].
  - destruct (Js.is_space b); [exact IH|]. by exists (b :: l).
Qed.

Lemma trimEndL_head (l : list ascii) :
  match l with a :: _ => Js.is_space a = false | [] => True end ->
  match Js.trimEndL l with a :: _ => Js.is_space a = false | [] => True end.
Proof.
  destruct l as [|a l]; [done|]. intros Ha. unfold Js.trimEndL.
  cbn [rev]. destruct (trimStartL_snoc (rev l) a Ha) as (ys & ->).
  rewrite rev_app_distr. cbn. exact Ha.
Qed.

Lemma trimEndL_fix (l : list ascii) :
  match rev l with a :: _ => Js.is_space a = false | [] => True end ->
  Js.trimEndL l = l.
Proof.
  intros H. unfold Js.trimEndL. rewrite trimStartL_fix by exact H.
  apply rev_involutive.
Qed.

Lemma trimEndL_last (l : list ascii) :
  match rev (Js.trimEndL l) with
  | a :: _ => Js.is_space a = false
  | [] => True
  end.
Proof. unfold Js.trimEndL. rewrite rev_involutive. apply trimStartL_head. Qed.

Lemma trimL_idem (l : list ascii) : Js.trimL (Js.trimL l) = Js.trimL l.
Proof.
  unfold Js.trimL at 1.
  rewrite (trimStartL_fix (Js.trimL l)).
  - apply trimEndL_fix. unfold Js.trimL. apply trimEndL_last.
  - unfold Js.trimL. apply trimEndL_head, trimStartL_head.
Qed.

Lemma trim_idem (s : string) : Js.trim (Js.trim s) = Js.trim s.
Proof. unfold Js.trim. by rewrite chars_str, trimL_idem. Qed.

Lemma str_chars (s : string) : Js.str (Js.chars s) = s.
Proof. apply string_of_list_ascii_of_string. Qed.

(** ** [update] *)

Lemma update_edited (owner id : string) (dto : UpdateDto) (s : Service) :
  update owner id dto s =
    match projectModel s !! id with
    | None => (Throw (NotFoundException "Project not found"), s)
    | Some project =>
      if negb (String.eqb (ownerId project) owner)
      then (Throw ForbiddenException, s)
      else match edited dto project with
           | Throw e => (Throw e, s)
           | Ok p => (Ok p, save p s)
           end
    end.
Proof.
  unfold update, edited. destruct (projectModel s !! id) as [p|]; [|done].
  destruct (negb _); [done|].
  destruct (dto_name dto); try reflexivity.
  by destruct (String.eqb (Js.trim s0) "").
Qed.

Lemma assign_if_idem (test : JsVal -> bool) (new old : JsVal) :
  assign_if test new (assign_if test new old) = assign_if test new old.
Proof. unfold assign_if. by destruct (test new). Qed.

Lemma assign_hex_idem (new old : JsVal) :
  assign_hex new (assign_hex new old) = assign_hex new old.
Proof. unfold assign_hex. by destruct (normHex new). Qed.

Lemma mergeAiUpdate_idem (cur d : Bag) :
  mergeAiUpdate (mergeAiUpdate cur d) d = mergeAiUpdate cur d.
Proof.
  unfold mergeAiUpdate.
  cbn [timeScale difficulty theme notes speed genre assetsType mechanics
       primaryColor secondaryColor accentColor playerColor fogEnabled
       fogDensity cameraZoom gravityY jumpForce].
  rewrite !assign_if_idem, !assign_hex_idem.
  by destruct (mechanics d).
Qed.

Lemma update_buildTarget_idem (v : JsVal) (p : Project) :
  update_buildTarget v (update_buildTarget v p) = update_buildTarget v p.
Proof.
  unfold update_buildTarget. destruct v; try reflexivity.
  destruct (_ || _); reflexivity.
Qed.


Lemma edited_idem (dto : UpdateDto) (p q : Project) :
  edited dto p = Ok q -> edited dto q = Ok q.
Proof.
  unfold edited. destruct p. destruct dto as [bt nm ds cfg].
  cbn [dto_buildTarget dto_name dto_description dto_cfg].
  unfold update_buildTarget.
  destruct bt as [| | | |b| |]; (try destruct (_ || _));
    (destruct nm as [| | | |n| |];
       (try (destruct (String.eqb (Js.trim n) "") eqn:En; [discriminate|])));
    (destruct ds as [| | | |d| |]);
    (destruct (hasAiUpdate cfg) eqn:Eh);
    intros [= <-]; cbn; rewrite ?trim_idem, ?En, ?Eh; cbn;
    rewrite ?mergeAiUpdate_idem; reflexivity.
Qed.

Lemma edited_build_state (dto : UpdateDto) (p q : Project) :
  edited dto p = Ok q -> build_state q = build_state p.
Proof.
  unfold edited. destruct p. destruct dto as [bt nm ds cfg].
  cbn [dto_buildTarget dto_name dto_description dto_cfg].
  unfold update_buildTarget.
  destruct bt as [| | | |b| |]; (try destruct (_ || _));
    (destruct nm as [| | | |n| |];
       (try (destruct (String.eqb (Js.trim n) ""); [discriminate|])));
    (destruct ds as [| | | |d| |]);
    (destruct (hasAiUpdate cfg));
    intros [= <-]; reflexivity.
Qed.

Lemma build_state_id (p q : Project) :
  build_state q = build_state p -> _id q = _id p /\ ownerId q = ownerId p.
Proof. unfold build_state. intros [= -> -> _ _ _ _ _ _ _ _ _ _ _ _]. done. Qed.

(** X5: [update] is idempotent: a request repeated on its own result stores
    and returns the same document. *)
Theorem update_idempotent (owner id : string) (dto : UpdateDto)
    (s : Service) (p' : Project) (s' : Service) :
  (forall p, projectModel s !! id = Some p -> _id p = id) ->
  update owner id dto s = (Ok p', s') ->
  update owner id dto s' = (Ok p', s').
Proof.
  intros Hid. rewrite !update_edited.
  destruct (projectModel s !! id) as [p|] eqn:Hp; [|discriminate].
  destruct (negb (String.eqb (ownerId p) owner)) eqn:Ho; [discriminate|].
  destruct (edited dto p) as [q|e] eqn:E; [|discriminate].
  intros [= <- <-].
  destruct (build_state_id p q (edited_build_state _ _ _ E)) as [Hq1 Hq2].
  specialize (Hid p eq_refl).
  unfold save at 1. cbn [projectModel]. rewrite Hq1, Hid, lookup_insert_eq.
  rewrite Hq2, Ho, (edited_idem _ _ _ E).
  f_equal. unfold save. cbn. rewrite Hq1, Hid. f_equal.
  apply insert_insert_eq.
Qed.

Lemma update_idempotent_witness :
  update "alice" "p1" Sample.update_request
    (snd (update "alice" "p1" Sample.update_request
            (Sample.service_with (Sample.job ready "webgl"))))
  = update "alice" "p1" Sample.update_request
      (Sample.service_with (Sample.job ready "webgl")).
Proof.
  destruct (update "alice" "p1" Sample.update_request
              (Sample.service_with (Sample.job ready "webgl")))
    as [[p'|e] s'] eqn:E.
  - apply (update_idempotent "alice" "p1" Sample.update_request
             (Sample.service_with (Sample.job ready "webgl")) p' s').
    + intros p Hp. vm_compute in Hp. injection Hp as <-. reflexivity.
    + exact E.
  - vm_compute in E. discriminate.
Defined.

(** X6: [update] edits the name, the description, the target and the
    configuration only: status, error, artifacts, timings and media of the
    document stay as they were, every other document stays as it was, no
    process is killed and no build is started. *)
Theorem update_keeps_build_state (owner id : string) (dto : UpdateDto)
    (s : Service) (p p' : Project) (s' : Service) :
  projectModel s !! id = Some p ->
  update owner id dto s = (Ok p', s') ->
  build_state p' = build_state p /\
  (forall id', id' <> _id p -> projectModel s' !! id' = projectModel s !! id') /\
  activeBuildProcesses s' = activeBuildProcesses s /\
  killed s' = killed s /\
  spawned s' = spawned s.
Proof.
  intros Hp. rewrite update_edited, Hp.
  destruct (negb _); [discriminate|].
  destruct (edited dto p) as [q|e] eqn:E; [|discriminate].
  intros [= <- <-].
  pose proof (edited_build_state _ _ _ E) as Hb.
  destruct (build_state_id _ _ Hb) as [Hq _].
  split; [exact Hb|]. split; [|done].
  intros id' Hne. cbn. rewrite Hq. by apply lookup_insert_ne.
Qed.

Lemma update_keeps_build_state_witness :
  status (Sample.job running "webgl") = running /\
  spawned (snd (update "alice" "p1" Sample.update_request
                  (Sample.service_with (Sample.job running "webgl")))) = [].
Proof.
  destruct (update "alice" "p1" Sample.update_request
              (Sample.service_with (Sample.job running "webgl")))
    as [[p'|e] s'] eqn:E.
  - destruct (update_keeps_build_state "alice" "p1" Sample.update_request
                (Sample.service_with (Sample.job running "webgl"))
                (Sample.job running "webgl") p' s')
      as (_ & _ & _ & _ & H).
    + reflexivity.
    + exact E.
    + split; [reflexivity|exact H].
  - vm_compute in E. discriminate.
Defined.

Lemma edited_config (dto : UpdateDto) (p q : Project) :
  edited dto p = Ok q ->
  aiUnityConfig q =
    if hasAiUpdate (dto_cfg dto)
    then Some (mergeAiUpdate (default emptyBag (aiUnityConfig p)) (dto_cfg dto))
    else aiUnityConfig p.
Proof.
  unfold edited. destruct p. destruct dto as [bt nm ds cfg].
  cbn [dto_buildTarget dto_name dto_description dto_cfg].
  unfold update_buildTarget.
  destruct bt as [| | | |b| |]; (try destruct (_ || _));
    (destruct nm as [| | | |n| |];
       (try (destruct (String.eqb (Js.trim n) ""); [discriminate|])));
    (destruct ds as [| | | |d| |]);
    (destruct (hasAiUpdate cfg));
    intros [= <-]; reflexivity.
Qed.

Lemma elem_string_trimmed (m : Elem) : Js.trim (elem_string m) = elem_string m.
Proof. destruct m; cbn; [reflexivity|apply trim_idem..]. Qed.

Lemma hasAiUpdate_array (d : Bag) (xs : list Elem) :
  mechanics d = JArr xs -> hasAiUpdate d = true.
Proof.
  intros H. unfold hasAiUpdate. rewrite H. cbn.
  rewrite !orb_true_r. reflexivity.
Qed.

(** X7: the mechanics [update] stores are the texts of the request
    trimmed, the empty ones dropped, and at most the first 12 of them. *)
Theorem update_bounds_mechanics (owner id : string) (dto : UpdateDto)
    (s : Service) (p' : Project) (s' : Service) (xs : list Elem) :
  update owner id dto s = (Ok p', s') ->
  mechanics (dto_cfg dto) = JArr xs ->
  exists l,
    mechanics <$> aiUnityConfig p' = Some (JArr (map EStr l)) /\
    l = take 12 (List.filter (fun m => 0 <? String.length m)
                             (map elem_string xs)) /\
    length l <= 12 /\
    Forall (fun m => m <> "" /\ Js.trim m = m) l.
Proof.
  rewrite update_edited.
  destruct (projectModel s !! id) as [p|]; [|discriminate].
  destruct (negb _); [discriminate|].
  destruct (edited dto p) as [q|e] eqn:E; [|discriminate].
  intros [= <- <-] Hm. apply edited_config in E.
  rewrite (hasAiUpdate_array _ _ Hm) in E. rewrite E. cbn [fmap option_fmap option_map].
  unfold mergeAiUpdate. cbn [mechanics]. rewrite Hm. unfold norm_mechanics.
  eexists. split; [reflexivity|]. split; [reflexivity|]. split.
  - rewrite length_take. lia.
  - apply Forall_take, Forall_forall. intros m Hin.
    apply list_elem_of_In, filter_In in Hin as [Hin Hlen].
    apply in_map_iff in Hin as (e & <- & _). split.
    + intros Hempty. rewrite Hempty in Hlen. discriminate.
    + apply elem_string_trimmed.
Qed.

Lemma update_bounds_mechanics_witness :
  exists l,
    mechanics <$> aiUnityConfig
      (Cases.job_after (update "alice" "p1" Cases.thirteen_mechanics
         (Sample.service_with (Sample.job ready "webgl"))))
      = Some (JArr (map EStr l)) /\
    length l = 12.
Proof.
  destruct (update "alice" "p1" Cases.thirteen_mechanics
              (Sample.service_with (Sample.job ready "webgl")))
    as [[p'|e] s'] eqn:E.
  - destruct (update_bounds_mechanics "alice" "p1" Cases.thirteen_mechanics
                (Sample.service_with (Sample.job ready "webgl")) p' s'
                (ENullish :: EStr "  " :: repeat (EStr " jump ") 13))
      as (l & H1 & H2 & _).
    + exact E.
    + reflexivity.
    + exists l. split; [exact H1|]. rewrite H2. vm_compute. reflexivity.
  - vm_compute in E. discriminate.
Defined.

(** X8: a player colour sent alone is not stored.  The test that guards the
    configuration block of [update] looks at sixteen fields, [playerColor]
    not among them: a request whose only configuration field is a player
    colour leaves the stored configuration as it was, whatever the colour. *)
Theorem update_ignores_lone_playerColor (owner id : string) (dto : UpdateDto)
    (s : Service) (p p' : Project) (s' : Service) (c : JsVal) :
  projectModel s !! id = Some p ->
  dto_cfg dto = only_playerColor c ->
  update owner id dto s = (Ok p', s') ->
  aiUnityConfig p' = aiUnityConfig p.
Proof.
  intros Hp Hc. rewrite update_edited, Hp.
  destruct (negb _); [discriminate|].
  destruct (edited dto p) as [q|e] eqn:E; [|discriminate].
  intros [= <- <-]. apply edited_config in E. by rewrite Hc in E.
Qed.

Lemma update_ignores_lone_playerColor_witness :
  normHex (JStr "#102030") = Some "#102030" /\
  aiUnityConfig
    (Cases.job_after (update "alice" "p1" Cases.player_colour_only
       (Sample.service_with (Sample.job ready "webgl")))) = None.
Proof.
  split; [reflexivity|].
  destruct (update "alice" "p1" Cases.player_colour_only
              (Sample.service_with (Sample.job ready "webgl")))
    as [[p'|e] s'] eqn:E.
  - cbn [Cases.job_after fst].
    apply (update_ignores_lone_playerColor "alice" "p1"
             Cases.player_colour_only
             (Sample.service_with (Sample.job ready "webgl"))
             (Sample.job ready "webgl") p' s' (JStr "#102030")).
    + reflexivity.
    + reflexivity.
    + exact E.
  - vm_compute in E. discriminate.
Defined.

(** ** Runtime configuration and preview *)

Lemma runtime_pick (test : JsVal -> bool) (a b fb : JsVal) :
  test fb = true -> runtime test (pick test a b fb) fb = pick test a b fb.
Proof.
  unfold runtime, pick. intros Hfb.
  destruct (test a) eqn:Ea; [by rewrite Ea|].
  destruct (test b) eqn:Eb; [by rewrite Eb|]. by rewrite Hfb.
Qed.

Lemma runtime_pick_absent (test : JsVal -> bool) (a b : JsVal) :
  runtime test (pick test a b JUndefined) JUndefined = pick test a b JUndefined.
Proof.
  unfold runtime, pick.
  destruct (test a) eqn:Ea; [by rewrite Ea|].
  destruct (test b) eqn:Eb; [by rewrite Eb|]. by destruct (test JUndefined).
Qed.

Lemma runtime_mergedCfg (i u : Bag) :
  runtimeConfigData (mergedCfg i u) =
    with_mechanics
      (runtime is_array (mechanics (mergedCfg i u)) (JArr []))
      (mergedCfg i u).
Proof.
  unfold runtimeConfigData, with_mechanics, mergedCfg.
  cbn [timeScale difficulty theme notes speed genre assetsType mechanics
       primaryColor secondaryColor accentColor playerColor fogEnabled
       fogDensity cameraZoom gravityY jumpForce].
  rewrite !runtime_pick by reflexivity.
  rewrite !runtime_pick_absent. reflexivity.
Qed.

(** X9: for a project created by [createFromAi], the runtime configuration
    served to the game is the stored configuration, field by field, with
    the empty list for absent mechanics: no default of
    [getRuntimeConfig] replaces a stored value. *)
Theorem runtime_config_of_created_project (w : AiWorld) (params : AiParams)
    (s : Service) (pid : string) (s' : Service) (updatedAt : option string) :
  createFromAi w params s = (Ok pid, s') ->
  exists cfg,
    configForBuild s' pid = Some cfg /\
    getRuntimeConfig (ai_ownerId params) pid updatedAt s' =
      Ok (with_mechanics (runtime is_array (mechanics cfg) (JArr [])) cfg,
          updatedAt).
Proof.
  intros H. apply createFromAi_stored in H as (p & Hp & _ & Ho & _ & Hcfg).
  unfold configForBuild, patchFileConfig, getRuntimeConfig.
  rewrite Hp, Hcfg, Ho, eqb_refl_neg. eexists. split; [reflexivity|].
  cbn [default from_option id]. by rewrite runtime_mergedCfg.
Qed.

Lemma runtime_config_of_created_project_witness :
  exists cfg,
    configForBuild (snd (createFromAi Sample.ai_world Sample.ai_request
                           Sample.empty_service)) "p2" = Some cfg /\
    getRuntimeConfig "alice" "p2" None
      (snd (createFromAi Sample.ai_world Sample.ai_request
              Sample.empty_service)) =
      Ok (with_mechanics (JArr []) cfg, None).
Proof.
  destruct (runtime_config_of_created_project Sample.ai_world
              Sample.ai_request Sample.empty_service "p2"
              (snd (createFromAi Sample.ai_world Sample.ai_request
                      Sample.empty_service)) None)
    as (cfg & H1 & H2).
  - vm_compute. reflexivity.
  - exists cfg. split; [exact H1|].
    assert (Hm : mechanics <$> Some cfg = Some JUndefined).
    { rewrite <- H1. vm_compute. reflexivity. }
    injection Hm as Hm. rewrite Hm in H2. exact H2.
Defined.

Lemma isAndroidApk_rebuilt (p : Project) :
  webglIndexStorageKey (rebuilt p) =
    if isAndroidApk p then webglIndexStorageKey p else None.
Proof.
  unfold rebuilt.
  change (isAndroidApk (set_error None (set_status queued p)))
    with (isAndroidApk p).
  by destruct (isAndroidApk p).
Qed.

(** X10: a rebuild for the web withdraws the playable preview until the new
    build is stored; a rebuild for Android leaves the preview of the
    earlier web build in place.  The preview does not depend on the
    status. *)
Theorem preview_after_rebuild (owner id baseUrl : string)
    (token : option string) (s : Service) (p : Project) :
  projectModel s !! id = Some p ->
  _id p = id ->
  ownerId p = owner ->
  getPreviewUrl owner id baseUrl token (snd (rebuild owner id s)) =
    if isAndroidApk p then getPreviewUrl owner id baseUrl token s
    else Throw (BadRequestException "Missing web build").
Proof.
  intros Hp Hid <-.
  destruct (rebuild_stores s id p Hp Hid) as [_ Hr].
  unfold getPreviewUrl. rewrite Hr, Hp.
  assert (Ho : ownerId (rebuilt p) = ownerId p).
  { unfold rebuilt. by destruct (isAndroidApk _). }
  rewrite Ho, eqb_refl_neg, isAndroidApk_rebuilt.
  by destruct (isAndroidApk p).
Qed.

Lemma preview_after_rebuild_witness :
  getPreviewUrl "alice" "p1" "https://api.example/" None
    (snd (rebuild "alice" "p1" (Sample.service_with Sample.web_built)))
    = Throw (BadRequestException "Missing web build") /\
  getPreviewUrl "alice" "p1" "https://api.example/" None
    (snd (rebuild "alice" "p1"
            (Sample.service_with Sample.web_built_now_android)))
    = Ok "https://api.example/api/projects/files/p1/webgl/index.html".
Proof.
  split.
  - apply (preview_after_rebuild "alice" "p1" "https://api.example/" None
             (Sample.service_with Sample.web_built) Sample.web_built);
      reflexivity.
  - vm_compute. reflexivity.
Defined.

(** ** More on runs of the pipeline *)

(** What happens before the guarded part of [runBuild]. *)
Lemma run_prelude (w : World) (p : Project) :
  run w p =
    match throws w SaveRunning with
    | Some e => (inl e, first_save_attempted p)
    | None =>
      match throws w Mkdtemp with
      | Some e => (inl e, workdir_attempted p)
      | None =>
        finally (try_catch (pipeline w) (on_error w))
                (attempt (io w RemoveWorkdir)) (workdir_made p)
      end
    end.
Proof.
  unfold run, runBuild.
  change (bind (modify marked_running) ?k (start p))
    with (k tt {| doc := marked_running p; saves := []; stepStartedAt := [];
                  stepDurations := []; calls := [] |}).
  cbv beta. unfold bind at 1. rewrite save_doc_eq.
  destruct (throws w SaveRunning) as [e|]; [reflexivity|].
  unfold bind at 1. cbn [startStep].
  unfold bind at 1. unfold io at 1.
  destruct (throws w Mkdtemp) as [e|]; [reflexivity|].
  unfold bind at 1. reflexivity.
Qed.




Section AfterCapture.
Variables (w : World) (op : Op).
Hypothesis Hop : after_capture op = true.

Ltac other_op := let E := fresh in intros E; rewrite <- E in Hop; discriminate Hop.

Ltac not_yet :=
  repeat first
    [ apply called_runUnity; other_op
    | apply called_extract_archive; other_op
    | apply called_save_doc; other_op
    | apply called_io; other_op
    | apply called_startStep
    | apply called_endStep
    | apply called_modify
    | apply preserves_ret
    | apply preserves_throw
    | apply preserves_get_doc
    | apply preserves_get_steps
    | apply preserves_get_calls
    | apply preserves_attempt
    | apply preserves_when
    | apply preserves_bind
    | progress intros
    | match goal with
      | |- preserves _ (if ?b then _ else _) => destruct b
      | |- preserves _ (match ?x with Some _ => _ | None => _ end) => destruct x
      end ].

Lemma prepare_comes_before : preserves (called op) (prepare w).
Proof. unfold prepare, library_cache_restore. not_yet. Qed.

Lemma build_comes_before : preserves (called op) (build_and_capture w).
Proof. unfold build_and_capture. not_yet. Qed.

Lemma on_error_comes_before (e : string) : preserves (called op) (on_error w e).
Proof. unfold on_error. not_yet. Qed.

Lemma both_invocations_succeeded (r r' : Run) :
  build_and_capture w r = (inr tt, r') ->
  Runner.runUnity_promise (env_UNITY_BUILD_TIMEOUT_MS w) (build w) = None /\
  Runner.runUnity_promise (env_UNITY_BUILD_TIMEOUT_MS w) (capture w) = None.
Proof.
  cbv [build_and_capture bind startStep runUnity io throw ret].
  destruct (String.eqb _ _); [discriminate|].
  destruct (throws w MkdirOutput); [discriminate|].
  destruct (Runner.runUnity_promise _ (build w)); [discriminate|].
  cbn [fst snd endStep].
  destruct (throws w MkdirMediaOut); [discriminate|].
  destruct (Runner.runUnity_promise _ (capture w)); [discriminate|].
  done.
Qed.

Lemma guarded_comes_before :
  ~ (Runner.runUnity_promise (env_UNITY_BUILD_TIMEOUT_MS w) (build w) = None /\
     Runner.runUnity_promise (env_UNITY_BUILD_TIMEOUT_MS w) (capture w) = None) ->
  preserves (called op)
    (finally (try_catch (pipeline w) (on_error w))
             (attempt (io w RemoveWorkdir))).
Proof.
  intros Hnot. apply preserves_finally.
  - apply preserves_try_catch; [|apply on_error_comes_before].
    unfold pipeline. intros r. unfold bind at 1.
    pose proof (prepare_comes_before r) as H1.
    destruct (prepare w r) as [[e1|[]] r1]; cbn [snd] in *; [done|].
    unfold bind at 1.
    pose proof (build_comes_before r1) as H2.
    destruct (build_and_capture w r1) as [[e3|[]] r2] eqn:E; cbn [fst snd] in *;
      [congruence|].
    destruct Hnot. by eapply both_invocations_succeeded.
  - apply preserves_attempt. apply called_io. other_op.
Qed.

End AfterCapture.

(** X12: nothing is written to the cache, no medium and no artifact is
    uploaded and the job is not stored as ready unless both invocations of
    the editor, the build and the media capture, succeeded. *)
Theorem uploads_require_build_and_capture (w : World) (p : Project) (op : Op) :
  after_capture op = true ->
  op ∈ calls (snd (run w p)) ->
  Runner.runUnity_promise (env_UNITY_BUILD_TIMEOUT_MS w) (build w) = None /\
  Runner.runUnity_promise (env_UNITY_BUILD_TIMEOUT_MS w) (capture w) = None.
Proof.
  intros Hop Hin.
  destruct (Runner.runUnity_promise _ (build w)) as [e1|] eqn:E1;
    destruct (Runner.runUnity_promise _ (capture w)) as [e2|] eqn:E2;
    try done; exfalso.
  all: rewrite run_prelude in Hin.
  all: destruct (throws w SaveRunning);
    [cbn in Hin;
     repeat (apply elem_of_cons in Hin as [->|Hin]; [discriminate Hop|]);
     by apply elem_of_nil in Hin|].
  all: destruct (throws w Mkdtemp);
    [cbn in Hin;
     repeat (apply elem_of_cons in Hin as [->|Hin]; [discriminate Hop|]);
     by apply elem_of_nil in Hin|].
  all: assert (Hpre : preserves (called op)
         (finally (try_catch (pipeline w) (on_error w))
                  (attempt (io w RemoveWorkdir))))
    by (apply guarded_comes_before; [exact Hop|];
        rewrite ?E1, ?E2; intros [? ?]; discriminate).
  all: specialize (Hpre (workdir_made p)); unfold called in Hpre;
    rewrite (bool_decide_eq_true_2 _ Hin) in Hpre; symmetry in Hpre;
    apply bool_decide_eq_true_1 in Hpre; cbn in Hpre.
  all: revert Hpre; case_bool_decide; cbn; intros Hpre.
  all: repeat (apply elem_of_cons in Hpre as [->|Hpre]; [discriminate Hop|]);
    by apply elem_of_nil in Hpre.
Qed.

Lemma uploads_require_build_and_capture_witness :
  PutZip ∈ calls (snd (run (Sample.world Sample.build_ok Sample.build_ok
                              Sample.pk_archive)
                           (Sample.job queued "webgl"))) /\
  Runner.runUnity_promise None Sample.build_ok = None.
Proof.
  assert (H : PutZip ∈ calls (snd (run (Sample.world Sample.build_ok
                                          Sample.build_ok Sample.pk_archive)
                                       (Sample.job queued "webgl")))).
  { vm_compute. set_solver. }
  split; [exact H|].
  apply (uploads_require_build_and_capture
           (Sample.world Sample.build_ok Sample.build_ok Sample.pk_archive)
           (Sample.job queued "webgl") PutZip eq_refl H).
Defined.

(** *** What a successful run publishes *)

#[global] Instance artifact_view_bookkeeping : Bookkeeping artifact_view.
Proof.
  split; intros; try done. unfold endStep, artifact_view. cbn.
  by case_bool_decide.
Qed.

Lemma view_set_previewImageUrl (v : option string) :
  preserves artifact_view (modify (set_previewImageUrl v)).
Proof. by intros r. Qed.

Lemma view_set_screenshotUrls (v : list string) :
  preserves artifact_view (modify (set_screenshotUrls v)).
Proof. by intros r. Qed.

Lemma view_set_previewVideoUrl (v : option string) :
  preserves artifact_view (modify (set_previewVideoUrl v)).
Proof. by intros r. Qed.

#[local] Hint Resolve view_set_previewImageUrl view_set_screenshotUrls
  view_set_previewVideoUrl : run.

Lemma view_upload_shots (w : World) (idx : list nat) (acc : list string) :
  preserves artifact_view (upload_shots w idx acc).
Proof.
  revert acc. induction idx as [|i idx IH]; intros acc; cbn [upload_shots].
  - apply preserves_ret.
  - step_through.
Qed.

Lemma view_upload_media (w : World) : preserves artifact_view (upload_media w).
Proof.
  unfold upload_media, upload_media_body.
  pose proof (view_upload_shots w). step_through.
Qed.

Lemma view_library_cache_restore (w : World) :
  preserves artifact_view (library_cache_restore w).
Proof. unfold library_cache_restore. step_through. Qed.

Lemma view_library_cache_save (w : World) :
  preserves artifact_view (library_cache_save w).
Proof. unfold library_cache_save. step_through. Qed.

Lemma view_prepare (w : World) : preserves artifact_view (prepare w).
Proof.
  unfold prepare. pose proof (view_library_cache_restore w). step_through.
Qed.

Lemma view_build_and_capture (w : World) :
  preserves artifact_view (build_and_capture w).
Proof. unfold build_and_capture. step_through. Qed.

(** A computation that, when it returns, has published the document. *)
Lemma publish_publishes (w : World) (r r' : Run) :
  publish w r = (inr tt, r') ->
  saves r' = saves r /\ status (doc r') = ready /\
  error (doc r') = error (doc r) /\
  artifacts (doc r') = published (doc r).
Proof.
  intros H. pose proof (quiet_publish w r) as Hq. rewrite H in Hq.
  split; [exact Hq|]. revert H.
  unfold publish, published. unfold bind at 1. cbn [get_doc].
  destruct (isAndroidApk (doc r)).
  - cbv [publish_android bind startStep endStep io throw ret get_doc modify].
    destruct (apk w); [|discriminate]. cbn [fst snd stepStartedAt].
    repeat case_bool_decide; cbn;
      (destruct (throws w ReadApk); [discriminate|]);
      (destruct (throws w PutApk); [discriminate|]); cbn;
      repeat case_bool_decide; cbn; intros [= <-]; done.
  - cbv [publish_webgl bind startStep endStep io throw ret get_doc modify].
    destruct (indexHtml w); [|discriminate]. cbn [fst snd stepStartedAt].
    repeat case_bool_decide; cbn;
      (destruct (throws w UploadWebglFiles); [discriminate|]); cbn;
      repeat case_bool_decide; cbn;
      (destruct (throws w ZipWebgl); [discriminate|]);
      (destruct (throws w PutZip); [discriminate|]); cbn;
      repeat case_bool_decide; cbn; intros [= <-]; done.
Qed.

Lemma artifact_view_inv (r1 r : Run) :
  artifact_view r1 = artifact_view r ->
  error (doc r1) = error (doc r) /\ published (doc r1) = published (doc r).
Proof.
  unfold artifact_view, artifacts, published, isAndroidApk.
  intros H. inversion H as [[H1 H2 H3 H4 H5 H6 H7 H8 H9]].
  by rewrite H1, H2, H3, H5, H6, H7.
Qed.

Lemma saves_published_bind {A} (m : M A) (k : A -> M unit) :
  quiet m -> preserves artifact_view m ->
  (forall a, saves_published (k a)) -> saves_published (bind m k).
Proof.
  intros Hq Hv Hk r. unfold bind. specialize (Hq r). specialize (Hv r).
  destruct (m r) as [[e|a] r1]; cbn [snd] in *; [by left|].
  destruct (Hk a r1) as [H|(q & H1 & H2)]; [left; congruence|].
  right. exists q. rewrite <- Hq. split; [exact H1|].
  destruct H2 as [H2|(H2 & H3 & H4)]; [by left|right].
  apply artifact_view_inv in Hv as [Hv1 Hv2].
  split; [exact H2|]. split; congruence.
Qed.

Lemma finish_published (w : World) (r : Run) :
  status (doc r) = ready ->
  saves (snd (finish w r)) = saves r \/
  exists q, saves (snd (finish w r)) = q :: saves r /\
            status q = ready /\ error q = error (doc r) /\
            artifacts q = artifacts (doc r).
Proof.
  intros Hst. cbv [finish bind get_steps modify save_doc io].
  destruct (throws w SaveReady); cbn; [by left|].
  right. eexists. split; [reflexivity|]. by repeat split.
Qed.

Lemma pipeline_published (w : World) : saves_published (pipeline w).
Proof.
  unfold pipeline.
  apply saves_published_bind;
    [apply quiet_prepare|apply view_prepare|intros _].
  apply saves_published_bind;
    [apply quiet_build_and_capture|apply view_build_and_capture|intros _].
  apply saves_published_bind;
    [apply quiet_library_cache_save|apply view_library_cache_save|intros _].
  apply saves_published_bind;
    [apply quiet_upload_media|apply view_upload_media|intros _].
  intros r. unfold bind.
  pose proof (quiet_publish w r) as Hq.
  destruct (publish w r) as [[e|[]] r1] eqn:E; cbn [snd] in *; [by left|].
  apply publish_publishes in E as (_ & H1 & H2 & H3).
  destruct (finish_published w r1 H1) as [H|(q & Hs & H4 & H5 & H6)];
    [left; congruence|].
  right. exists q. rewrite <- Hq. split; [exact Hs|]. right.
  split; [exact H4|]. split; congruence.
Qed.

Lemma guarded_published (w : World) :
  saves_published (finally (try_catch (pipeline w) (on_error w))
                           (attempt (io w RemoveWorkdir))).
Proof.
  intros r. unfold finally.
  destruct (try_catch (pipeline w) (on_error w) r) as [x r2] eqn:E.
  cbn [snd].
  rewrite (preserves_attempt saves _ (preserves_io saves w RemoveWorkdir) r2).
  unfold try_catch in E.
  pose proof (pipeline_published w r) as Hp.
  pose proof (pipeline_saves w r) as Hs.
  destruct (pipeline w r) as [[e|[]] r1]; cbn [fst snd] in Hp, Hs.
  - destruct (on_error_saves w e r1) as [_ He]. rewrite E in He. cbn in He.
    destruct Hs as [Hs|[Hs _]]; [|discriminate]. rewrite <- Hs.
    destruct He as [He|(q & He & Hq & _)]; [by left|].
    right. exists q. split; [done|]. by left.
  - injection E as <- <-. exact Hp.
Qed.

Lemma truthy_suffix (a b : string) :
  b <> "" -> Js.truthy (Some (a +:+ b)) = true.
Proof.
  intros Hb. cbn. destruct a; cbn; [|reflexivity].
  destruct b; [by destruct Hb|reflexivity].
Qed.

(** X13: the version of the document a run stores as ready carries the
    artifact just built as its result ([<id>.zip] with the entry point
    [<id>/webgl/index.html], or [<id>.apk]), no error, and the references
    to the artifacts of the other target as they were; from then on the
    download without a target answers with the URL of that artifact. *)
Theorem successful_build_is_downloadable (w : World) (p q : Project)
    (rest : list Project) (s : Service) (baseUrl : string) :
  saves (snd (run w p)) = q :: rest ->
  status q = ready ->
  artifacts q = published p /\
  error q = None /\
  getDownloadUrl (ownerId p) (_id p) baseUrl None (stored_by_run w p s) =
    Ok (fileUrl baseUrl
          (_id p +:+ (if isAndroidApk p then ".apk" else ".zip"))).
Proof.
  intros Hs Hq.
  assert (H : artifacts q = published p /\ error q = None).
  { rewrite run_prelude in Hs.
    destruct (throws w SaveRunning); [discriminate|].
    destruct (throws w Mkdtemp).
    { cbn in Hs. injection Hs as <- _. discriminate. }
    destruct (guarded_published w (workdir_made p)) as [H|(q' & H & Hq')].
    - rewrite H in Hs. cbn in Hs. revert Hs. case_bool_decide; cbn;
        intros [= <- _]; discriminate.
    - rewrite H in Hs. injection Hs as <- _.
      destruct Hq' as [Hf|(_ & He & Ha)]; [congruence|].
      split.
      + rewrite Ha. unfold workdir_made, endStep. cbn.
        by case_bool_decide.
      + rewrite He. unfold workdir_made, endStep. cbn.
        by case_bool_decide. }
  destruct H as [Ha He]. split; [exact Ha|]. split; [exact He|].
  unfold stored_by_run. rewrite Hs. unfold getDownloadUrl, save.
  cbn [projectModel].
  unfold published, artifacts in Ha.
  destruct (isAndroidApk p);
    injection Ha as Hid Ho _ Hr _ _ _;
    rewrite Hid, lookup_insert_eq, Ho, eqb_refl_neg, Hq, Hr;
    rewrite bool_decide_eq_true_2 by reflexivity; cbn [negb];
    change (Js.toLowerCase (Js.trim (default "" None))) with "";
    cbn [String.eqb orb]; rewrite truthy_suffix by discriminate;
    reflexivity.
Qed.

Lemma successful_build_is_downloadable_witness :
  getDownloadUrl "alice" "p1" "https://api.example" None
    (stored_by_run
       (Sample.world Sample.build_ok Sample.build_ok Sample.pk_archive)
       (Sample.job queued "webgl") Sample.empty_service)
  = Ok "https://api.example/api/projects/files/p1.zip".
Proof.
  destruct (saves (snd (run (Sample.world Sample.build_ok Sample.build_ok
                               Sample.pk_archive)
                            (Sample.job queued "webgl"))))
    as [|q rest] eqn:E.
  - vm_compute in E. discriminate.
  - destruct (successful_build_is_downloadable
                (Sample.world Sample.build_ok Sample.build_ok
                   Sample.pk_archive)
                (Sample.job queued "webgl") q rest Sample.empty_service
                "https://api.example" E) as (_ & _ & H).
    + vm_compute in E. injection E as <- _. reflexivity.
    + exact H.
Defined.

(** ** The environment of the editor *)

Lemma scrub_other (m : gmap string string) (k k' : string) :
  k <> k' -> UnityEnv.scrub m k !! k' = m !! k'.
Proof.
  intros Hne. unfold UnityEnv.scrub, UnityEnv.delete_if.
  repeat match goal with
         | |- context [if ?b then _ else _] => destruct b
         | |- context [match ?x with Some _ => _ | None => _ end] =>
           destruct x
         end;
    repeat (rewrite lookup_delete_ne by done); reflexivity.
Qed.

Lemma scrub_same (m : gmap string string) (k : string) :
  UnityEnv.scrub m k !! k =
    match m !! k with
    | Some v => if UnityEnv.debugging k v then None else Some v
    | None => None
    end.
Proof.
  unfold UnityEnv.scrub, UnityEnv.delete_if, UnityEnv.debugging.
  destruct (Text.startsWith (Js.toUpperCase k) "MONO_");
    destruct (Text.startsWith (Js.toUpperCase k) "UNITY_DEBUG");
    destruct (String.eqb (Js.toUpperCase k) "DEBUGGER_AGENT");
    rewrite ?lookup_delete_eq; cbn [orb];
    try (destruct (m !! k); reflexivity).
  destruct (m !! k) as [v|] eqn:E; [|by rewrite E].
  destruct (Text.includes _ _); [by rewrite lookup_delete_eq|by rewrite E].
Qed.

Lemma scrub_sub (m : gmap string string) (k k' : string) (v : string) :
  UnityEnv.scrub m k !! k' = Some v ->
  m !! k' = Some v /\ (k = k' -> UnityEnv.debugging k' v = false).
Proof.
  destruct (decide (k = k')) as [<-|Hne].
  - rewrite scrub_same. destruct (m !! k) as [u|]; [|discriminate].
    destruct (UnityEnv.debugging k u) eqn:E; [discriminate|].
    by intros [= <-].
  - rewrite scrub_other by done. intros H. split; [exact H|]. by intros.
Qed.

Lemma unityEnv_lookup (keys : list string) (env : gmap string string)
    (k v : string) :
  UnityEnv.unityEnv env keys !! k = Some v <->
  env !! k = Some v /\ (k ∈ keys -> UnityEnv.debugging k v = false).
Proof.
  unfold UnityEnv.unityEnv. revert env.
  induction keys as [|k0 keys IH]; intros env; cbn [foldl].
  - split; [intros H; split; [exact H|]; intros Hin; by apply elem_of_nil in Hin|].
    by intros [H _].
  - rewrite IH. split.
    + intros [H1 H2]. apply scrub_sub in H1 as [H1 H3]. split; [exact H1|].
      intros Hin. apply elem_of_cons in Hin as [->|Hin]; [by apply H3|by apply H2].
    + intros [H1 H2]. split; [|intros Hin; apply H2; by right].
      destruct (decide (k0 = k)) as [->|Hne].
      * rewrite scrub_same, H1. rewrite H2 by (by left). reflexivity.
      * by rewrite scrub_other.
Qed.

(** X14: the environment handed to the editor holds exactly the variables of
    the server's environment that are not after debugging: a variable is
    dropped when its name, in upper case, starts with MONO_ or UNITY_DEBUG or
    is DEBUGGER_AGENT, or when its value, in lower case, mentions
    debugger-agent; every other variable is passed with its value, in
    whatever order the keys are visited. *)
Theorem unityEnv_drops_debugging_variables (env : gmap string string)
    (keys : list string) (k v : string) :
  (forall k', is_Some (env !! k') -> k' ∈ keys) ->
  (UnityEnv.unityEnv env keys !! k = Some v <->
   env !! k = Some v /\ UnityEnv.debugging k v = false).
Proof.
  intros Hkeys. rewrite unityEnv_lookup. split.
  - intros [H1 H2]. split; [exact H1|]. apply H2, Hkeys. by rewrite H1.
  - intros [H1 H2]. by split.
Qed.

Lemma unityEnv_drops_debugging_variables_witness :
  UnityEnv.unityEnv Cases.server_env (map fst (map_to_list Cases.server_env))
    !! "UNITY_EDITOR_PATH" = Some "/opt/unity/Editor/Unity" /\
  UnityEnv.unityEnv Cases.server_env (map fst (map_to_list Cases.server_env))
    !! "Mono_Env_Options" = None.
Proof.
  split.
  - apply (unityEnv_drops_debugging_variables Cases.server_env
             (map fst (map_to_list Cases.server_env))
             "UNITY_EDITOR_PATH" "/opt/unity/Editor/Unity").
    + intros k' [v' Hk']. apply list_elem_of_fmap.
      exists (k', v'). split; [reflexivity|]. by apply elem_of_map_to_list.
    + split; vm_compute; reflexivity.
  - vm_compute. reflexivity.
Defined.

(** ** The files of the web build *)

Lemma Node_induction (P : Node -> Prop) :
  P File ->
  (forall es, Forall (fun e => P (snd e)) es -> P (Dir es)) ->
  forall n, P n.
Proof.
  intros HF HD. fix IH 1. intros [|es]; [exact HF|].
  apply HD. induction es as [|e es IHes]; constructor; [apply IH|exact IHes].
Qed.

Lemma files_Dir (es : list (string * Node)) (dir : Path) :
  WebglUpload.files (Dir es) dir =
    flat_map (fun e => match snd e with
                       | File => [dir ++ [fst e]]
                       | Dir _ => WebglUpload.files (snd e) (dir ++ [fst e])
                       end) es.
Proof. cbn. induction es as [|e es IH]; [done|]. cbn. by rewrite IH. Qed.

Lemma lookup_entry_Some (es : list (string * Node)) (c : string) (m : Node) :
  lookup_entry c es = Some m -> (c, m) ∈ es.
Proof.
  induction es as [|[n x] es IH]; cbn; [done|].
  destruct (String.eqb_spec n c) as [->|Hne].
  - intros [= <-]. by left.
  - intros H. right. by apply IH.
Qed.

Lemma lookup_entry_NoDup (es : list (string * Node)) (c : string) (m : Node) :
  NoDup (map fst es) -> (c, m) ∈ es -> lookup_entry c es = Some m.
Proof.
  induction es as [|[n x] es IH]; cbn; intros Hnd Hin.
  - by apply elem_of_nil in Hin.
  - apply NoDup_cons in Hnd as [Hn Hnd].
    apply elem_of_cons in Hin as [[= <- <-]|Hin].
    + by rewrite String.eqb_refl.
    + destruct (String.eqb_spec n c) as [->|Hne]; [|by apply IH].
      destruct Hn. apply list_elem_of_fmap. by exists (c, m).
Qed.

Lemma wf_entries (es : list (string * Node)) :
  RootDiscovery.wf (Dir es) ->
  NoDup (map fst es) /\ Forall (fun e => RootDiscovery.wf (snd e)) es.
Proof.
  intros [Hnd Hall]. split; [exact Hnd|].
  induction es as [|e es IH]; constructor.
  - apply Hall.
  - apply IH; [by apply NoDup_cons in Hnd as [_ ?]|apply Hall].
Qed.

Lemma append_assoc (a b c : string) : (a +:+ b) +:+ c = a +:+ (b +:+ c).
Proof.
  induction a as [|x a IH]; [done|].
  change (String x ((a +:+ b) +:+ c) = String x (a +:+ (b +:+ c))).
  by rewrite IH.
Qed.

(** The files listed are the paths that lead to a file. *)
Lemma files_spec (n : Node) :
  RootDiscovery.wf n ->
  forall dir p,
    p ∈ WebglUpload.files n dir <->
    exists q, p = dir ++ q /\ q <> [] /\ walk n q = Some File.
Proof.
  induction n as [|es IH] using Node_induction; intros Hwf dir p.
  - cbn. split; [intros H; by apply elem_of_nil in H|].
    intros (q & _ & Hq & Hw). destruct q; [done|discriminate].
  - apply wf_entries in Hwf as [Hnd Hall]. rewrite files_Dir. split.
    + intros Hin. apply list_elem_of_In, in_flat_map in Hin as ([c m] & He & Hin).
      apply list_elem_of_In in He. cbn [fst snd] in Hin.
      pose proof (lookup_entry_NoDup es c m Hnd He) as Hl.
      destruct m as [|es'].
      * destruct Hin as [<-|[]]. exists [c]. split; [done|]. split; [done|].
        cbn. by rewrite Hl.
      * rewrite Forall_forall in IH, Hall.
        apply list_elem_of_In, (IH _ He (Hall _ He)) in Hin
          as (q & -> & Hq & Hw).
        exists (c :: q). split; [by rewrite <- app_assoc|]. split; [done|].
        cbn. by rewrite Hl.
    + intros (q & -> & Hq & Hw). destruct q as [|c q]; [done|].
      cbn in Hw. destruct (lookup_entry c es) as [m|] eqn:Hl; [|done].
      apply lookup_entry_Some in Hl.
      apply list_elem_of_In, in_flat_map. exists (c, m).
      split; [by apply list_elem_of_In|]. cbn [fst snd].
      destruct m as [|es'].
      * destruct q; [by left|discriminate].
      * rewrite Forall_forall in IH, Hall. apply list_elem_of_In.
        apply (IH _ Hl (Hall _ Hl)). exists q.
        split; [by rewrite <- app_assoc|]. split; [|done].
        intros ->. discriminate.
Qed.

(** X15: the keys stored for a web build are the paths of the files of the
    output directory, each below [<id>/webgl/]; when [index.html] is a file
    of the output directory, the entry point the document refers to is one
    of them. *)
Theorem webgl_files_are_uploaded (id : string) (out : Node) :
  RootDiscovery.wf out ->
  (forall key, key ∈ WebglUpload.uploaded_keys id out <->
     exists p, p <> [] /\ walk out p = Some File /\
               key = WebglUpload.key_of id p) /\
  (walk out ["index.html"] = Some File ->
   id +:+ "/webgl/index.html" ∈ WebglUpload.uploaded_keys id out).
Proof.
  intros Hwf.
  assert (H : forall key, key ∈ WebglUpload.uploaded_keys id out <->
     exists p, p <> [] /\ walk out p = Some File /\
               key = WebglUpload.key_of id p).
  { intros key. unfold WebglUpload.uploaded_keys. rewrite list_elem_of_fmap.
    split.
    - intros (p & -> & Hp). apply (files_spec out Hwf) in Hp as (q & -> & Hq & Hw).
      by exists q.
    - intros (p & Hp & Hw & ->). exists p. split; [done|].
      apply (files_spec out Hwf). by exists p. }
  split; [exact H|]. intros Hi. apply H. exists ["index.html"].
  repeat split; [done|exact Hi|].
  unfold WebglUpload.key_of. by rewrite append_assoc.
Qed.

Lemma webgl_files_are_uploaded_witness :
  WebglUpload.uploaded_keys "p1" Cases.webgl_out =
    ["p1/webgl/Build/game.wasm"; "p1/webgl/index.html"].
Proof.
  destruct (webgl_files_are_uploaded "p1" Cases.webgl_out) as [_ H].
  - cbn. repeat split; repeat constructor; set_solver.
  - specialize (H eq_refl). vm_compute. reflexivity.
Defined.

(** ** Template tags *)

Lemma elem_of_rev {A} (a : A) (l : list A) : a ∈ rev l <-> a ∈ l.
Proof.
  split; intros H.
  - apply list_elem_of_In, in_rev. by apply list_elem_of_In.
  - apply list_elem_of_In. rewrite <- in_rev. by apply list_elem_of_In.
Qed.

Lemma split_on_from_pieces (sep : ascii) (s cur : list ascii) :
  sep ∉ cur ->
  Forall (fun t => sep ∉ Js.chars t) (Text.split_on_from sep s cur).
Proof.
  revert cur. induction s as [|a s IH]; intros cur Hcur; cbn.
  - constructor; [|constructor]. rewrite chars_str. by rewrite elem_of_rev.
  - destruct (Ascii.eqb_spec a sep) as [->|Hne].
    + constructor.
      * rewrite chars_str. by rewrite elem_of_rev.
      * apply IH. apply not_elem_of_nil.
    + apply IH. rewrite elem_of_cons. intros [->|H]; [done|by apply Hcur].
Qed.

Lemma trimStartL_suffix (l : list ascii) : Js.trimStartL l `suffix_of` l.
Proof.
  induction l as [|a l IH]; cbn; [done|].
  destruct (Js.is_space a); [by apply suffix_cons_r|done].
Qed.

Lemma trimL_sub (l : list ascii) (a : ascii) : a ∈ Js.trimL l -> a ∈ l.
Proof.
  unfold Js.trimL, Js.trimEndL. rewrite elem_of_rev. intros H.
  pose proof (trimStartL_suffix (rev (Js.trimStartL l))) as [k1 E1].
  pose proof (trimStartL_suffix l) as [k2 E2].
  assert (H1 : a ∈ rev (Js.trimStartL l)) by (rewrite E1; set_solver).
  rewrite elem_of_rev in H1. rewrite E2. set_solver.
Qed.

Lemma split_on_from_app (sep : ascii) (t : list ascii) (s cur : list ascii) :
  sep ∉ t ->
  Text.split_on_from sep (t ++ s) cur = Text.split_on_from sep s (rev t ++ cur).
Proof.
  revert cur. induction t as [|a t IH]; intros cur Ht; cbn; [done|].
  destruct (Ascii.eqb_spec a sep) as [->|Hne]; [set_solver|].
  rewrite IH by set_solver. by rewrite <- app_assoc.
Qed.

Lemma chars_append (a b : string) : Js.chars (a +:+ b) = Js.chars a ++ Js.chars b.
Proof.
  unfold Js.chars. induction a as [|x a IH]; [done|].
  change (x :: list_ascii_of_string (a +:+ b) =
          x :: list_ascii_of_string a ++ list_ascii_of_string b).
  by rewrite IH.
Qed.

Lemma split_on_join (tags : list string) :
  tags <> [] ->
  Forall (fun t => ","%char ∉ Js.chars t) tags ->
  Text.split_on "," (Text.join "," tags) = tags.
Proof.
  unfold Text.split_on, Text.join. induction tags as [|t tags IH]; [done|].
  intros _ Hall. apply Forall_cons in Hall as [Ht Hall].
  destruct tags as [|u tags].
  - cbn [String.concat]. rewrite <- (app_nil_r (Js.chars t)).
    rewrite split_on_from_app by done. cbn.
    by rewrite app_nil_r, rev_involutive, str_chars.
  - change (String.concat "," (t :: u :: tags))
      with (t +:+ "," +:+ String.concat "," (u :: tags)).
    rewrite !chars_append, split_on_from_app by done.
    change (Js.chars ",") with [","%char]. cbn [app Text.split_on_from].
    change (Ascii.eqb "," ",") with true. cbv iota.
    rewrite app_nil_r, rev_involutive, str_chars. f_equal.
    by apply IH.
Qed.

Lemma non_empty_fix (l : list string) :
  Forall (fun t => t <> "") l -> Text.non_empty l = l.
Proof.
  unfold Text.non_empty. induction l as [|t l IH]; intros H; cbn; [done|].
  apply Forall_cons in H as [Ht H].
  destruct (String.eqb_spec t ""); [done|]. cbn. by rewrite IH.
Qed.

(** X16: the tags read from the comma-separated field of an upload are never
    empty, carry no surrounding white space and no comma; and tags of that
    shape, joined with commas, are read back as they were. *)
Theorem parse_tags_round_trip :
  (forall tagsCsv,
     Forall TemplateMeta.is_tag (TemplateMeta.parse_tags tagsCsv)) /\
  (forall tags,
     Forall TemplateMeta.is_tag tags ->
     TemplateMeta.parse_tags (Some (Text.join "," tags)) = tags).
Proof.
  split.
  - intros csv. unfold TemplateMeta.parse_tags.
    destruct (Js.truthy csv); [|constructor].
    apply Forall_forall. intros t Ht. unfold Text.non_empty in Ht.
    apply list_elem_of_In, filter_In in Ht as [Ht Hne].
    apply in_map_iff in Ht as (u & <- & Hu). apply list_elem_of_In in Hu.
    split; [|split].
    + intros E. rewrite E in Hne. discriminate.
    + apply trim_idem.
    + pose proof (split_on_from_pieces "," (Js.chars (default "" csv)) []
                    (not_elem_of_nil _)) as Hp.
      rewrite Forall_forall in Hp. specialize (Hp u Hu).
      intros Hin. apply Hp. unfold Js.trim in Hin. rewrite chars_str in Hin.
      by apply trimL_sub.
  - intros tags Htags. unfold TemplateMeta.parse_tags.
    destruct tags as [|t tags]; [reflexivity|].
    assert (Hjoin : Js.truthy (Some (Text.join "," (t :: tags))) = true).
    { apply Forall_cons in Htags as [(Ht & _) _]. unfold Text.join.
      destruct tags; cbn [String.concat]; [by destruct t|].
      destruct t; [done|reflexivity]. }
    rewrite Hjoin. cbn [default from_option id].
    rewrite split_on_join; [|done|].
    + assert (Hmap : map Js.trim (t :: tags) = t :: tags).
      { clear Hjoin. induction Htags as [|x l (_ & Hx & _) _ IH]; [done|].
        cbn. by rewrite Hx, IH. }
      rewrite Hmap. apply non_empty_fix.
      eapply Forall_impl; [exact Htags|]. by intros x (Hx & _).
    + eapply Forall_impl; [exact Htags|]. by intros x (_ & _ & Hx).
Qed.

(** ** Paid templates *)

Lemma positive_not_free (p : JsNum) : Market.positive p = negb (Market.free p).
Proof.
  destruct p as [q| | |]; try reflexivity. cbn.
  destruct (0 ?= q)%Q eqn:E.
  - apply Qeq_alt in E.
    assert (H : Qle_bool q 0 = true).
    { apply Qle_bool_iff. rewrite <- E. apply Qle_refl. }
    rewrite H. by rewrite orb_true_r.
  - apply Qlt_alt in E.
    assert (H1 : Qle_bool q 0 = false).
    { destruct (Qle_bool q 0) eqn:H; [|done]. apply Qle_bool_iff in H.
      exfalso. eapply Qlt_not_le; eauto. }
    assert (H2 : Qeq_bool q 0 = false).
    { destruct (Qeq_bool q 0) eqn:H; [|done]. apply Qeq_bool_iff in H.
      exfalso. rewrite H in E. by apply Qlt_irrefl in E. }
    by rewrite H1, H2.
  - apply Qgt_alt in E.
    assert (H : Qle_bool q 0 = true).
    { apply Qle_bool_iff. by apply Qlt_le_weak. }
    rewrite H. by rewrite orb_true_r.
Qed.

(** X17: the download of a template and the access check agree.  When
    [getAccess] answers that the user has access, [getDownloadUrlAuthed]
    returns the URL of the archive and counts one download; when it answers
    that the user has none, the download is refused with "Purchase
    required" and nothing is counted; when it throws, the download throws
    the same error. *)
Theorem download_follows_access (templateId baseUrl userId : string)
    (st : Market.Store) :
  match Market.getAccess templateId userId st with
  | inr true =>
    exists t,
      Market.templates st !! templateId = Some t /\
      Market.getDownloadUrlAuthed templateId baseUrl userId st =
        (inr (Market.fileUrl baseUrl (Market.storageKey t)),
         {| Market.templates :=
              <[templateId := Market.downloaded t]> (Market.templates st);
            Market.purchases := Market.purchases st |})
  | inr false =>
    Market.getDownloadUrlAuthed templateId baseUrl userId st =
      (inl (Market.Forbidden (Some "Purchase required")), st)
  | inl e =>
    Market.getDownloadUrlAuthed templateId baseUrl userId st = (inl e, st)
  end.
Proof.
  unfold Market.getAccess, Market.getDownloadUrlAuthed, Market.found.
  destruct (Market.templates st !! templateId) as [t|]; [|reflexivity].
  destruct (Market.isPublic t); [|reflexivity].
  rewrite positive_not_free.
  destruct (Market.free (Market.price_of t)); cbn [negb andb].
  - by exists t.
  - destruct (bool_decide _); cbn [negb]; [by exists t|reflexivity].
Qed.

(** X18: a purchase is recorded only for a payment that succeeded, was made
    for this template and this user, and whose amount received is the
    price of the template in cents; once recorded, the user has access, and
    the purchases of other users and templates are as they were. *)
Theorem confirmPurchase_grants_access (times100 : Q -> JsNum)
    (stripe : Market.Stripe) (templateId userId paymentIntentId : string)
    (st : Market.Store) (t : option Market.Template) (st' : Market.Store) :
  Market.confirmPurchase times100 stripe templateId userId paymentIntentId st
    = (inr t, st') ->
  Market.getAccess templateId userId st' = inr true /\
  (exists intent tpl,
     Market.retrieve stripe paymentIntentId = inr (Some intent) /\
     Market.templates st !! templateId = Some tpl /\
     Market.pi_status intent = "succeeded" /\
     Market.text (Market.pi_templateId intent) = templateId /\
     Market.text (Market.pi_userId intent) = userId /\
     Market.same_number
       (default (Market.pi_amount intent) (Market.pi_amount_received intent))
       (Market.toStripeAmount times100 (Market.price_of tpl)) = true) /\
  Market.templates st' = Market.templates st /\
  (forall k, k <> (templateId, userId) ->
     Market.purchases st' !! k = Market.purchases st !! k).
Proof.
  unfold Market.confirmPurchase, Market.getAccess.
  destruct (Market.found templateId st) as [e|tpl] eqn:Ef; [discriminate|].
  destruct (Market.falsy _); [discriminate|].
  destruct (negb (Market.configured stripe)); [discriminate|].
  destruct (Market.retrieve stripe paymentIntentId) as [e|[intent|]] eqn:Er;
    try discriminate.
  destruct (String.eqb_spec (Market.text (Market.pi_kind intent))
              "template_purchase"); [|discriminate].
  destruct (String.eqb_spec (Market.text (Market.pi_templateId intent))
              templateId) as [E1|]; [|discriminate].
  destruct (String.eqb_spec (Market.text (Market.pi_userId intent)) userId)
    as [E2|]; [|discriminate].
  destruct (String.eqb_spec (Market.pi_status intent) "succeeded")
    as [E3|]; [|discriminate].
  destruct (Market.same_number _ _) eqn:E4; [|discriminate].
  cbn [negb]. intros [= <- <-].
  assert (Hf : Market.templates st !! templateId = Some tpl /\
               Market.isPublic tpl = true).
  { unfold Market.found in Ef.
    destruct (Market.templates st !! templateId) as [x|]; [|discriminate].
    destruct (Market.isPublic x) eqn:Ep; [|discriminate].
    by injection Ef as <-. }
  destruct Hf as [Hf1 Hf2]. split; [|split; [|split]].
  - unfold Market.found. cbn [Market.templates Market.purchases].
    rewrite Hf1, Hf2. destruct (Market.free _); [reflexivity|].
    rewrite lookup_insert_eq. by rewrite bool_decide_eq_true_2.
  - by exists intent, tpl.
  - reflexivity.
  - intros k Hk. cbn. by apply lookup_insert_ne.
Qed.

Lemma confirmPurchase_grants_access_witness :
  Market.getAccess "tpl-9" "bob" Cases.market = inr false /\
  Market.getAccess "tpl-9" "bob"
    (snd (Market.confirmPurchase Cases.cents Cases.stripe "tpl-9" "bob" "pi_1"
            Cases.market)) = inr true.
Proof.
  split; [vm_compute; reflexivity|].
  destruct (Market.confirmPurchase Cases.cents Cases.stripe "tpl-9" "bob" "pi_1"
              Cases.market) as [[e|t] st'] eqn:E.
  - vm_compute in E. discriminate.
  - apply (confirmPurchase_grants_access Cases.cents Cases.stripe "tpl-9" "bob"
             "pi_1" Cases.market t st' E).
Defined.

(** ** The metadata of an uploaded template *)

Lemma slice_to_not_empty (n : nat) (s : string) :
  s <> "" -> Text.slice_to (S n) s <> "".
Proof. by destruct s. Qed.

Lemma blank_false (s : string) : TemplateMeta.blank s = false <-> s <> "".
Proof. unfold TemplateMeta.blank. by rewrite String.eqb_neq. Qed.

Lemma blank_true (s : string) : TemplateMeta.blank s = true <-> s = "".
Proof. unfold TemplateMeta.blank. by rewrite String.eqb_eq. Qed.

Lemma no_tags_true {A} (l : list A) :
  match l with [] => true | _ => false end = true <-> l = [].
Proof. by destruct l. Qed.

Lemma first_text_default (a b c d : string) :
  d <> "" -> TemplateMeta.first_text [a; b; c; d] <> "".
Proof.
  intros Hd. cbn.
  destruct (String.eqb_spec a ""); [|done].
  destruct (String.eqb_spec b ""); [|done].
  by destruct (String.eqb_spec c "").
Qed.

Lemma first_text_head (a : string) (l : list string) :
  a <> "" -> TemplateMeta.first_text (a :: l) = a.
Proof.
  intros Ha. destruct l as [|b l]; [done|]. cbn.
  by destruct (String.eqb_spec a "").
Qed.

Lemma length_name_tags (z : string) : length (TemplateMeta.name_tags z) <= 8.
Proof. unfold TemplateMeta.name_tags. rewrite length_take. lia. Qed.

Lemma trimmed_head (s : string) :
  Js.trim s = s ->
  match Js.chars s with a :: _ => Js.is_space a = false | [] => True end.
Proof.
  intros H. apply (f_equal Js.chars) in H. unfold Js.trim in H.
  rewrite chars_str in H. rewrite <- H. unfold Js.trimL.
  apply trimEndL_head, trimStartL_head.
Qed.

Lemma trim_slice_not_blank (n : nat) (s : string) :
  s <> "" -> Js.trim s = s -> Js.trim (Text.slice_to (S n) s) <> "".
Proof.
  intros Hs Ht. pose proof (trimmed_head s Ht) as Hh.
  unfold Js.trim, Text.slice_to. rewrite chars_str.
  destruct s as [|a r]; [done|]. cbn in Hh.
  change (Js.chars (String a r)) with (a :: Js.chars r).
  cbn [take]. unfold Js.trimL. cbn [Js.trimStartL]. rewrite Hh.
  unfold Js.trimEndL. cbn [rev].
  destruct (trimStartL_snoc (rev (take n (Js.chars r))) a Hh) as (ys & ->).
  rewrite rev_app_distr. by cbn.
Qed.

Lemma slice_to_short (n : nat) (s t : string) :
  Text.slice_to n s = t -> String.length t < n -> s = t.
Proof.
  intros H Hl. pose proof (length_slice_to n s) as Hm. rewrite H in Hm.
  rewrite <- H. unfold Text.slice_to.
  rewrite take_ge by (rewrite length_chars; lia). symmetry. apply str_chars.
Qed.

Section UploadProperties.
Variables (req : TemplateMeta.Request) (out : TemplateMeta.Outside).

Lemma limits_assign (b : bool) (f : TemplateMeta.Stored -> TemplateMeta.Stored)
    (c : TemplateMeta.Stored) :
  TemplateMeta.within_limits c ->
  (b = true -> TemplateMeta.within_limits (f c)) ->
  TemplateMeta.within_limits (TemplateMeta.assign b f c).
Proof. intros Hc Hf. destruct b; [by apply Hf|exact Hc]. Qed.

Lemma limits_name (v : string) (c : TemplateMeta.Stored) :
  TemplateMeta.within_limits c -> v <> "" ->
  TemplateMeta.within_limits
    (TemplateMeta.with_name (Text.slice_to 80 v) c).
Proof.
  intros (H1 & H2 & H3 & H4 & H5 & H6) Hv. repeat split; cbn; try done.
  - rewrite length_slice_to. lia.
  - by apply slice_to_not_empty.
Qed.

Lemma limits_description (v : string) (c : TemplateMeta.Stored) :
  TemplateMeta.within_limits c ->
  TemplateMeta.within_limits
    (TemplateMeta.with_description (Text.slice_to 400 v) c).
Proof.
  intros (H1 & H2 & H3 & H4 & H5 & H6). repeat split; cbn; try done.
  rewrite length_slice_to. lia.
Qed.

Lemma limits_category (v : string) (c : TemplateMeta.Stored) :
  TemplateMeta.within_limits c -> v <> "" ->
  TemplateMeta.within_limits
    (TemplateMeta.with_category (Text.slice_to 60 v) c).
Proof.
  intros (H1 & H2 & H3 & H4 & H5 & H6) Hv. repeat split; cbn; try done.
  - rewrite length_slice_to. lia.
  - by apply slice_to_not_empty.
Qed.

Lemma limits_tags (v : list string) (c : TemplateMeta.Stored) :
  TemplateMeta.within_limits c -> length v <= 20 ->
  TemplateMeta.within_limits (TemplateMeta.with_tags v c).
Proof. intros (H1 & H2 & H3 & H4 & H5 & H6) Hv. by repeat split. Qed.

Lemma limits_created :
  TemplateMeta.within_limits (TemplateMeta.created req out).
Proof.
  repeat split; cbn [TemplateMeta.created TemplateMeta.s_name
    TemplateMeta.s_description TemplateMeta.s_category TemplateMeta.s_tags].
  - rewrite length_slice_to. lia.
  - rewrite length_slice_to. lia.
  - rewrite length_slice_to. lia.
  - rewrite length_take. lia.
  - apply slice_to_not_empty.
    set (l := TemplateMeta.first_text _).
    assert (H : forall a b c d e : string, e <> "" ->
                TemplateMeta.first_text [a; b; c; d; e] <> "").
    { intros a b c d e He. cbn.
      destruct (String.eqb_spec a ""); [|done].
      by apply first_text_default. }
    by apply H.
  - apply slice_to_not_empty. by apply first_text_default.
Qed.

Lemma limits_fill_from_capture (md : option TemplateMeta.Meta)
    (c : TemplateMeta.Stored) :
  TemplateMeta.within_limits c ->
  TemplateMeta.within_limits (TemplateMeta.fill_from_capture req out md c).
Proof.
  intros Hc. unfold TemplateMeta.fill_from_capture.
  destruct md as [m|]; [|exact Hc].
  set (c1 := TemplateMeta.assign _ (TemplateMeta.with_name _) c).
  assert (H1 : TemplateMeta.within_limits c1).
  { apply limits_assign; [exact Hc|]. intros [_ Hb]%andb_true_iff.
    apply limits_name; [exact Hc|].
    apply blank_false. by apply negb_true_iff. }
  set (c2 := TemplateMeta.assign _ (TemplateMeta.with_description _) c1).
  assert (H2 : TemplateMeta.within_limits c2).
  { apply limits_assign; [exact H1|]. intros _. by apply limits_description. }
  set (c3 := TemplateMeta.assign _ (TemplateMeta.with_category _) c2).
  assert (H3 : TemplateMeta.within_limits c3).
  { apply limits_assign; [exact H2|]. intros [_ Hb]%andb_true_iff.
    apply limits_category; [exact H2|].
    apply blank_false. by apply negb_true_iff. }
  destruct (Some m ≫= TemplateMeta.m_tags); [|exact H3].
  apply limits_assign; [exact H3|]. intros _.
  apply limits_tags; [exact H3|]. rewrite length_take. lia.
Qed.

Lemma limits_fill_from_name (c : TemplateMeta.Stored) :
  TemplateMeta.within_limits c ->
  TemplateMeta.within_limits (TemplateMeta.fill_from_name req out c).
Proof.
  intros Hc. apply limits_assign; [exact Hc|]. intros _.
  apply limits_tags; [exact Hc|].
  pose proof (length_name_tags
                (TemplateMeta.fallbackZipName (TemplateMeta.entryNames out))).
  lia.
Qed.

Lemma limits_fill_from_draft (d : option TemplateMeta.Meta)
    (c : TemplateMeta.Stored) :
  TemplateMeta.within_limits c ->
  TemplateMeta.within_limits (TemplateMeta.fill_from_draft req d c).
Proof.
  intros Hc. unfold TemplateMeta.fill_from_draft.
  destruct (_ && TemplateMeta.missingAny req); [|exact Hc].
  destruct d as [m|]; [|exact Hc].
  set (c1 := TemplateMeta.assign _ (TemplateMeta.with_name _) c).
  assert (H1 : TemplateMeta.within_limits c1).
  { apply limits_assign; [exact Hc|]. intros [_ Hb]%andb_true_iff.
    apply limits_name; [exact Hc|].
    apply blank_false. by apply negb_true_iff. }
  set (c2 := TemplateMeta.assign _ (TemplateMeta.with_description _) c1).
  assert (H2 : TemplateMeta.within_limits c2).
  { apply limits_assign; [exact H1|]. intros _. by apply limits_description. }
  set (c3 := TemplateMeta.assign _ (TemplateMeta.with_category _) c2).
  assert (H3 : TemplateMeta.within_limits c3).
  { apply limits_assign; [exact H2|]. intros [_ Hb]%andb_true_iff.
    apply limits_category; [exact H2|].
    apply blank_false. by apply negb_true_iff. }
  destruct (Some m ≫= TemplateMeta.m_tags); [|exact H3].
  apply limits_assign; [exact H3|]. intros _.
  apply limits_tags; [exact H3|]. rewrite length_take. lia.
Qed.

End UploadProperties.

(** X19: whatever the request, the archive, the capture and the AI service
    give, the metadata [uploadTemplate] saves has a name of 1 to 80
    characters, a description of at most 400, a category of 1 to 60 and at
    most 20 tags. *)
Theorem upload_metadata_within_limits (req : TemplateMeta.Request)
    (out : TemplateMeta.Outside) :
  TemplateMeta.within_limits (TemplateMeta.stored req out).
Proof.
  unfold TemplateMeta.stored.
  destruct (_ && _); [|apply limits_created].
  destruct (TemplateMeta.capture out) as [cap|]; [|apply limits_created].
  destruct (TemplateMeta.missingAny req); [|apply limits_created].
  apply limits_fill_from_draft, limits_fill_from_name,
    limits_fill_from_capture, limits_created.
Qed.

Section UploadPrecedence.
Variables (req : TemplateMeta.Request) (out : TemplateMeta.Outside).

Ltac assigned :=
  unfold TemplateMeta.assign; repeat case_match; try reflexivity.

Lemma capture_keeps_name (md : option TemplateMeta.Meta)
    (c : TemplateMeta.Stored) :
  TemplateMeta.missingName req = false ->
  TemplateMeta.s_name (TemplateMeta.fill_from_capture req out md c) =
  TemplateMeta.s_name c.
Proof.
  intros H. unfold TemplateMeta.fill_from_capture. rewrite H.
  destruct md; [|done]. cbn [andb]. assigned.
Qed.

Lemma capture_keeps_description (md : option TemplateMeta.Meta)
    (c : TemplateMeta.Stored) :
  TemplateMeta.missingDescription req = false ->
  TemplateMeta.s_description (TemplateMeta.fill_from_capture req out md c) =
  TemplateMeta.s_description c.
Proof.
  intros H. unfold TemplateMeta.fill_from_capture. rewrite H.
  destruct md; [|done]. cbn [andb]. assigned.
Qed.

Lemma capture_keeps_category (md : option TemplateMeta.Meta)
    (c : TemplateMeta.Stored) :
  TemplateMeta.missingCategory req = false ->
  TemplateMeta.s_category (TemplateMeta.fill_from_capture req out md c) =
  TemplateMeta.s_category c.
Proof.
  intros H. unfold TemplateMeta.fill_from_capture. rewrite H.
  destruct md; [|done]. cbn [andb]. assigned.
Qed.

Lemma capture_keeps_tags (md : option TemplateMeta.Meta)
    (c : TemplateMeta.Stored) :
  TemplateMeta.missingTags req = false ->
  TemplateMeta.s_tags (TemplateMeta.fill_from_capture req out md c) =
  TemplateMeta.s_tags c.
Proof.
  intros H. unfold TemplateMeta.fill_from_capture. rewrite H.
  destruct md; [|done]. cbn [andb]. assigned.
Qed.

Lemma name_keeps_fields (c : TemplateMeta.Stored) :
  let c' := TemplateMeta.fill_from_name req out c in
  TemplateMeta.s_name c' = TemplateMeta.s_name c /\
  TemplateMeta.s_description c' = TemplateMeta.s_description c /\
  TemplateMeta.s_category c' = TemplateMeta.s_category c /\
  (TemplateMeta.missingTags req = false ->
   TemplateMeta.s_tags c' = TemplateMeta.s_tags c).
Proof.
  unfold TemplateMeta.fill_from_name. repeat split; try by assigned.
  intros ->. by cbn.
Qed.

Lemma draft_keeps_name (d : option TemplateMeta.Meta)
    (c : TemplateMeta.Stored) :
  TemplateMeta.stillMissingName c = false ->
  TemplateMeta.s_name (TemplateMeta.fill_from_draft req d c) =
  TemplateMeta.s_name c.
Proof.
  intros H. unfold TemplateMeta.fill_from_draft. rewrite H.
  destruct (_ && _); [|done]. destruct d; [|done]. cbn [andb]. assigned.
Qed.

Lemma draft_keeps_description (d : option TemplateMeta.Meta)
    (c : TemplateMeta.Stored) :
  TemplateMeta.stillMissingDescription c = false ->
  TemplateMeta.s_description (TemplateMeta.fill_from_draft req d c) =
  TemplateMeta.s_description c.
Proof.
  intros H. unfold TemplateMeta.fill_from_draft. rewrite H.
  destruct (_ && _); [|done]. destruct d; [|done]. cbn [andb]. assigned.
Qed.

Lemma draft_keeps_category (d : option TemplateMeta.Meta)
    (c : TemplateMeta.Stored) :
  TemplateMeta.stillMissingCategory c = false ->
  TemplateMeta.s_category (TemplateMeta.fill_from_draft req d c) =
  TemplateMeta.s_category c.
Proof.
  intros H. unfold TemplateMeta.fill_from_draft. rewrite H.
  destruct (_ && _); [|done]. destruct d; [|done]. cbn [andb]. assigned.
Qed.

Lemma draft_keeps_tags (d : option TemplateMeta.Meta)
    (c : TemplateMeta.Stored) :
  TemplateMeta.stillMissingTags c = false ->
  TemplateMeta.s_tags (TemplateMeta.fill_from_draft req d c) =
  TemplateMeta.s_tags c.
Proof.
  intros H. unfold TemplateMeta.fill_from_draft. rewrite H.
  destruct (_ && _); [|done]. destruct d; [|done]. cbn [andb]. assigned.
Qed.

(** What each field of the saved document is, when no later stage
    touches it. *)
Lemma stored_stages :
  TemplateMeta.stored req out = TemplateMeta.created req out \/
  exists cap,
    TemplateMeta.stored req out =
    TemplateMeta.fill_from_draft req (TemplateMeta.captured_draft cap)
      (TemplateMeta.fill_from_name req out
         (TemplateMeta.fill_from_capture req out
            (TemplateMeta.captured_metadata cap)
            (TemplateMeta.created req out))).
Proof.
  unfold TemplateMeta.stored. destruct (_ && _); [|by left].
  destruct (TemplateMeta.capture out) as [cap|]; [|by left].
  destruct (TemplateMeta.missingAny req); [|by left].
  right. by exists cap.
Qed.

Lemma incoming_trimmed_name :
  Js.trim (TemplateMeta.incomingName req) = TemplateMeta.incomingName req.
Proof. apply trim_idem. Qed.

Lemma still_missing_text (n : nat) (v placeholder : string) :
  v <> "" -> Js.trim v = v -> v <> placeholder ->
  String.length placeholder < S n ->
  TemplateMeta.blank (Js.trim (Text.slice_to (S n) v)) ||
  String.eqb (Text.slice_to (S n) v) placeholder = false.
Proof.
  intros Hv Ht Hp Hl. apply orb_false_iff. split.
  - apply blank_false. by apply trim_slice_not_blank.
  - apply String.eqb_neq. intros H. by apply slice_to_short in H.
Qed.

End UploadPrecedence.

(** X20: the metadata of the request wins over the archive, the capture
    and the AI service: a name that is not blank and not the placeholder
    'Untitled Template' is saved trimmed and cut to 80 characters, a
    description that is not blank trimmed and cut to 400, a category that
    is not blank and not the placeholder 'General' trimmed and cut to 60,
    and a tag list with at least one tag as its first 20 tags. *)
Theorem upload_keeps_given_metadata (req : TemplateMeta.Request)
    (out : TemplateMeta.Outside) :
  (TemplateMeta.incomingName req <> "" ->
   TemplateMeta.incomingName req <> "Untitled Template" ->
   TemplateMeta.s_name (TemplateMeta.stored req out) =
   Text.slice_to 80 (TemplateMeta.incomingName req)) /\
  (TemplateMeta.incomingDescription req <> "" ->
   TemplateMeta.s_description (TemplateMeta.stored req out) =
   Text.slice_to 400 (TemplateMeta.incomingDescription req)) /\
  (TemplateMeta.incomingCategory req <> "" ->
   TemplateMeta.incomingCategory req <> "General" ->
   TemplateMeta.s_category (TemplateMeta.stored req out) =
   Text.slice_to 60 (TemplateMeta.incomingCategory req)) /\
  (TemplateMeta.tags req <> [] ->
   TemplateMeta.s_tags (TemplateMeta.stored req out) =
   take 20 (TemplateMeta.tags req)).
Proof.
  pose proof (name_keeps_fields req out) as Hname. cbn zeta in Hname.
  split; [|split; [|split]].
  - intros Hn Hp.
    assert (Hc : TemplateMeta.s_name (TemplateMeta.created req out) =
                 Text.slice_to 80 (TemplateMeta.incomingName req)).
    { cbn [TemplateMeta.created TemplateMeta.s_name].
      by rewrite first_text_head. }
    destruct (stored_stages req out) as [->|(cap & ->)]; [exact Hc|].
    assert (Hm : TemplateMeta.missingName req = false)
      by by apply blank_false.
    rewrite draft_keeps_name.
    + destruct (Hname (TemplateMeta.fill_from_capture req out
                  (TemplateMeta.captured_metadata cap)
                  (TemplateMeta.created req out))) as (-> & _).
      by rewrite capture_keeps_name.
    + unfold TemplateMeta.stillMissingName.
      destruct (Hname (TemplateMeta.fill_from_capture req out
                  (TemplateMeta.captured_metadata cap)
                  (TemplateMeta.created req out))) as (-> & _).
      rewrite capture_keeps_name, Hc by exact Hm.
      apply still_missing_text; try done; [apply trim_idem|cbn; lia].
  - intros Hn.
    assert (Hc : TemplateMeta.s_description (TemplateMeta.created req out) =
                 Text.slice_to 400 (TemplateMeta.incomingDescription req)).
    { cbn [TemplateMeta.created TemplateMeta.s_description].
      by rewrite first_text_head. }
    destruct (stored_stages req out) as [->|(cap & ->)]; [exact Hc|].
    assert (Hm : TemplateMeta.missingDescription req = false)
      by by apply blank_false.
    rewrite draft_keeps_description.
    + destruct (Hname (TemplateMeta.fill_from_capture req out
                  (TemplateMeta.captured_metadata cap)
                  (TemplateMeta.created req out))) as (_ & -> & _).
      by rewrite capture_keeps_description.
    + unfold TemplateMeta.stillMissingDescription.
      destruct (Hname (TemplateMeta.fill_from_capture req out
                  (TemplateMeta.captured_metadata cap)
                  (TemplateMeta.created req out))) as (_ & -> & _).
      rewrite capture_keeps_description, Hc by exact Hm.
      apply blank_false. apply trim_slice_not_blank; [done|apply trim_idem].
  - intros Hn Hp.
    assert (Hc : TemplateMeta.s_category (TemplateMeta.created req out) =
                 Text.slice_to 60 (TemplateMeta.incomingCategory req)).
    { cbn [TemplateMeta.created TemplateMeta.s_category].
      by rewrite first_text_head. }
    destruct (stored_stages req out) as [->|(cap & ->)]; [exact Hc|].
    assert (Hm : TemplateMeta.missingCategory req = false)
      by by apply blank_false.
    rewrite draft_keeps_category.
    + destruct (Hname (TemplateMeta.fill_from_capture req out
                  (TemplateMeta.captured_metadata cap)
                  (TemplateMeta.created req out))) as (_ & _ & -> & _).
      by rewrite capture_keeps_category.
    + unfold TemplateMeta.stillMissingCategory.
      destruct (Hname (TemplateMeta.fill_from_capture req out
                  (TemplateMeta.captured_metadata cap)
                  (TemplateMeta.created req out))) as (_ & _ & -> & _).
      rewrite capture_keeps_category, Hc by exact Hm.
      apply still_missing_text; try done; [apply trim_idem|cbn; lia].
  - intros Hn.
    assert (Hm : TemplateMeta.missingTags req = false).
    { unfold TemplateMeta.missingTags, TemplateMeta.no_tags.
      by destruct (TemplateMeta.tags req). }
    assert (Hc : TemplateMeta.s_tags (TemplateMeta.created req out) =
                 take 20 (TemplateMeta.tags req)).
    { cbn [TemplateMeta.created TemplateMeta.s_tags].
      unfold TemplateMeta.missingTags in Hm. by rewrite Hm. }
    destruct (stored_stages req out) as [->|(cap & ->)]; [exact Hc|].
    rewrite draft_keeps_tags.
    + destruct (Hname (TemplateMeta.fill_from_capture req out
                  (TemplateMeta.captured_metadata cap)
                  (TemplateMeta.created req out))) as (_ & _ & _ & ->);
        [|exact Hm].
      by rewrite capture_keeps_tags.
    + unfold TemplateMeta.stillMissingTags.
      destruct (Hname (TemplateMeta.fill_from_capture req out
                  (TemplateMeta.captured_metadata cap)
                  (TemplateMeta.created req out))) as (_ & _ & _ & ->);
        [|exact Hm].
      rewrite capture_keeps_tags, Hc by exact Hm.
      by destruct (TemplateMeta.tags req).
Qed.

Lemma upload_keeps_given_metadata_witness :
  TemplateMeta.stored Cases.full_request Cases.proposing_outside =
  {| TemplateMeta.s_name := "Space Run";
     TemplateMeta.s_description := "A runner in space";
     TemplateMeta.s_category := "Arcade";
     TemplateMeta.s_tags := ["space"; "runner"] |}.
Proof.
  destruct (upload_keeps_given_metadata Cases.full_request
              Cases.proposing_outside) as (Hn & Hd & Hc & Ht).
  specialize (Hn ltac:(by vm_compute) ltac:(by vm_compute)).
  specialize (Hd ltac:(by vm_compute)).
  specialize (Hc ltac:(by vm_compute) ltac:(by vm_compute)).
  specialize (Ht ltac:(by vm_compute)).
  destruct (TemplateMeta.stored Cases.full_request Cases.proposing_outside).
  cbn in Hn, Hd, Hc, Ht. by rewrite Hn, Hd, Hc, Ht.
Defined.

(** X21: a request that names the template 'Untitled Template', the
    placeholder, does not keep that name: when another field is missing and
    the media pass reaches the draft made of the captured images, the
    name of the draft, trimmed and cut to 80 characters, is saved
    instead. *)
Theorem upload_replaces_placeholder_name (req : TemplateMeta.Request)
    (out : TemplateMeta.Outside) (cap : TemplateMeta.Capture)
    (draft : TemplateMeta.Meta) (n : string) :
  TemplateMeta.incomingName req = "Untitled Template" ->
  TemplateMeta.missingAny req = true ->
  TemplateMeta.needsMedia req = true ->
  TemplateMeta.editor out = true ->
  TemplateMeta.capture out = Some cap ->
  TemplateMeta.captured_draft cap = Some draft ->
  TemplateMeta.m_name draft = Some n ->
  Js.trim n <> "" ->
  TemplateMeta.s_name (TemplateMeta.stored req out) =
  Text.slice_to 80 (Js.trim n).
Proof.
  intros Hn Hany Hneeds Hed Hcap Hd Hm Hb.
  unfold TemplateMeta.stored. rewrite Hneeds, Hed, Hcap, Hany. cbn [andb].
  set (c := TemplateMeta.fill_from_name req out _).
  assert (Hc : TemplateMeta.s_name c = "Untitled Template").
  { subst c.
    destruct (name_keeps_fields req out
                (TemplateMeta.fill_from_capture req out
                   (TemplateMeta.captured_metadata cap)
                   (TemplateMeta.created req out))) as (-> & _).
    rewrite capture_keeps_name
      by (unfold TemplateMeta.missingName; by rewrite Hn).
    cbn [TemplateMeta.created TemplateMeta.s_name].
    rewrite first_text_head by (by rewrite Hn). by rewrite Hn. }
  unfold TemplateMeta.fill_from_draft, TemplateMeta.stillMissingName.
  rewrite Hc, Hany, Hd. cbn [String.eqb Ascii.eqb Bool.eqb orb andb].
  rewrite orb_true_r. cbn [orb andb].
  assert (Hr : TemplateMeta.read (Some draft) TemplateMeta.m_name = Js.trim n).
  { unfold TemplateMeta.read. cbn. by rewrite Hm. }
  rewrite Hr. apply blank_false in Hb. rewrite Hb. cbn [negb].
  unfold TemplateMeta.assign. by repeat case_match.
Qed.

Lemma upload_replaces_placeholder_name_witness :
  TemplateMeta.s_name
    (TemplateMeta.stored Cases.placeholder_request Cases.proposing_outside) =
  "Galaxy Dash".
Proof.
  by apply (upload_replaces_placeholder_name Cases.placeholder_request
              Cases.proposing_outside
              {| TemplateMeta.captured_metadata := Some Cases.other_meta;
                 TemplateMeta.captured_draft := Some Cases.other_meta |}
              Cases.other_meta "Galaxy Dash").
Defined.

(** ** Reviews *)

Section ReviewProperties.
Variables (rated : list JsNum -> option JsNum) (admins : option (list string)).

Lemma refresh_reviews (templateId : string) (t : Reviews.TemplateDoc)
    (st : Reviews.Store) :
  Reviews.reviews (Reviews.refresh rated templateId t st) = Reviews.reviews st.
Proof. unfold Reviews.refresh. by destruct (rated _). Qed.

Lemma refresh_notifications (templateId : string) (t : Reviews.TemplateDoc)
    (st : Reviews.Store) :
  Reviews.notifications (Reviews.refresh rated templateId t st) =
  Reviews.notifications st.
Proof. unfold Reviews.refresh. by destruct (rated _). Qed.

Lemma refresh_templates (templateId : string) (t : Reviews.TemplateDoc)
    (st : Reviews.Store) :
  is_Some (Reviews.templates st !! templateId) ->
  is_Some (Reviews.templates (Reviews.refresh rated templateId t st)
             !! templateId).
Proof.
  intros H. unfold Reviews.refresh. destruct (rated _); [|exact H].
  cbn. by rewrite lookup_insert_eq.
Qed.

Lemma rating_in_range (q : Q) :
  exists z : Z,
    Reviews.Math_max 1 (Reviews.Math_min 5 (Market.Math_round (Finite q))) =
    Finite (inject_Z z) /\ (1 <= z <= 5)%Z.
Proof.
  unfold Market.Math_round, Reviews.Math_min, Reviews.Math_max.
  set (z := Qfloor (q + (1 # 2))).
  destruct (Qle_bool 5 (inject_Z z)) eqn:E5.
  - exists 5%Z. split; [reflexivity|lia].
  - destruct (Qle_bool 1 (inject_Z z)) eqn:E1.
    + exists z. split; [reflexivity|].
      apply Qle_bool_iff in E1. change 1%Q with (inject_Z 1) in E1.
      rewrite <- Zle_Qle in E1. split; [exact E1|].
      destruct (Z_le_gt_dec 5 z) as [H|H]; [|lia].
      rewrite Zle_Qle in H. apply Qle_bool_iff in H.
      change (inject_Z 5) with 5%Q in H. congruence.
    + exists 1%Z. split; [reflexivity|lia].
Qed.

(** What a call of [upsertReview] that passes its checks stores. *)
Lemma upsertReview_stored (templateId userId user : string) (r : JsNum)
    (c : string) (now : nat) (st st' : Reviews.Store) (s : Reviews.Status) :
  Reviews.upsertReview rated admins templateId userId user r c now st =
    (inr s, st') ->
  let rating :=
    Reviews.Math_max 1 (Reviews.Math_min 5 (Market.Math_round r)) in
  s = Reviews.resolveReviewStatus rating /\
  Js.trim c <> "" /\ String.length (Js.trim c) <= 400 /\
  is_Some (Reviews.templates st' !! templateId) /\
  Reviews.reviews st' =
  <[(templateId, userId) :=
      {| Reviews.username := user; Reviews.rating := rating;
         Reviews.comment := Js.trim c; Reviews.status := Some s;
         Reviews.approvedAt :=
           if decide (s = Reviews.approved) then Some now else None;
         Reviews.approvedBy :=
           if decide (s = Reviews.approved) then Some userId else None |}]>
    (Reviews.reviews st).
Proof.
  unfold Reviews.upsertReview.
  destruct (Reviews.templates st !! templateId) as [t|] eqn:Et; [|done].
  destruct (Reviews.isPublic t); [|done]. cbn [negb].
  destruct (String.eqb_spec (Js.trim c) "") as [|Hc]; [done|].
  destruct (Nat.ltb_spec 400 (String.length (Js.trim c))) as [|Hl]; [done|].
  cbn zeta.
  destruct (Reviews.resolveReviewStatus _) eqn:Es.
  - destruct admins as [ids|]; [|done]. intros [= <- <-].
    rewrite refresh_reviews. repeat split; try done.
    apply refresh_templates. cbn. by rewrite Et.
  - intros [= <- <-].
    rewrite refresh_reviews. repeat split; try done.
    apply refresh_templates. cbn. by rewrite Et.
Qed.

End ReviewProperties.

(** X22: a review that [upsertReview] accepts is the one review of its
    user for the template: its comment is the trimmed one, of 1 to 400
    characters, its rating, for a finite number, an integer from 1 to 5,
    and it is approved and listed publicly exactly when that rating is at
    least 4, else pending and listed for moderation only, whatever review
    the user had before; the reviews of other users and templates are
    left as they were. *)
Theorem upsertReview_moderates (rated : list JsNum -> option JsNum)
    (admins : option (list string)) (templateId userId user : string)
    (r : JsNum) (c : string) (now : nat) (st st' : Reviews.Store)
    (s : Reviews.Status) :
  Reviews.upsertReview rated admins templateId userId user r c now st =
    (inr s, st') ->
  (exists rev,
     Reviews.reviews st' !! (templateId, userId) = Some rev /\
     Reviews.comment rev = Js.trim c /\
     1 <= String.length (Reviews.comment rev) <= 400 /\
     Reviews.status rev = Some s /\
     (s = Reviews.approved <-> Reviews.at_least 4 (Reviews.rating rev) = true) /\
     (forall q, r = Finite q ->
        exists z : Z, Reviews.rating rev = Finite (inject_Z z) /\
                      (1 <= z <= 5)%Z)) /\
  Reviews.listed_publicly templateId userId st' =
    bool_decide (s = Reviews.approved) /\
  Reviews.listed_pending templateId userId st' =
    bool_decide (s = Reviews.pending) /\
  (forall k, k <> (templateId, userId) ->
     Reviews.reviews st' !! k = Reviews.reviews st !! k).
Proof.
  intros H. apply upsertReview_stored in H as (Hs & Hc & Hl & _ & Hr).
  cbn zeta in Hs, Hr.
  split; [|split; [|split]].
  - eexists. split; [rewrite Hr; apply lookup_insert_eq|].
    cbn. repeat split; try done.
    + destruct (Js.trim c); [done|cbn; lia].
    + intros ->. symmetry in Hs. unfold Reviews.resolveReviewStatus in Hs.
      by destruct (Reviews.at_least 4 _).
    + intros Ha. rewrite Hs. unfold Reviews.resolveReviewStatus.
      by rewrite Ha.
    + intros q ->. apply rating_in_range.
  - unfold Reviews.listed_publicly. rewrite Hr, lookup_insert_eq.
    by destruct s.
  - unfold Reviews.listed_pending. rewrite Hr, lookup_insert_eq. cbn.
    by destruct s.
  - intros k Hk. rewrite Hr. by apply lookup_insert_ne.
Qed.

Lemma upsertReview_moderates_witness :
  Reviews.listed_publicly "t1" "u1"
    (Reviews.upsertReview Cases.no_rating (Some ["admin"]) "t1" "u1" "ann"
       (Finite 3) " too hard " 7 Cases.reviewed).2 = false.
Proof.
  destruct (Reviews.upsertReview Cases.no_rating (Some ["admin"]) "t1" "u1"
              "ann" (Finite 3) " too hard " 7 Cases.reviewed)
    as [res st'] eqn:E.
  assert (Hres : res = inr Reviews.pending)
    by (apply (f_equal fst) in E; vm_compute in E; congruence).
  subst res. cbn [snd].
  by destruct (upsertReview_moderates _ _ _ _ _ _ _ _ _ _ _ E)
    as (_ & -> & _).
Defined.

(** X23: moderation round trip: a review left pending by [upsertReview] is
    not listed publicly; after [approveReview] it is, with the rating and
    the comment it was submitted with and the moderator as its approver,
    and it is no longer listed for moderation.  Approving where the user
    has no review stores none. *)
Theorem approveReview_publishes (rated : list JsNum -> option JsNum)
    (admins : option (list string)) (templateId userId user moderator : string)
    (r : JsNum) (c : string) (now later : nat) (st st1 : Reviews.Store) :
  Reviews.upsertReview rated admins templateId userId user r c now st =
    (inr Reviews.pending, st1) ->
  let '(res, st2) :=
    Reviews.approveReview rated templateId userId moderator later st1 in
  res = inr () /\
  Reviews.listed_publicly templateId userId st1 = false /\
  Reviews.listed_publicly templateId userId st2 = true /\
  Reviews.listed_pending templateId userId st2 = false /\
  (exists rev1 rev2,
     Reviews.reviews st1 !! (templateId, userId) = Some rev1 /\
     Reviews.reviews st2 !! (templateId, userId) = Some rev2 /\
     Reviews.rating rev2 = Reviews.rating rev1 /\
     Reviews.comment rev2 = Reviews.comment rev1 /\
     Reviews.approvedBy rev2 = Some moderator) /\
  (forall other,
     Reviews.reviews st1 !! (templateId, other) = None ->
     Reviews.reviews
       (Reviews.approveReview rated templateId other moderator later st1).2
     = Reviews.reviews st1).
Proof.
  intros H. apply upsertReview_stored in H as (_ & _ & _ & [t Ht] & Hr).
  cbn zeta in Hr.
  unfold Reviews.approveReview. rewrite Ht.
  assert (H1 : Reviews.reviews st1 !! (templateId, userId) = Some
    {| Reviews.username := user;
       Reviews.rating :=
         Reviews.Math_max 1 (Reviews.Math_min 5 (Market.Math_round r));
       Reviews.comment := Js.trim c;
       Reviews.status := Some Reviews.pending;
       Reviews.approvedAt := None; Reviews.approvedBy := None |})
    by (rewrite Hr; apply lookup_insert_eq).
  rewrite H1.
  split; [done|]. split; [|split; [|split; [|split]]].
  - unfold Reviews.listed_publicly. by rewrite H1.
  - unfold Reviews.listed_publicly. rewrite refresh_reviews. cbn.
    by rewrite lookup_insert_eq.
  - unfold Reviews.listed_pending. rewrite refresh_reviews. cbn.
    by rewrite lookup_insert_eq.
  - eexists _, _. split; [done|]. rewrite refresh_reviews. cbn.
    by rewrite lookup_insert_eq.
  - intros other Ho. cbn. rewrite refresh_reviews. cbn. by rewrite Ho.
Qed.

Lemma approveReview_publishes_witness :
  Reviews.listed_publicly "t1" "u1"
    (Reviews.approveReview Cases.no_rating "t1" "u1" "admin" 9
       (Reviews.upsertReview Cases.no_rating (Some ["admin"]) "t1" "u1" "ann"
          (Finite 3) " too hard " 7 Cases.reviewed).2).2 = true.
Proof.
  destruct (Reviews.upsertReview Cases.no_rating (Some ["admin"]) "t1" "u1"
              "ann" (Finite 3) " too hard " 7 Cases.reviewed)
    as [res st1] eqn:E.
  assert (Hres : res = inr Reviews.pending)
    by (apply (f_equal fst) in E; vm_compute in E; congruence).
  subst res.
  pose proof (approveReview_publishes Cases.no_rating (Some ["admin"]) "t1"
                "u1" "ann" "admin" (Finite 3) " too hard " 7 9
                Cases.reviewed st1 E) as H.
  cbn [snd] in *.
  destruct (Reviews.approveReview Cases.no_rating "t1" "u1" "admin" 9 st1).
  cbn [snd]. by destruct H as (_ & _ & -> & _).
Defined.

(** ** Repairing the JSON of a model answer *)

Lemma separator_free (ch : N) :
  Forall (fun c => ModelJson.is_separator c = false) (ModelJson.separator ch).
Proof.
  unfold ModelJson.separator.
  destruct (N.eqb_spec ch 8232); [by repeat constructor|].
  destruct (N.eqb_spec ch 8233); [by repeat constructor|].
  constructor; [|constructor]. unfold ModelJson.is_separator.
  apply orb_false_iff. split; by apply N.eqb_neq.
Qed.

Lemma escape_separators_free (s : list N) :
  Forall (fun c => ModelJson.is_separator c = false)
         (ModelJson.escape_separators s).
Proof.
  induction s as [|ch s IH]; [constructor|].
  change (ModelJson.escape_separators (ch :: s))
    with (ModelJson.separator ch ++ ModelJson.escape_separators s).
  apply Forall_app. split; [apply separator_free|exact IH].
Qed.

Lemma escape_separators_id (s : list N) :
  Forall (fun c => ModelJson.is_separator c = false) s ->
  ModelJson.escape_separators s = s.
Proof.
  induction 1 as [|ch s Hch _ IH]; [done|].
  change (ModelJson.escape_separators (ch :: s))
    with (ModelJson.separator ch ++ ModelJson.escape_separators s).
  rewrite IH. unfold ModelJson.is_separator in Hch.
  apply orb_false_iff in Hch as [H1 H2].
  unfold ModelJson.separator. by rewrite H1, H2.
Qed.

Lemma sanitize_from_free (i e : bool) (s : list N) :
  Forall (fun c => ModelJson.is_separator c = false) s ->
  Forall (fun c => ModelJson.is_separator c = false)
         (ModelJson.sanitize_from i e s).
Proof.
  intros H. revert i e.
  induction H as [|ch s Hch _ IH]; intros i e; [constructor|].
  cbn [ModelJson.sanitize_from].
  repeat case_match; repeat (constructor; try done); apply IH.
Qed.

Lemma sanitize_from_idem (i e : bool) (s : list N) :
  ModelJson.sanitize_from i e (ModelJson.sanitize_from i e s) =
  ModelJson.sanitize_from i e s.
Proof.
  revert i e. induction s as [|ch s IH]; intros i e; [done|].
  cbn [ModelJson.sanitize_from].
  destruct i.
  - destruct e.
    + cbn [ModelJson.sanitize_from]. by rewrite IH.
    + destruct (ch =? ModelJson.backslash)%N eqn:E1.
      { cbn [ModelJson.sanitize_from]. by rewrite E1, IH. }
      destruct (ch =? ModelJson.quote)%N eqn:E2.
      { cbn [ModelJson.sanitize_from]. by rewrite E1, E2, IH. }
      destruct (ch =? 10)%N eqn:E3.
      { cbn [ModelJson.sanitize_from]. cbn [N.eqb Pos.eqb].
        change (92 =? ModelJson.backslash)%N with true. cbn iota.
        by rewrite IH. }
      destruct (ch =? 13)%N eqn:E4.
      { cbn [ModelJson.sanitize_from].
        change (92 =? ModelJson.backslash)%N with true. cbn iota.
        by rewrite IH. }
      destruct (ch =? 9)%N eqn:E5.
      { cbn [ModelJson.sanitize_from].
        change (92 =? ModelJson.backslash)%N with true. cbn iota.
        by rewrite IH. }
      cbn [ModelJson.sanitize_from]. by rewrite E1, E2, E3, E4, E5, IH.
  - destruct (ch =? ModelJson.quote)%N eqn:E2.
    + cbn [ModelJson.sanitize_from]. by rewrite E2, IH.
    + cbn [ModelJson.sanitize_from]. by rewrite E2, IH.
Qed.

Lemma sanitize_from_no_bare_control (i e : bool) (s : list N) :
  ModelJson.bare_control_from i e (ModelJson.sanitize_from i e s) = false.
Proof.
  revert i e. induction s as [|ch s IH]; intros i e; [done|].
  cbn [ModelJson.sanitize_from].
  destruct i.
  - destruct e.
    + cbn [ModelJson.bare_control_from]. apply IH.
    + destruct (ch =? ModelJson.backslash)%N eqn:E1.
      { cbn [ModelJson.bare_control_from]. rewrite E1. apply IH. }
      destruct (ch =? ModelJson.quote)%N eqn:E2.
      { cbn [ModelJson.bare_control_from]. rewrite E1, E2. apply IH. }
      destruct (ch =? 10)%N eqn:E3.
      { cbn [ModelJson.bare_control_from].
        change (92 =? ModelJson.backslash)%N with true. cbn iota. apply IH. }
      destruct (ch =? 13)%N eqn:E4.
      { cbn [ModelJson.bare_control_from].
        change (92 =? ModelJson.backslash)%N with true. cbn iota. apply IH. }
      destruct (ch =? 9)%N eqn:E5.
      { cbn [ModelJson.bare_control_from].
        change (92 =? ModelJson.backslash)%N with true. cbn iota. apply IH. }
      cbn [ModelJson.bare_control_from]. rewrite E1, E2.
      unfold ModelJson.control. rewrite E3, E4, E5. apply IH.
  - destruct (ch =? ModelJson.quote)%N eqn:E2.
    + cbn [ModelJson.bare_control_from]. rewrite E2. apply IH.
    + cbn [ModelJson.bare_control_from]. rewrite E2. apply IH.
Qed.

Lemma sanitize_from_clean (i e : bool) (s : list N) :
  ModelJson.bare_control_from i e s = false ->
  ModelJson.sanitize_from i e s = s.
Proof.
  revert i e. induction s as [|ch s IH]; intros i e H; [done|].
  cbn [ModelJson.sanitize_from ModelJson.bare_control_from] in *.
  destruct i.
  - destruct e; [by rewrite IH|].
    destruct (ch =? ModelJson.backslash)%N; [by rewrite IH|].
    destruct (ch =? ModelJson.quote)%N; [by rewrite IH|].
    apply orb_false_iff in H as [Hc H]. unfold ModelJson.control in Hc.
    apply orb_false_iff in Hc as [Hc E5].
    apply orb_false_iff in Hc as [E3 E4].
    rewrite E3, E4, E5. by rewrite IH.
  - destruct (ch =? ModelJson.quote)%N; by rewrite IH.
Qed.

(** X24: [sanitize] leaves no line feed, carriage return or tab inside a
    string literal of its output unless a backslash precedes it, and no
    line or paragraph separator anywhere; sanitizing twice gives what
    sanitizing once gives. *)
Theorem sanitize_escapes_controls (input : list N) :
  ModelJson.bare_control (ModelJson.sanitize input) = false /\
  Forall (fun c => ModelJson.is_separator c = false)
         (ModelJson.sanitize input) /\
  ModelJson.sanitize (ModelJson.sanitize input) = ModelJson.sanitize input.
Proof.
  unfold ModelJson.sanitize, ModelJson.bare_control.
  pose proof (escape_separators_free input) as Hf.
  split; [apply sanitize_from_no_bare_control|].
  split; [by apply sanitize_from_free|].
  rewrite escape_separators_id by by apply sanitize_from_free.
  apply sanitize_from_idem.
Qed.

(** X25: a text that has no such control character in a string literal and
    no line or paragraph separator passes [sanitize] unchanged. *)
Theorem sanitize_keeps_clean_text (input : list N) :
  ModelJson.bare_control input = false ->
  Forall (fun c => ModelJson.is_separator c = false) input ->
  ModelJson.sanitize input = input.
Proof.
  intros Hc Hs. unfold ModelJson.sanitize.
  rewrite escape_separators_id by exact Hs. by apply sanitize_from_clean.
Qed.

Lemma sanitize_keeps_clean_text_witness :
  ModelJson.sanitize Cases.clean_json = Cases.clean_json.
Proof.
  apply sanitize_keeps_clean_text; [reflexivity|].
  by repeat constructor.
Defined.

Lemma rev_replicate {A} (n : nat) (x : A) :
  rev (replicate n x) = replicate n x.
Proof.
  induction n as [|n IH]; [done|].
  cbn [replicate rev]. rewrite IH. clear IH.
  induction n as [|n IH]; [done|]. cbn. by rewrite IH.
Qed.

Lemma from_first_open_app (l x r : list ascii) (o : ascii) :
  ModelJson.from_first_open l = Some (o, r) ->
  ModelJson.from_first_open (l ++ x) = Some (o, r ++ x).
Proof.
  induction l as [|a l IH]; [done|]. cbn.
  destruct (Ascii.eqb a "{" || Ascii.eqb a "["); [|exact IH].
  by intros [= -> ->].
Qed.

Lemma from_first_open_char (l r : list ascii) (o : ascii) :
  ModelJson.from_first_open l = Some (o, r) -> o = "{"%char \/ o = "["%char.
Proof.
  induction l as [|a l IH]; [done|]. cbn.
  destruct (Ascii.eqb_spec a "{") as [->|_].
  { intros [= <- _]. by left. }
  destruct (Ascii.eqb_spec a "[") as [->|_]; [|exact IH].
  intros [= <- _]. by right.
Qed.

Lemma scan_closers (o : ascii) (st : ModelJson.Scan) (n : nat) :
  o = "{"%char \/ o = "["%char ->
  ModelJson.inString st = false ->
  ModelJson.scan o st (replicate n (ModelJson.closer o)) =
  {| ModelJson.depth := ModelJson.depth st - Z.of_nat n;
     ModelJson.inString := false;
     ModelJson.escaped := ModelJson.escaped st |}.
Proof.
  intros Ho. revert st. induction n as [|n IH]; intros [d i e] Hi;
    cbn in Hi; subst i.
  - cbn. f_equal. lia.
  - unfold ModelJson.scan in *. cbn [replicate foldl].
    assert (Hs : ModelJson.scan_step o (ModelJson.closer o)
                   {| ModelJson.depth := d; ModelJson.inString := false;
                      ModelJson.escaped := e |} (ModelJson.closer o) =
                 {| ModelJson.depth := d - 1; ModelJson.inString := false;
                    ModelJson.escaped := e |}).
    { destruct Ho as [-> | ->]; reflexivity. }
    rewrite Hs, IH by done. cbn. f_equal. lia.
Qed.

Lemma str_app (a b : list ascii) : Js.str (a ++ b) = Js.str a +:+ Js.str b.
Proof.
  rewrite <- (str_chars (Js.str a +:+ Js.str b)).
  by rewrite chars_append, !chars_str.
Qed.

Lemma trim_closed (s : string) (n : nat) (c : ascii) :
  s <> "" -> Js.trim s = s -> Js.is_space c = false ->
  Js.trim (s +:+ Js.str (replicate (S n) c)) =
  s +:+ Js.str (replicate (S n) c).
Proof.
  intros Hs Ht Hc. pose proof (trimmed_head s Ht) as Hh.
  unfold Js.trim. rewrite chars_append, chars_str.
  destruct (Js.chars s) as [|a l] eqn:El.
  { destruct s; [done|discriminate El]. }
  unfold Js.trimL. rewrite trimStartL_fix by exact Hh.
  rewrite trimEndL_fix.
  - by rewrite <- El, str_app, str_chars.
  - rewrite rev_app_distr, rev_replicate. exact Hc.
Qed.

(** X26: [tryBalance] closes what a truncated answer left open: when the
    scan of the trimmed text from its first brace or bracket does not end
    inside a string literal, the same scan of the result ends with no
    bracket of that kind open, outside a string, and balancing the result
    again changes nothing. *)
Theorem tryBalance_closes_open_brackets (input : string) (o : ascii)
    (st : ModelJson.Scan) :
  ModelJson.scanned (Js.trim input) = Some (o, st) ->
  ModelJson.inString st = false ->
  exists st',
    ModelJson.scanned (ModelJson.tryBalance input) = Some (o, st') /\
    (ModelJson.depth st' <= 0)%Z /\
    ModelJson.inString st' = false /\
    ModelJson.tryBalance (ModelJson.tryBalance input) =
    ModelJson.tryBalance input.
Proof.
  intros Hsc Hin.
  assert (Hne : Js.trim input <> "").
  { intros E. rewrite E in Hsc. discriminate Hsc. }
  unfold ModelJson.tryBalance at 1 3 4.
  destruct (String.eqb_spec (Js.trim input) "") as [|_]; [done|].
  rewrite Hsc.
  destruct (Z.leb_spec (ModelJson.depth st) 0) as [Hd|Hd].
  - exists st. repeat split; try done.
    unfold ModelJson.tryBalance. rewrite trim_idem.
    destruct (String.eqb_spec (Js.trim input) "") as [|_]; [done|].
    rewrite Hsc. by destruct (Z.leb_spec (ModelJson.depth st) 0); [|lia].
  - unfold ModelJson.scanned in Hsc.
    destruct (ModelJson.from_first_open (Js.chars (Js.trim input)))
      as [[o' r]|] eqn:Ef; [|done].
    assert (Ho' : o' = o) by congruence. subst o'.
    assert (Hst : ModelJson.scan o ModelJson.start (o :: r) = st)
      by congruence.
    clear Hsc.
    pose proof (from_first_open_char _ _ _ Ef) as Ho.
    set (n := Z.to_nat _).
    set (out := Js.trim input +:+ _).
    assert (Hout : ModelJson.scanned out =
                   Some (o, {| ModelJson.depth := 0;
                               ModelJson.inString := false;
                               ModelJson.escaped := ModelJson.escaped st |})).
    { unfold ModelJson.scanned, out. rewrite chars_append, chars_str.
      rewrite (from_first_open_app _ _ _ _ Ef).
      change (o :: r ++ replicate n (ModelJson.closer o))
        with ((o :: r) ++ replicate n (ModelJson.closer o)).
      unfold ModelJson.scan at 1. rewrite foldl_app.
      fold (ModelJson.scan o ModelJson.start (o :: r)). rewrite Hst.
      fold (ModelJson.scan o st (replicate n (ModelJson.closer o))).
      rewrite scan_closers by done. do 3 f_equal. unfold n. lia. }
    eexists. split; [exact Hout|]. split; [done|]. split; [done|].
    assert (Hn : exists m, n = S m) by (exists (Nat.pred n); unfold n; lia).
    destruct Hn as [m Hm].
    assert (Hsp : Js.is_space (ModelJson.closer o) = false)
      by (destruct Ho as [-> | ->]; reflexivity).
    assert (Htr : Js.trim out = out).
    { unfold out. rewrite Hm. apply trim_closed; [done|apply trim_idem|done]. }
    unfold ModelJson.tryBalance. rewrite Htr.
    destruct (String.eqb_spec out "") as [E|_].
    + exfalso. apply (f_equal Js.chars) in E. unfold out in E.
      rewrite chars_append, chars_str, Hm in E.
      by destruct (Js.chars (Js.trim input)).
    + by rewrite Hout.
Qed.

Lemma tryBalance_closes_open_brackets_witness :
  ModelJson.tryBalance Cases.truncated_answer = "{[1, [2, 3}".
Proof.
  destruct (tryBalance_closes_open_brackets Cases.truncated_answer "{"
              {| ModelJson.depth := 1; ModelJson.inString := false;
                 ModelJson.escaped := false |})
    as (st' & _ & _ & _ & _); [reflexivity|reflexivity|].
  reflexivity.
Defined.

(** ** [aiCreate] *)

Lemma read_initialConfig (dto : Controller.CreateProjectAiDto) :
  Controller.read_config (Controller.initialConfig dto) =
  Controller.fields dto.
Proof.
  unfold Controller.read_config, Controller.initialConfig, Controller.get.
  destruct (Controller.fields dto). cbn.
  f_equal; by simplify_map_eq.
Qed.

(** X27: the [runtimeConfig] of the body of [aiCreate] has no effect: each of
    its keys that [createFromAi] reads is overwritten by the field of the
    same name of the body, present or not, so that the call returns and
    stores the same for every value of [runtimeConfig]. *)
Theorem aiCreate_ignores_runtimeConfig (w : AiWorld) (user : string)
    (dto : Controller.CreateProjectAiDto) (rc : Controller.RuntimeConfig)
    (s : Service) :
  Controller.aiCreate w user (Controller.with_runtimeConfig rc dto) s =
  Controller.aiCreate w user dto s.
Proof.
  unfold Controller.aiCreate. by rewrite !read_initialConfig.
Qed.

(** ** The fallback over models and API versions *)

Section FallbackProperties.
Variable g : nat -> Fallback.ApiVersion -> string -> Fallback.Outcome.

Lemma bounded_weaken (n k n' k' : nat) (f : Fallback.M Fallback.Outcome) :
  Fallback.bounded n k f -> n <= n' -> k <= k' -> Fallback.bounded n' k' f.
Proof.
  intros H Hn Hk st.
  destruct (H st) as (new & waits & H1 & H2 & H3 & H4 & H5 & H6).
  exists new, waits. repeat split; try done; lia.
Qed.

Lemma bounded_throw (e : Fallback.ApiError) :
  Fallback.bounded 0 0 (fun st => (inr e, st)).
Proof.
  intros st. exists [], []. cbn. rewrite !app_nil_r.
  repeat split; try done; constructor.
Qed.

Lemma bounded_catch (n1 k1 n2 k2 : nat) (f : Fallback.M Fallback.Outcome)
    (handler : Fallback.ApiError -> Fallback.M Fallback.Outcome) :
  Fallback.bounded n1 k1 f ->
  (forall e, Fallback.bounded n2 k2 (handler e)) ->
  Fallback.bounded (n1 + n2) (k1 + k2) (Fallback.catch f handler).
Proof.
  intros Hf Hh st. unfold Fallback.catch.
  destruct (Hf st) as (new & waits & H1 & H2 & H3 & H4 & H5 & H6).
  destruct (f st) as [[text|e] st1]; cbn [fst snd] in *.
  - exists new, waits. repeat split; try done; lia.
  - destruct (Hh e st1) as (new' & waits' & G1 & G2 & G3 & G4 & G5 & G6).
    exists (new ++ new'), (waits ++ waits').
    rewrite G1, G2, H1, H2, !app_assoc, !length_app.
    repeat split; try done; try lia.
    + by apply Forall_app.
    + destruct ((handler e st1).1) as [text|e'].
      * destruct G6 as (before & v & m & -> & Hb).
        exists (new ++ before), v, m. rewrite app_assoc. split; [done|].
        by apply Forall_app.
      * by apply Forall_app.
Qed.

Lemma bounded_request (v : Fallback.ApiVersion) (m : string) :
  Fallback.bounded 1 0 (Fallback.request g v m).
Proof.
  intros st. unfold Fallback.request. cbn [fst snd].
  eexists [_], []. cbn [Fallback.requests Fallback.sleeps].
  rewrite app_nil_r. repeat split; try done.
  destruct (g _ v m) as [text|e].
  - by exists [], v, m.
  - by repeat constructor.
Qed.

Lemma bounded_sleep (n k : nat) (seconds : Q)
    (f : Fallback.M Fallback.Outcome) :
  Fallback.short_wait seconds ->
  Fallback.bounded n k f ->
  Fallback.bounded n (S k) (fun st => f (Fallback.sleep seconds st)).
Proof.
  intros Hs Hf st.
  destruct (Hf (Fallback.sleep seconds st))
    as (new & waits & H1 & H2 & H3 & H4 & H5 & H6).
  exists new, (seconds :: waits). cbn in H1, H2.
  rewrite H1, H2, <- app_assoc. cbn.
  repeat split; try done; try lia. by constructor.
Qed.

Lemma retry_hint_short (e : Fallback.ApiError) (seconds : Q) :
  Fallback.retry_hint e = Some seconds -> Fallback.short_wait seconds.
Proof.
  unfold Fallback.retry_hint.
  destruct (Fallback.retryAfterSeconds e) as [[q| | |]|]; try done.
  destruct (Qle_bool q 0) eqn:E0; [done|]. cbn [negb andb].
  destruct (Qle_bool q 120) eqn:E1; [|done]. intros [= <-].
  split; [|by apply Qle_bool_iff].
  apply Qnot_le_lt. intros H. apply Qle_bool_iff in H. congruence.
Qed.

Lemma call_catch (v : Fallback.ApiVersion) (m : string) (st : Fallback.Log) :
  Fallback.call g v m st =
  Fallback.catch (Fallback.request g v m)
    (fun e st1 =>
       if negb (Fallback.is_429 e) then (inr e, st1)
       else match Fallback.retry_hint e with
            | Some seconds =>
              Fallback.request g v m (Fallback.sleep seconds st1)
            | None => (inr e, st1)
            end) st.
Proof. reflexivity. Qed.

Lemma bounded_ext (n k : nat) (f f' : Fallback.M Fallback.Outcome) :
  (forall st, f st = f' st) -> Fallback.bounded n k f' ->
  Fallback.bounded n k f.
Proof. intros E H st. rewrite E. apply H. Qed.

Lemma bounded_call (v : Fallback.ApiVersion) (m : string) :
  Fallback.bounded 2 1 (Fallback.call g v m).
Proof.
  eapply bounded_ext; [apply call_catch|].
  apply (bounded_catch 1 0 1 1); [apply bounded_request|].
  intros e.
  destruct (negb (Fallback.is_429 e)).
  { eapply bounded_weaken; [apply bounded_throw|lia..]. }
  destruct (Fallback.retry_hint e) as [seconds|] eqn:E.
  - apply bounded_sleep; [by eapply retry_hint_short|apply bounded_request].
  - eapply bounded_weaken; [apply bounded_throw|lia..].
Qed.

Lemma try_model_catch (m : string) (st : Fallback.Log) :
  Fallback.try_model g m st =
  Fallback.catch (Fallback.call g Fallback.v1beta m)
    (fun err st1 =>
       if Fallback.is_429 err then (inr err, st1)
       else if negb (Fallback.shouldRetry err) then (inr err, st1)
       else Fallback.call g Fallback.v1 m st1) st.
Proof. reflexivity. Qed.

Lemma bounded_try_model (m : string) :
  Fallback.bounded 4 2 (Fallback.try_model g m).
Proof.
  eapply bounded_ext; [apply try_model_catch|].
  apply (bounded_catch 2 1 2 1); [apply bounded_call|].
  intros e.
  destruct (Fallback.is_429 e).
  { eapply bounded_weaken; [apply bounded_throw|lia..]. }
  destruct (negb (Fallback.shouldRetry e)).
  { eapply bounded_weaken; [apply bounded_throw|lia..]. }
  apply bounded_call.
Qed.

Lemma try_models_catch (primary m : string) (rest : list string)
    (lastErr : Fallback.ApiError) (st : Fallback.Log) :
  String.eqb m primary = false ->
  Fallback.try_models g primary (m :: rest) lastErr st =
  Fallback.catch (Fallback.try_model g m)
    (fun e => Fallback.try_models g primary rest e) st.
Proof. intros E. cbn. by rewrite E. Qed.

Lemma bounded_try_models (primary : string) (models : list string)
    (lastErr : Fallback.ApiError) :
  Fallback.bounded (4 * length models) (2 * length models)
    (Fallback.try_models g primary models lastErr).
Proof.
  revert lastErr. induction models as [|m rest IH]; intros lastErr.
  - apply bounded_throw.
  - destruct (String.eqb m primary) eqn:E.
    + eapply bounded_ext; [intros st; cbn; rewrite E; reflexivity|].
      eapply bounded_weaken; [apply IH|cbn; lia..].
    + eapply bounded_ext; [intros st; by apply try_models_catch|].
      eapply bounded_weaken.
      * apply (bounded_catch 4 2); [apply bounded_try_model|].
        intros e. apply IH.
      * cbn [length]. lia.
      * cbn [length]. lia.
Qed.

Lemma generateWithFallback_catch (primary : string) (st : Fallback.Log) :
  Fallback.catch (Fallback.call g Fallback.v1beta primary)
    (fun e st1 =>
       if Fallback.is_429 e then (inr e, st1)
       else if negb (Fallback.shouldRetry e) then (inr e, st1)
       else
         Fallback.catch (Fallback.call g Fallback.v1 primary)
           (fun e2 =>
              Fallback.try_models g primary Fallback.fallbackModels e2) st1)
    st =
  (let '(o, st1) := Fallback.call g Fallback.v1beta primary st in
   match o with
   | inl text => (inl text, st1)
   | inr e =>
     if Fallback.is_429 e then (inr e, st1)
     else if negb (Fallback.shouldRetry e) then (inr e, st1)
     else
       let '(o2, st2) := Fallback.call g Fallback.v1 primary st1 in
       match o2 with
       | inl text => (inl text, st2)
       | inr e2 =>
         Fallback.try_models g primary Fallback.fallbackModels e2 st2
       end
   end).
Proof. reflexivity. Qed.

Lemma bounded_generateWithFallback (apiKey model : option string) :
  Fallback.bounded 16 8 (Fallback.generateWithFallback g apiKey model).
Proof.
  unfold Fallback.generateWithFallback.
  destruct (String.eqb (Js.trim _) "").
  { eapply bounded_weaken; [apply bounded_throw|lia..]. }
  set (primary := if String.eqb _ "" then _ else _).
  eapply bounded_ext;
    [intros st; symmetry; apply (generateWithFallback_catch primary)|].
  apply (bounded_catch 2 1 14 7); [apply bounded_call|].
  intros e.
  destruct (Fallback.is_429 e).
  { eapply bounded_weaken; [apply bounded_throw|lia..]. }
  destruct (negb (Fallback.shouldRetry e)).
  { eapply bounded_weaken; [apply bounded_throw|lia..]. }
  apply (bounded_catch 2 1 12 6); [apply bounded_call|].
  intros e2. apply (bounded_try_models primary Fallback.fallbackModels).
Qed.

End FallbackProperties.

(** X28: whatever the service answers, one call of [_generateWithFallback]
    makes at most 16 requests and waits at most 8 times, each time more
    than 0 and at most 120 seconds; a text it returns is the answer of its
    last request, all earlier requests having failed, and when it throws
    every request it made failed. *)
Theorem generateWithFallback_is_bounded
    (g : nat -> Fallback.ApiVersion -> string -> Fallback.Outcome)
    (apiKey model : option string) :
  let '(o, st) := Fallback.generateWithFallback g apiKey model Fallback.empty in
  length (Fallback.requests st) <= 16 /\
  length (Fallback.sleeps st) <= 8 /\
  Forall Fallback.short_wait (Fallback.sleeps st) /\
  match o with
  | inl text =>
    exists before v m,
      Fallback.requests st = before ++ [(v, m, inl text)] /\
      Forall (fun r => Fallback.succeeded r = false) before
  | inr _ => Forall (fun r => Fallback.succeeded r = false) (Fallback.requests st)
  end.
Proof.
  destruct (bounded_generateWithFallback g apiKey model Fallback.empty)
    as (new & waits & H1 & H2 & H3 & H4 & H5 & H6).
  destruct (Fallback.generateWithFallback g apiKey model Fallback.empty)
    as [o st].
  cbn in H1, H2, H6. rewrite H1, H2. by repeat split.
Qed.

(** ** The names of attached files *)

Lemma encode_app (a b : string) :
  Js.encodeURIComponent (a +:+ b) =
  Js.encodeURIComponent a +:+ Js.encodeURIComponent b.
Proof.
  unfold Js.encodeURIComponent.
  by rewrite chars_append, flat_map_app, str_app.
Qed.

Lemma encode_unreserved (s : string) :
  Forall (fun a => Js.uri_unreserved a = true) (Js.chars s) ->
  Js.encodeURIComponent s = s.
Proof.
  intros H. unfold Js.encodeURIComponent.
  rewrite <- (str_chars s) at 2. f_equal.
  induction H as [|a l Ha _ IH]; [done|].
  cbn [flat_map]. unfold Js.encode_byte at 1. rewrite Ha. cbn. by rewrite IH.
Qed.

Lemma safe_char_unreserved (a : ascii) :
  Media.is_safe_char a = true -> Js.uri_unreserved a = true.
Proof.
  unfold Media.is_safe_char, Js.uri_unreserved. cbn zeta.
  set (n := nat_of_ascii a). intros H.
  repeat (apply orb_true_iff in H as [H|H]);
    rewrite ?H, ?orb_true_r; reflexivity.
Qed.

Lemma safe_name_chars (originalname : option string) (fallback : string) :
  Forall (fun a => Media.is_safe_char a = true)
         (Js.chars (Media.safe_name originalname fallback)).
Proof.
  unfold Media.safe_name. rewrite chars_str.
  apply Forall_forall. intros a Ha.
  apply list_elem_of_fmap in Ha as (b & -> & _).
  by destruct (Media.is_safe_char b) eqn:E.
Qed.

(** X29: the name of an attached file cannot reach outside its folder nor
    need an escape: whatever name the upload carries, the name used in the
    storage key has the same length and only letters, digits, [.], [_]
    and [-], so that the URL stored for the preview image (and the video)
    is the base, the route, the project id encoded, one encoded slash and
    then the prefix, the time stamp and that name as they are. *)
Theorem attached_file_name_is_safe (baseUrl id now : string)
    (originalname : option string) :
  Forall (fun a => Js.uri_unreserved a = true) (Js.chars now) ->
  Forall (fun a => Media.is_safe_char a = true)
         (Js.chars (Media.safe_name originalname "image")) /\
  String.length (Media.safe_name originalname "image") =
    String.length (default "image" (Js.or_else originalname (Some "image"))) /\
  Media.previewImageUrl baseUrl id now originalname =
    Js.strip_trailing_slash baseUrl +:+ "/api/projects/files/" +:+
    Js.encodeURIComponent id +:+ "%2Fpreview_" +:+ now +:+ "_" +:+
    Media.safe_name originalname "image" /\
  Media.previewVideoUrl baseUrl id now originalname =
    Js.strip_trailing_slash baseUrl +:+ "/api/projects/files/" +:+
    Js.encodeURIComponent id +:+ "%2Fvideo_" +:+ now +:+ "_" +:+
    Media.safe_name originalname "video".
Proof.
  intros Hnow.
  assert (Hsafe : forall fb,
            Js.encodeURIComponent (Media.safe_name originalname fb) =
            Media.safe_name originalname fb).
  { intros fb. apply encode_unreserved.
    eapply Forall_impl; [apply safe_name_chars|].
    intros a. apply safe_char_unreserved. }
  split; [apply safe_name_chars|]. split.
  { unfold Media.safe_name. by rewrite length_str, length_map, length_chars. }
  unfold Media.previewImageUrl, Media.previewVideoUrl, Media.previewKey,
    Media.videoKey, fileUrl.
  rewrite !encode_app, !Hsafe, !(encode_unreserved now Hnow).
  split; reflexivity.
Qed.

Lemma attached_file_name_is_safe_witness :
  Media.previewImageUrl "https://api.example/" "p1" "1700000000000"
    (Some "../my shot.png") =
  "https://api.example/api/projects/files/p1%2Fpreview_1700000000000_.._my_shot.png".
Proof.
  destruct (attached_file_name_is_safe "https://api.example/" "p1"
              "1700000000000" (Some "../my shot.png"))
    as (_ & _ & -> & _); [by repeat constructor|reflexivity].
Defined.
